(** * Asset management application: models, forms and views

    A shallow embedding of [assets/models.py], [assets/forms.py],
    [assets/views.py] and [assets/urls.py].  The relational tables are finite
    maps from primary key to row, the activity log is an append-only list,
    and every view is a state-passing function over the database.

    Conventions
    - [Decimal] columns are fixed-point integers scaled by their
      [decimal_places] (value: hundredths, coordinates: 10^-7).
    - [DateField] values are proleptic ordinals.
    - Text is held as its UTF-8 bytes.
    - A request has one of the eight methods of [View.http_method_names];
      a submitted form holds, field by field, the value the field's own
      conversion gave, or the messages with which the field refused it.
    - [mimetypes.guess_type], [float], [email.header.Header.encode],
      [django.utils.ipv6.clean_ipv6_address] and the settings of the
      project's settings module ([LOGIN_URL] and the two document
      settings) are parameters.
    - The [auto_now] timestamp columns, the flash messages of
      [django.contrib.messages] and the [next] query string of a redirect
      to the login page are not represented.  Two writes of one request
      to different tables are seen only through the tables they leave. *)

From Stdlib Require Import ZArith Lia Ascii String.
From stdpp Require Import base option list strings gmap sorting pretty.

Local Open Scope string_scope.
Local Open Scope list_scope.
Local Open Scope Z_scope.

(* ===================================================================== *)
(** * models.py *)
(* ===================================================================== *)

Definition User := nat.
Definition Decimal := Z.
Definition Date := Z.
Definition bytes := list Byte.byte.

(** The sixteen optional columns that only some categories use. *)
Record SpecialFields := {
  area : option Decimal;
  area_unit : option string;
  weight_grams : option Decimal;
  gold_purity : option string;
  units : option Decimal;
  purchase_price_per_unit : option Decimal;
  current_nav : option Decimal;
  folio_number : option string;
  sum_assured : option Decimal;
  premium_amount : option Decimal;
  premium_frequency : option string;
  nominee : option string;
  interest_rate : option Decimal;
  maturity_amount : option Decimal;
  policy_number : option string;
  institution : option string
}.

Definition no_special : SpecialFields :=
  {| area := None; area_unit := None; weight_grams := None;
     gold_purity := None; units := None; purchase_price_per_unit := None;
     current_nav := None; folio_number := None; sum_assured := None;
     premium_amount := None; premium_frequency := None; nominee := None;
     interest_rate := None; maturity_amount := None; policy_number := None;
     institution := None |}.

Module Asset.
Record t := mk {
  owner : User;
  name : string;
  category : string;
  value : Decimal;
  description : option string;
  start_date : Date;
  end_date : option Date;
  latitude : option Decimal;
  longitude : option Decimal;
  special : SpecialFields
}.

Definition CATEGORY_CHOICES : list (string * string) :=
  [ ("mutual_funds", "Mutual Funds");
    ("stocks", "Stocks");
    ("lands", "Lands");
    ("flats", "Flats");
    ("fixed_deposit", "Fixed Deposit");
    ("medical_insurance", "Medical Insurance");
    ("life_insurance", "Life Insurance");
    ("gold", "Gold") ].
End Asset.

(** [os.path.splitext]: the extension starts at the last dot of the last
    path component, leading dots of that component not counting. *)
Fixpoint rfind_from (c : ascii) (s : list ascii) (i : nat) (acc : option nat)
  : option nat :=
  match s with
  | [] => acc
  | x :: s' => rfind_from c s' (S i) (if decide (x = c) then Some i else acc)
  end.

Definition rfind (c : ascii) (s : list ascii) : option nat := rfind_from c s 0%nat None.

Definition splitext (p : string) : string * string :=
  let l := list_ascii_of_string p in
  let filenameIndex := match rfind "/"%char l with Some i => S i | None => 0%nat end in
  match rfind "."%char l with
  | Some dotIndex =>
      if decide (filenameIndex <= dotIndex)%nat then
        if forallb (λ x, bool_decide (x = "."%char))
                   (take (dotIndex - filenameIndex) (drop filenameIndex l))
        then (p, EmptyString)
        else (string_of_list_ascii (take dotIndex l),
              string_of_list_ascii (drop dotIndex l))
      else (p, EmptyString)
  | None => (p, EmptyString)
  end.

Definition lower_ascii (c : ascii) : ascii :=
  let n := nat_of_ascii c in
  if decide (65 <= n <= 90)%nat then ascii_of_nat (n + 32) else c.

Definition lower (s : string) : string :=
  string_of_list_ascii (lower_ascii <$> list_ascii_of_string s).

(** [sub in s] *)
Fixpoint contains (sub s : string) : bool :=
  String.prefix sub s
  || match s with
     | EmptyString => false
     | String _ s' => contains sub s'
     end.

(** Python truthiness of the values that occur. *)
Definition truthy_str (s : string) : bool := negb (bool_decide (s = EmptyString)).
Definition truthy_ostr (s : option string) : bool := from_option truthy_str false s.
Definition truthy_odec (d : option Decimal) : bool :=
  from_option (λ x, negb (Z.eqb x 0)) false d.
Definition truthy_odate (d : option Date) : bool := bool_decide (is_Some d).

(** An uploaded file as the multipart parser hands it over. *)
Module UploadedFile.
Record t := mk { name : string; content : bytes }.
Definition read (f : t) : bytes := content f.
Definition size (f : t) : nat := length (content f).
End UploadedFile.

Module AssetDocument.
Record t := mk {
  asset : nat;
  file_data : option bytes;
  file_name : option string;
  file_type : option string;
  file_size : option nat;
  name : string
}.

Definition ALLOWED_EXTENSIONS : list string :=
  ["pdf"; "jpg"; "jpeg"; "png"; "gif"; "doc"; "docx"; "xls"; "xlsx"].

Definition filename (d : t) : option string := file_name d.

Definition file_extension (d : t) : string :=
  match file_name d with
  | Some n => if truthy_str n then lower (splitext n).2 else EmptyString
  | None => EmptyString
  end.

(** The part of [save] that runs before the row is written. *)
Definition pre_save (d : t) : t :=
  if negb (truthy_str (name d)) && truthy_ostr (file_name d)
  then mk (asset d) (file_data d) (file_name d) (file_type d) (file_size d)
          (splitext (default EmptyString (file_name d))).1
  else d.
End AssetDocument.

Module ActivityLog.
Record t := mk {
  user : option User;
  action : string;
  asset_name : string;
  asset_category : string;
  details : option string;
  ip_address : option string
}.

Definition ACTION_CHOICES : list (string * string) :=
  [ ("create", "Created");
    ("update", "Updated");
    ("delete", "Deleted");
    ("view", "Viewed");
    ("upload", "Document Uploaded");
    ("download", "Document Downloaded") ].
End ActivityLog.

(** ** The database *)

Record DB := mkDB {
  assets : gmap nat Asset.t;
  asset_seq : nat;
  documents : gmap nat AssetDocument.t;
  document_seq : nat;
  activity_logs : list ActivityLog.t
}.

Definition empty_db : DB := mkDB ∅ 1 ∅ 1 [].

(** Database-writing code is state passing over [DB]. *)
Definition ORM (A : Type) : Type := DB → A * DB.

#[global] Instance ORM_ret : MRet ORM := λ A a db, (a, db).
#[global] Instance ORM_bind : MBind ORM :=
  λ A B f m db, let '(a, db') := m db in f a db'.

Fixpoint for_each {A} (l : list A) (body : A → ORM unit) : ORM unit :=
  match l with
  | [] => mret tt
  | x :: l' => body x ;; for_each l' body
  end.


(** ** Manager and instance operations *)

Definition set_assets (f : gmap nat Asset.t → gmap nat Asset.t) (db : DB) : DB :=
  mkDB (f (assets db)) (asset_seq db) (documents db) (document_seq db)
       (activity_logs db).

Definition set_documents (f : gmap nat AssetDocument.t → gmap nat AssetDocument.t)
    (db : DB) : DB :=
  mkDB (assets db) (asset_seq db) (f (documents db)) (document_seq db)
       (activity_logs db).

(** INSERT with the next value of the primary-key sequence. *)
Definition Asset_insert (a : Asset.t) : ORM nat := λ db,
  let pk := asset_seq db in
  (pk, mkDB (<[pk := a]> (assets db)) (S pk) (documents db) (document_seq db)
            (activity_logs db)).

(** UPDATE of the row with primary key [pk]. *)
Definition Asset_update (pk : nat) (a : Asset.t) : ORM unit := λ db,
  (tt, set_assets (<[pk := a]>) db).

(** [asset.delete()]: the documents go first ([on_delete=CASCADE] on
    [AssetDocument.asset]), then the row itself. *)
Definition Asset_delete (pk : nat) : ORM unit := λ db,
  (tt, set_assets (delete pk)
         (set_documents (filter (λ kd, AssetDocument.asset kd.2 ≠ pk)) db)).

(** [AssetDocument.objects.create(..)]: [save] fills in the display name. *)
Definition AssetDocument_objects_create (d : AssetDocument.t)
  : ORM (nat * AssetDocument.t) := λ db,
  let pk := document_seq db in
  let d' := AssetDocument.pre_save d in
  ((pk, d'),
   mkDB (assets db) (asset_seq db) (<[pk := d']> (documents db)) (S pk)
        (activity_logs db)).

Definition AssetDocument_delete (pk : nat) : ORM unit := λ db,
  (tt, set_documents (delete pk) db).

(** [Asset.objects.filter(owner=user)], as (pk, row) pairs.  The rows come
    in the order of the table, not in the [Meta.ordering]; what is computed
    from them below either does not depend on the order or sorts first. *)
Definition Asset_objects_filter_owner (db : DB) (u : User) : list (nat * Asset.t) :=
  filter (λ ka, Asset.owner ka.2 = u) (map_to_list (assets db)).

(** [queryset.get(pk=pk)] on the owner-scoped queryset. *)
Definition get_owned_asset (db : DB) (u : User) (pk : nat) : option Asset.t :=
  a ← assets db !! pk; if decide (Asset.owner a = u) then Some a else None.

(** [asset.documents.all()] *)
Definition asset_documents (db : DB) (pk : nat) : list (nat * AssetDocument.t) :=
  filter (λ kd, AssetDocument.asset kd.2 = pk) (map_to_list (documents db)).

Section Models.
(** [mimetypes.guess_type(name)[0]] of the Python standard library. *)
Variable guess_type : string → option string.

Definition AssetDocument_create_from_file (asset : nat) (uploaded_file : UploadedFile.t)
  : ORM (nat * AssetDocument.t) :=
  let mime_type := guess_type (UploadedFile.name uploaded_file) in
  let mime_type :=
    if negb (truthy_ostr mime_type) then "application/octet-stream"
    else default EmptyString mime_type in
  let file_content := UploadedFile.read uploaded_file in
  AssetDocument_objects_create
    (AssetDocument.mk asset (Some file_content)
       (Some (UploadedFile.name uploaded_file)) (Some mime_type)
       (Some (length file_content)) EmptyString).

(** [django.utils.ipv6.clean_ipv6_address(value)]: the address in its
    compressed lower-case form; [None] where it raises. *)
Variable clean_ipv6_address : string → option string.

(** What [GenericIPAddressField] hands to the database:
    [get_prep_value] rewrites a text that holds a colon when it is an IPv6
    address, and [adapt_ipaddressfield_value] is [value or None]. *)
Definition GenericIPAddressField_get_db_prep_value (value : option string)
  : option string :=
  let value :=
    match value with
    | None => None
    | Some v =>
        if truthy_str v && contains ":" v
        then Some (default v (clean_ipv6_address v))
        else Some v
    end in
  if truthy_ostr value then value else None.

(** [ActivityLog.objects.create(..)]: the row as the columns store it. *)
Definition ActivityLog_stored (row : ActivityLog.t) : ActivityLog.t :=
  ActivityLog.mk (ActivityLog.user row) (ActivityLog.action row)
    (ActivityLog.asset_name row) (ActivityLog.asset_category row)
    (ActivityLog.details row)
    (GenericIPAddressField_get_db_prep_value (ActivityLog.ip_address row)).

Definition ActivityLog_objects_create (row : ActivityLog.t) : ORM unit := λ db,
  (tt, mkDB (assets db) (asset_seq db) (documents db) (document_seq db)
            (activity_logs db ++ [ActivityLog_stored row])).

Definition ActivityLog_log_action (user : User) (action : string) (asset : Asset.t)
    (details : option string) (ip_address : option string) : ORM unit :=
  ActivityLog_objects_create
    (ActivityLog.mk (Some user) action (Asset.name asset) (Asset.category asset)
       details ip_address).
End Models.

(* ===================================================================== *)
(** * forms.py *)
(* ===================================================================== *)

(** The submitted asset form.  Each entry is the value that the field's
    own conversion and validators gave; [None] is an entry that is blank or
    that the field refused.  [field_errors] lists the refused entries by
    field name, with the messages of the field; a field with a value is
    not refused.  [value_str] is Python's [str] of the Decimal that the
    value field parsed, which keeps the digits as they were typed. *)
Module FormData.
Record t := mk {
  name : option string;
  category : option string;
  value : option Decimal;
  description : option string;
  start_date : option Date;
  end_date : option Date;
  latitude : option Decimal;
  longitude : option Decimal;
  special : SpecialFields;
  value_str : string;
  field_errors : list (string * string)
}.

(** An empty [QueryDict]. *)
Definition empty : t :=
  mk None None None None None None None None no_special EmptyString [].
End FormData.

Definition ValidationError := string.

Module AssetForm.
Record t := mk {
  category : option string;            (* the [category] keyword argument *)
  instance : option (nat * Asset.t);   (* the saved row being edited *)
  data : FormData.t
}.

Definition Meta_fields : list string :=
  [ "name"; "category"; "value"; "description";
    "start_date"; "end_date";
    "latitude"; "longitude"; "area"; "area_unit";
    "weight_grams"; "gold_purity";
    "units"; "purchase_price_per_unit"; "current_nav"; "folio_number";
    "sum_assured"; "premium_amount"; "premium_frequency"; "nominee";
    "interest_rate"; "maturity_amount";
    "policy_number"; "institution" ].

(** [required] of each form field as the model declares it: a column
    without [blank=True] is required. *)
Definition model_required : gmap string bool :=
  list_to_map
    ((λ f, (f, bool_decide (f ∈ ["name"; "category"; "value"; "start_date"])))
       <$> Meta_fields).

Definition category_fields : gmap string (list string) :=
  list_to_map
    [ ("lands", ["latitude"; "longitude"; "area"; "area_unit"]);
      ("flats", ["area"; "area_unit"]);
      ("gold", ["weight_grams"; "gold_purity"]);
      ("stocks", ["units"; "purchase_price_per_unit"; "current_nav"; "institution"]);
      ("mutual_funds", ["units"; "purchase_price_per_unit"; "current_nav";
                        "folio_number"; "institution"]);
      ("fixed_deposit", ["interest_rate"; "maturity_amount"; "policy_number";
                         "institution"]);
      ("medical_insurance", ["sum_assured"; "premium_amount"; "premium_frequency";
                             "nominee"; "policy_number"; "institution"]);
      ("life_insurance", ["sum_assured"; "premium_amount"; "premium_frequency";
                          "nominee"; "policy_number"; "institution"]) ].

Definition all_special_fields : list string :=
  [ "latitude"; "longitude"; "area"; "area_unit";
    "weight_grams"; "gold_purity";
    "units"; "purchase_price_per_unit"; "current_nav"; "folio_number";
    "sum_assured"; "premium_amount"; "premium_frequency"; "nominee";
    "interest_rate"; "maturity_amount" ].

(** The [required] flags after [_setup_category_fields]. *)
Definition _setup_category_fields (category : option string)
    (fields : gmap string bool) : gmap string bool :=
  let relevant_fields := default [] (c ← category; category_fields !! c) in
  let fields :=
    foldl (λ fields field_name,
             if decide (is_Some (fields !! field_name))
             then <[field_name := false]> fields else fields)
          fields all_special_fields in
  if decide (category = Some "lands")
  then <["longitude" := true]> (<["latitude" := true]> fields)
  else fields.

(** [__init__]: the flags of the bound form. *)
Definition fields_required (form : t) : gmap string bool :=
  let current_category :=
    if truthy_ostr (category form) then category form
    else (Asset.category ∘ snd) <$> instance form in
  _setup_category_fields current_category model_required.

Definition is_required (required : gmap string bool) (field_name : string) : bool :=
  default false (required !! field_name).

(** The messages with which a field refused its entry. *)
Definition refused (d : FormData.t) (field_name : string) : list (string * string) :=
  filter (λ e, e.1 = field_name) (FormData.field_errors d).

(** [Field.clean] of one form field.  A refused entry and a blank
    required one are errors and stay out of [cleaned_data]; a blank entry
    that is not required cleans to the field's [empty_value]. *)
Definition clean_field {A} (required : gmap string bool) (d : FormData.t)
    (field_name : string) (v : option A) (empty_value : option A)
    : option A * list (string * string) :=
  match v with
  | Some x => (Some x, [])
  | None =>
      match refused d field_name with
      | [] =>
          if is_required required field_name
          then (None, [(field_name, "This field is required.")])
          else (empty_value, [])
      | messages => (None, messages)
      end
  end.

Definition blank_to_None (v : option string) : option string :=
  if truthy_ostr v then v else None.

(** The choice check of the [category] field. *)
Definition clean_choice (required : gmap string bool) (d : FormData.t)
    (v : option string) : option string * list (string * string) :=
  match blank_to_None v with
  | Some c =>
      if bool_decide (c ∈ Asset.CATEGORY_CHOICES.*1) then (Some c, [])
      else (None, [("category",
                    "Select a valid choice. " +:+ c
                      +:+ " is not one of the available choices.")])
  | None => clean_field required d "category" None (Some EmptyString)
  end.

(** The sixteen optional entries by field name, in the order of
    [Meta.fields]: whether the entry has a value. *)
Definition special_given (s : SpecialFields) : list (string * bool) :=
  [ ("area", bool_decide (is_Some (area s)));
    ("area_unit", bool_decide (is_Some (area_unit s)));
    ("weight_grams", bool_decide (is_Some (weight_grams s)));
    ("gold_purity", bool_decide (is_Some (gold_purity s)));
    ("units", bool_decide (is_Some (units s)));
    ("purchase_price_per_unit", bool_decide (is_Some (purchase_price_per_unit s)));
    ("current_nav", bool_decide (is_Some (current_nav s)));
    ("folio_number", bool_decide (is_Some (folio_number s)));
    ("sum_assured", bool_decide (is_Some (sum_assured s)));
    ("premium_amount", bool_decide (is_Some (premium_amount s)));
    ("premium_frequency", bool_decide (is_Some (premium_frequency s)));
    ("nominee", bool_decide (is_Some (nominee s)));
    ("interest_rate", bool_decide (is_Some (interest_rate s)));
    ("maturity_amount", bool_decide (is_Some (maturity_amount s)));
    ("policy_number", bool_decide (is_Some (policy_number s)));
    ("institution", bool_decide (is_Some (institution s))) ].

(** The errors of the sixteen optional fields, none of which is ever
    required: the messages of the refused entries. *)
Definition clean_special (d : FormData.t) : list (string * string) :=
  mjoin ((λ fg : string * bool, if fg.2 then [] else refused d fg.1)
           <$> special_given (FormData.special d)).

(** Field-by-field cleaning: [cleaned_data] and the field errors. *)
Definition clean_fields (form : t) : FormData.t * list (string * string) :=
  let req := fields_required form in
  let d := data form in
  let '(name, e1) :=
    clean_field req d "name" (blank_to_None (FormData.name d)) (Some EmptyString) in
  let '(category, e2) := clean_choice req d (FormData.category d) in
  let '(value, e3) := clean_field req d "value" (FormData.value d) None in
  let '(description, e4) :=
    clean_field req d "description" (blank_to_None (FormData.description d))
      (Some EmptyString) in
  let '(start_date, e5) := clean_field req d "start_date" (FormData.start_date d) None in
  let '(end_date, e6) := clean_field req d "end_date" (FormData.end_date d) None in
  let '(latitude, e7) := clean_field req d "latitude" (FormData.latitude d) None in
  let '(longitude, e8) := clean_field req d "longitude" (FormData.longitude d) None in
  (FormData.mk name category value description start_date end_date
               latitude longitude (FormData.special d)
               (FormData.value_str d) (FormData.field_errors d),
   e1 ++ e2 ++ e3 ++ e4 ++ e5 ++ e6 ++ e7 ++ e8 ++ clean_special d).

Definition date_lt (a b : option Date) : bool :=
  match a, b with
  | Some x, Some y => x <? y
  | _, _ => false
  end.

Definition clean (cleaned_data : FormData.t) : FormData.t + ValidationError :=
  let category := FormData.category cleaned_data in
  let start_date := FormData.start_date cleaned_data in
  let end_date := FormData.end_date cleaned_data in
  if truthy_odate start_date && truthy_odate end_date && date_lt end_date start_date
  then inr "End date cannot be before start date."
  else
    if decide (category = Some "lands") then
      let latitude := FormData.latitude cleaned_data in
      let longitude := FormData.longitude cleaned_data in
      if negb (truthy_odec latitude) || negb (truthy_odec longitude)
      then inr "Latitude and Longitude are required for land assets."
      else inl cleaned_data
    else inl cleaned_data.

(** [full_clean]: the field errors, then the error of [clean] under the
    key of the non-field errors. *)
Definition errors (form : t) : list (string * string) :=
  let '(cleaned_data, field_errors) := clean_fields form in
  match clean cleaned_data with
  | inl _ => field_errors
  | inr e => field_errors ++ [("__all__", e)]
  end.

Definition is_valid (form : t) : bool := bool_decide (errors form = []).

Definition cleaned_data (form : t) : FormData.t := (clean_fields form).1.

(** The model instance that [save] writes; [None] when a column that
    cannot be null has no value. *)
Definition construct_instance (owner : User) (cd : FormData.t) : option Asset.t :=
  name ← FormData.name cd;
  category ← FormData.category cd;
  value ← FormData.value cd;
  start_date ← FormData.start_date cd;
  Some (Asset.mk owner name category value (FormData.description cd) start_date
          (FormData.end_date cd) (FormData.latitude cd) (FormData.longitude cd)
          (FormData.special cd)).

(** [_post_clean]: whether the form validates or not, [construct_instance]
    writes every entry of [cleaned_data] into the form's instance, which
    is the object of the view.  A field with an error is not in
    [cleaned_data] and keeps the value of the instance. *)
Definition post_clean_column {A} (cleaned : option A * list (string * string))
    (old : A) : A :=
  match cleaned with
  | (Some x, []) => x
  | _ => old
  end.

Definition post_clean_null {A} (cleaned : option A * list (string * string))
    (old : option A) : option A :=
  match cleaned with
  | (v, []) => v
  | _ => old
  end.

Definition post_clean_special {A} (d : FormData.t) (field_name : string)
    (new old : option A) : option A :=
  match new with
  | Some _ => new
  | None => match refused d field_name with [] => None | _ => old end
  end.

Definition post_clean_instance (form : t) (old : Asset.t) : Asset.t :=
  let req := fields_required form in
  let d := data form in
  let s := FormData.special d in
  let o := Asset.special old in
  Asset.mk (Asset.owner old)
    (post_clean_column
       (clean_field req d "name" (blank_to_None (FormData.name d)) (Some EmptyString))
       (Asset.name old))
    (post_clean_column (clean_choice req d (FormData.category d)) (Asset.category old))
    (post_clean_column (clean_field req d "value" (FormData.value d) None)
       (Asset.value old))
    (post_clean_null
       (clean_field req d "description" (blank_to_None (FormData.description d))
          (Some EmptyString))
       (Asset.description old))
    (post_clean_column (clean_field req d "start_date" (FormData.start_date d) None)
       (Asset.start_date old))
    (post_clean_null (clean_field req d "end_date" (FormData.end_date d) None)
       (Asset.end_date old))
    (post_clean_null (clean_field req d "latitude" (FormData.latitude d) None)
       (Asset.latitude old))
    (post_clean_null (clean_field req d "longitude" (FormData.longitude d) None)
       (Asset.longitude old))
    {| area := post_clean_special d "area" (area s) (area o);
       area_unit := post_clean_special d "area_unit" (area_unit s) (area_unit o);
       weight_grams :=
         post_clean_special d "weight_grams" (weight_grams s) (weight_grams o);
       gold_purity :=
         post_clean_special d "gold_purity" (gold_purity s) (gold_purity o);
       units := post_clean_special d "units" (units s) (units o);
       purchase_price_per_unit :=
         post_clean_special d "purchase_price_per_unit"
           (purchase_price_per_unit s) (purchase_price_per_unit o);
       current_nav :=
         post_clean_special d "current_nav" (current_nav s) (current_nav o);
       folio_number :=
         post_clean_special d "folio_number" (folio_number s) (folio_number o);
       sum_assured :=
         post_clean_special d "sum_assured" (sum_assured s) (sum_assured o);
       premium_amount :=
         post_clean_special d "premium_amount" (premium_amount s) (premium_amount o);
       premium_frequency :=
         post_clean_special d "premium_frequency"
           (premium_frequency s) (premium_frequency o);
       nominee := post_clean_special d "nominee" (nominee s) (nominee o);
       interest_rate :=
         post_clean_special d "interest_rate" (interest_rate s) (interest_rate o);
       maturity_amount :=
         post_clean_special d "maturity_amount"
           (maturity_amount s) (maturity_amount o);
       policy_number :=
         post_clean_special d "policy_number" (policy_number s) (policy_number o);
       institution :=
         post_clean_special d "institution" (institution s) (institution o) |}.
End AssetForm.

Module AssetDocumentForm.
Section Settings.
(** [settings.ALLOWED_DOCUMENT_EXTENSIONS] and [settings.MAX_DOCUMENT_SIZE];
    [str_div a b] is Python's [str(a / b)]. *)
Variable ALLOWED_DOCUMENT_EXTENSIONS : list string.
Variable MAX_DOCUMENT_SIZE : Z.
Variable str_div : Z → Z → string.

Fixpoint clean_files_loop (files : list UploadedFile.t) : option ValidationError :=
  match files with
  | [] => None
  | f :: rest =>
      if truthy_str (UploadedFile.name f) then
        let ext := lower (splitext (UploadedFile.name f)).2 in
        if negb (bool_decide (ext ∈ ALLOWED_DOCUMENT_EXTENSIONS)) then
          Some ("File type '" +:+ ext +:+ "' is not allowed. Allowed types: "
                  +:+ String.concat ", " ALLOWED_DOCUMENT_EXTENSIONS)
        else if bool_decide (MAX_DOCUMENT_SIZE < Z.of_nat (UploadedFile.size f)) then
          Some ("File '" +:+ UploadedFile.name f +:+ "' exceeds maximum size of "
                  +:+ str_div MAX_DOCUMENT_SIZE (1024 * 1024) +:+ "MB.")
        else clean_files_loop rest
      else clean_files_loop rest
  end.

Definition clean_files (files : list UploadedFile.t)
    : list UploadedFile.t + ValidationError :=
  match clean_files_loop files with
  | Some e => inr e
  | None => inl files
  end.
End Settings.
End AssetDocumentForm.

(* ===================================================================== *)
(** * urls.py *)
(* ===================================================================== *)

Module urls.
Inductive t :=
| login | logout | signup
| dashboard
| asset_list
| asset_create
| asset_detail (pk : nat)
| asset_update (pk : nat)
| asset_delete (pk : nat)
| document_download (pk : nat)
| document_delete (pk : nat)
| activity_log
| chart_data_api.
End urls.

(* ===================================================================== *)
(** * views.py *)
(* ===================================================================== *)

(** [View.http_method_names] *)
Inductive HttpMethod :=
| HttpGET | HttpPOST | HttpPUT | HttpPATCH | HttpDELETE | HttpHEAD | HttpOPTIONS
| HttpTRACE.

(** Where a redirect points: a route of [urls.py], or a location that a
    setting gives as text. *)
Inductive Location :=
| Route (url : urls.t)
| Path (location : string).

Coercion Route : urls.t >-> Location.

Module HttpRequest.
Record t := mk {
  user : option User;              (* [None]: the anonymous user *)
  method : HttpMethod;
  GET : gmap string string;
  POST : FormData.t;
  FILES : list UploadedFile.t;     (* [FILES.getlist('files')] *)
  META : gmap string string
}.

(** Django fills [POST] and [FILES] from the body of a POST request only:
    the request as a handler sees it under another method. *)
Definition without_body (request : t) : t :=
  mk (user request) (method request) (GET request) FormData.empty [] (META request).
End HttpRequest.

Record BreakdownRow := {
  br_category : string;
  br_total : Decimal;
  br_count : nat
}.

Record ChartData (F : Type) := mkChartData {
  labels : list string;
  values : list F;
  colors : list string
}.
Arguments mkChartData {F} _ _ _.
Arguments labels {F} _.
Arguments values {F} _.
Arguments colors {F} _.

Record DashboardData (F : Type) := mkDashboardData {
  total_value : Decimal;
  total_assets : nat;
  category_breakdown : list BreakdownRow;
  chart_data : ChartData F;
  recent_assets : list (nat * Asset.t);
  recent_activity : list ActivityLog.t;
  category_counts : gmap string nat
}.
Arguments mkDashboardData {F} _ _ _ _ _ _ _.
Arguments total_value {F} _.
Arguments total_assets {F} _.
Arguments category_breakdown {F} _.
Arguments chart_data {F} _.
Arguments recent_assets {F} _.
Arguments recent_activity {F} _.
Arguments category_counts {F} _.

Inductive Context (F : Type) :=
| DashboardContext (d : DashboardData F)
| AssetDetailContext (asset : nat * Asset.t) (documents : list (nat * AssetDocument.t))
| AssetFormContext (is_edit : bool) (instance : option (nat * Asset.t))
    (errors : list (string * string)) (documents : list (nat * AssetDocument.t))
| AssetConfirmDeleteContext (asset : nat * Asset.t).
Arguments DashboardContext {F} _.
Arguments AssetDetailContext {F} _ _.
Arguments AssetFormContext {F} _ _ _ _.
Arguments AssetConfirmDeleteContext {F} _.

Inductive HttpResponse (F : Type) :=
| HttpResponseOk (content : option bytes) (content_type : option string)
    (headers : list (string * string))
| TemplateResponse (template_name : string) (context : Context F)
| JsonResponse (data : ChartData F)
| HttpResponseRedirect (to : Location)
| HttpResponseForbidden (content : string)
| HttpResponseNotFound
| HttpResponseNotAllowed (permitted_methods : list string)
| HttpResponseServerError.
Arguments HttpResponseOk {F} _ _ _.
Arguments TemplateResponse {F} _ _.
Arguments JsonResponse {F} _.
Arguments HttpResponseRedirect {F} _.
Arguments HttpResponseForbidden {F} _.
Arguments HttpResponseNotFound {F}.
Arguments HttpResponseNotAllowed {F} _.
Arguments HttpResponseServerError {F}.

Definition get_db : ORM DB := λ db, (db, db).

(** [s.split(',')[0]] *)
Fixpoint split_comma_head (s : string) : string :=
  match s with
  | EmptyString => EmptyString
  | String c s' => if decide (c = ","%char) then EmptyString
                   else String c (split_comma_head s')
  end.

Definition get_client_ip (request : HttpRequest.t) : option string :=
  let x_forwarded_for := HttpRequest.META request !! "HTTP_X_FORWARDED_FOR" in
  if truthy_ostr x_forwarded_for
  then split_comma_head <$> x_forwarded_for
  else HttpRequest.META request !! "REMOTE_ADDR".

(** [str] of a value column, written with its two decimal places. *)
Definition str_Decimal (v : Decimal) : string :=
  let a := Z.abs v in
  let frac := a mod 100 in
  (if v <? 0 then "-" else EmptyString) +:+ pretty (a / 100) +:+ "."
    +:+ (if frac <? 10 then "0" else EmptyString) +:+ pretty frac.

Definition quote : string := String (ascii_of_nat 34) EmptyString.

(** ** Response headers *)

(** [value.encode('latin-1')] succeeds: every character is at most
    U+00FF, which in UTF-8 is one byte below 128 or one of the lead bytes
    194 and 195 with its continuation byte. *)
Fixpoint latin_1 (s : string) : bool :=
  match s with
  | EmptyString => true
  | String c s' =>
      let n := nat_of_ascii c in
      if decide (n < 128)%nat then latin_1 s'
      else if decide (n = 194 ∨ n = 195)%nat then
        match s' with
        | EmptyString => false
        | String c' s'' =>
            bool_decide (128 ≤ nat_of_ascii c' < 192)%nat && latin_1 s''
        end
      else false
  end.

Definition has_line_break (s : string) : bool :=
  bool_decide (ascii_of_nat 10 ∈ list_ascii_of_string s
               ∨ ascii_of_nat 13 ∈ list_ascii_of_string s).

Definition disposition (file_name : string) : string :=
  "attachment; filename=" +:+ quote +:+ file_name +:+ quote.

(** ** Aggregation *)

(** [Sum('value')] over a queryset: NULL on no rows. *)
Definition Sum_value (qs : list (nat * Asset.t)) : option Decimal :=
  match qs with
  | [] => None
  | _ => Some (foldr (λ ka acc, Asset.value ka.2 + acc) 0 qs)
  end.

Definition Coalesce (v : option Decimal) (d : Decimal) : Decimal := default d v.

(** [.values('category').annotate(total=Sum('value'), count=Count('id'))
    .order_by('-total')]: one row per category that occurs.  The database
    leaves the order among equal totals open; the sort here is stable. *)
Definition by_total_desc (r1 r2 : BreakdownRow) : Prop := br_total r2 ≤ br_total r1.

#[global] Instance by_total_desc_dec : RelDecision by_total_desc :=
  λ r1 r2, decide (br_total r2 ≤ br_total r1).

Definition values_category_annotate (qs : list (nat * Asset.t)) : list BreakdownRow :=
  let groups := remove_dups ((Asset.category ∘ snd) <$> qs) in
  merge_sort by_total_desc
    ((λ c, let grp := filter (λ ka, Asset.category ka.2 = c) qs in
           {| br_category := c;
              br_total := default 0 (Sum_value grp);
              br_count := length grp |}) <$> groups).

Definition chart_colors : gmap string string :=
  list_to_map
    [ ("mutual_funds", "#3B82F6");
      ("stocks", "#10B981");
      ("lands", "#8B5CF6");
      ("flats", "#F59E0B");
      ("fixed_deposit", "#EF4444");
      ("medical_insurance", "#EC4899");
      ("life_insurance", "#06B6D4");
      ("gold", "#F97316") ].

Definition category_labels : gmap string string := list_to_map Asset.CATEGORY_CHOICES.

Definition label_of (c : string) : string := default c (category_labels !! c).
Definition color_of (c : string) : string := default "#6B7280" (chart_colors !! c).

Definition by_pk_desc (x y : nat * Asset.t) : Prop := (y.1 ≤ x.1)%nat.

#[global] Instance by_pk_desc_dec : RelDecision by_pk_desc :=
  λ x y, decide (y.1 ≤ x.1)%nat.

Section Views.
Variable guess_type : string → option string.
Context {F : Type}.
(** [float(d)] of a Decimal total. *)
Variable float : Decimal → F.
Variable clean_ipv6_address : string → option string.
(** [Header(value, 'utf-8', maxlinelen=sys.maxsize).encode()] of the
    Python standard library: the RFC 2047 form of a header value. *)
Variable mime_encode : string → string.
(** [resolve_url(settings.LOGIN_URL)] *)
Variable LOGIN_URL : Location.

Abbreviation Response := (HttpResponse F).

(** [LoginRequiredMixin] with [login_url = 'login'], as every class-based
    view has it. *)
Definition LoginRequiredMixin (request : HttpRequest.t) (view : User → ORM Response)
    : ORM Response :=
  match HttpRequest.user request with
  | Some u => view u
  | None => mret (HttpResponseRedirect urls.login)
  end.

(** [@login_required] without arguments, as the function views have it:
    the login page is the one of the settings. *)
Definition login_required (request : HttpRequest.t) (view : User → ORM Response)
    : ORM Response :=
  match HttpRequest.user request with
  | Some u => view u
  | None => mret (HttpResponseRedirect LOGIN_URL)
  end.

(** [response[header] = value] for a text value without a line break: a
    value outside Latin-1 is stored in its MIME form.  (A line break
    raises [BadHeaderError]; the value here is made of a stored file name,
    and file names come from the multipart parser, which drops the
    characters that are not printable.) *)
Definition convert_to_charset (value : string) : string :=
  if latin_1 value then value else mime_encode value.

(** *** Dashboard and chart data *)

Definition chart_of (category_breakdown : list BreakdownRow) : ChartData F :=
  {| labels := (label_of ∘ br_category) <$> category_breakdown;
     values := (float ∘ br_total) <$> category_breakdown;
     colors := (color_of ∘ br_category) <$> category_breakdown |}.

Definition DashboardView_get_context_data (db : DB) (user : User) : DashboardData F :=
  let assets := Asset_objects_filter_owner db user in
  let total_value := Coalesce (Sum_value assets) 0 in
  let category_breakdown := values_category_annotate assets in
  let chart_data := chart_of category_breakdown in
  (* ordering ['-created_at']: rows are created in primary-key order *)
  let recent_assets := take 5 (merge_sort by_pk_desc assets) in
  let recent_activity :=
    take 10 (reverse (filter (λ l, ActivityLog.user l = Some user)
                             (activity_logs db))) in
  let category_counts : gmap string nat :=
    foldl (λ m item, <[br_category item := br_count item]> m)
          (list_to_map ((λ cat, (cat.1, 0%nat)) <$> Asset.CATEGORY_CHOICES))
          category_breakdown in
  {| total_value := total_value;
     total_assets := length assets;
     category_breakdown := category_breakdown;
     chart_data := chart_data;
     recent_assets := recent_assets;
     recent_activity := recent_activity;
     category_counts := category_counts |}.

Definition DashboardView_get (request : HttpRequest.t) : ORM Response :=
  LoginRequiredMixin request (λ user,
    db ← get_db;
    mret (TemplateResponse "dashboard.html"
            (DashboardContext (DashboardView_get_context_data db user)))).

Definition chart_data_api (request : HttpRequest.t) : ORM Response :=
  login_required request (λ user,
    db ← get_db;
    let assets := Asset_objects_filter_owner db user in
    let category_breakdown := values_category_annotate assets in
    mret (JsonResponse (chart_of category_breakdown))).

(** *** Asset views *)

Definition AssetDetailView_get (request : HttpRequest.t) (pk : nat) : ORM Response :=
  LoginRequiredMixin request (λ user,
    db ← get_db;
    match get_owned_asset db user pk with
    | None => mret HttpResponseNotFound
    | Some object =>
        let documents := asset_documents db pk in
        ActivityLog_log_action clean_ipv6_address user "view" object None
          (get_client_ip request) ;;
        mret (TemplateResponse "assets/asset_detail.html"
                (AssetDetailContext (pk, object) documents))
    end).

Definition AssetCreateView_get (request : HttpRequest.t) : ORM Response :=
  LoginRequiredMixin request (λ user,
    mret (TemplateResponse "assets/asset_form.html"
            (AssetFormContext false None [] []))).

Definition AssetCreateView_form_valid (request : HttpRequest.t) (user : User)
    (form : AssetForm.t) : ORM Response :=
  match AssetForm.construct_instance user (AssetForm.cleaned_data form) with
  | None => mret HttpResponseServerError
  | Some object =>
      pk ← Asset_insert object;
      let response : Response := HttpResponseRedirect urls.asset_list in
      let files := HttpRequest.FILES request in
      for_each files (λ f,
        AssetDocument_create_from_file guess_type pk f ;; mret tt) ;;
      ActivityLog_log_action clean_ipv6_address user "create" object
        (Some ("Created asset with value "
                 +:+ FormData.value_str (AssetForm.cleaned_data form)))
        (get_client_ip request) ;;
      mret response
  end.

Definition AssetCreateView_post (request : HttpRequest.t) : ORM Response :=
  LoginRequiredMixin request (λ user,
    let form :=
      AssetForm.mk (HttpRequest.GET request !! "category") None
                   (HttpRequest.POST request) in
    if AssetForm.is_valid form
    then AssetCreateView_form_valid request user form
    else mret (TemplateResponse "assets/asset_form.html"
                 (AssetFormContext false None (AssetForm.errors form) []))).

Definition AssetUpdateView_get (request : HttpRequest.t) (pk : nat) : ORM Response :=
  LoginRequiredMixin request (λ user,
    db ← get_db;
    match get_owned_asset db user pk with
    | None => mret HttpResponseNotFound
    | Some object =>
        mret (TemplateResponse "assets/asset_form.html"
                (AssetFormContext true (Some (pk, object)) []
                   (asset_documents db pk)))
    end).

Definition AssetUpdateView_form_valid (request : HttpRequest.t) (user : User)
    (pk : nat) (instance : Asset.t) (form : AssetForm.t) : ORM Response :=
  match AssetForm.construct_instance (Asset.owner instance)
          (AssetForm.cleaned_data form) with
  | None => mret HttpResponseServerError
  | Some object =>
      Asset_update pk object ;;
      let response : Response := HttpResponseRedirect (urls.asset_detail pk) in
      let files := HttpRequest.FILES request in
      for_each files (λ f,
        AssetDocument_create_from_file guess_type pk f ;;
        ActivityLog_log_action clean_ipv6_address user "upload" object
          (Some ("Uploaded document: " +:+ UploadedFile.name f))
          (get_client_ip request)) ;;
      ActivityLog_log_action clean_ipv6_address user "update" object
        (Some "Updated asset") (get_client_ip request) ;;
      mret response
  end.

Definition AssetUpdateView_post (request : HttpRequest.t) (pk : nat) : ORM Response :=
  LoginRequiredMixin request (λ user,
    db ← get_db;
    match get_owned_asset db user pk with
    | None => mret HttpResponseNotFound
    | Some object =>
        let form := AssetForm.mk None (Some (pk, object)) (HttpRequest.POST request) in
        if AssetForm.is_valid form
        then AssetUpdateView_form_valid request user pk object form
        else mret (TemplateResponse "assets/asset_form.html"
                     (AssetFormContext true
                        (Some (pk, AssetForm.post_clean_instance form object))
                        (AssetForm.errors form) (asset_documents db pk)))
    end).

Definition AssetDeleteView_get (request : HttpRequest.t) (pk : nat) : ORM Response :=
  LoginRequiredMixin request (λ user,
    db ← get_db;
    match get_owned_asset db user pk with
    | None => mret HttpResponseNotFound
    | Some object =>
        mret (TemplateResponse "assets/asset_confirm_delete.html"
                (AssetConfirmDeleteContext (pk, object)))
    end).

Definition AssetDeleteView_form_valid (request : HttpRequest.t) (user : User)
    (pk : nat) (object : Asset.t) : ORM Response :=
  (* Log deletion before deleting *)
  ActivityLog_log_action clean_ipv6_address user "delete" object
    (Some ("Deleted asset with value " +:+ str_Decimal (Asset.value object)))
    (get_client_ip request) ;;
  Asset_delete pk ;;
  mret (HttpResponseRedirect urls.asset_list).

Definition AssetDeleteView_post (request : HttpRequest.t) (pk : nat) : ORM Response :=
  LoginRequiredMixin request (λ user,
    db ← get_db;
    match get_owned_asset db user pk with
    | None => mret HttpResponseNotFound
    | Some object => AssetDeleteView_form_valid request user pk object
    end).

(** [DeletionMixin.delete], which answers the DELETE method: the object
    is deleted without a form and so without [form_valid]. *)
Definition AssetDeleteView_delete (request : HttpRequest.t) (pk : nat) : ORM Response :=
  LoginRequiredMixin request (λ user,
    db ← get_db;
    match get_owned_asset db user pk with
    | None => mret HttpResponseNotFound
    | Some object =>
        Asset_delete pk ;;
        mret (HttpResponseRedirect urls.asset_list)
    end).

(** *** Document views *)

Definition str_or_None {A} (str : A → string) (v : option A) : string :=
  from_option str "None" v.

Definition download_document (request : HttpRequest.t) (pk : nat) : ORM Response :=
  login_required request (λ user,
    db ← get_db;
    match documents db !! pk with
    | None => mret HttpResponseNotFound
    | Some document =>
        match assets db !! AssetDocument.asset document with
        | None => mret HttpResponseServerError   (* excluded by the foreign key *)
        | Some asset =>
            if decide (Asset.owner asset ≠ user) then
              mret (HttpResponseForbidden
                      "You don't have permission to download this document.")
            else
              mret (HttpResponseOk (AssetDocument.file_data document)
                      (AssetDocument.file_type document)
                      [ ("Content-Disposition",
                         convert_to_charset
                           (disposition
                              (str_or_None id (AssetDocument.file_name document))));
                        (* digits, or None: kept as they are *)
                        ("Content-Length",
                         str_or_None pretty (AssetDocument.file_size document)) ])
        end
    end).

Definition delete_document (request : HttpRequest.t) (pk : nat) : ORM Response :=
  login_required request (λ user,
    db ← get_db;
    match documents db !! pk with
    | None => mret HttpResponseNotFound
    | Some document =>
        match assets db !! AssetDocument.asset document with
        | None => mret HttpResponseServerError   (* excluded by the foreign key *)
        | Some asset =>
            if decide (Asset.owner asset ≠ user) then
              mret (HttpResponseForbidden
                      "You don't have permission to delete this document.")
            else
              let doc_name := str_or_None id (AssetDocument.file_name document) in
              AssetDocument_delete pk ;;
              ActivityLog_log_action clean_ipv6_address user "delete" asset
                (Some ("Deleted document: " +:+ doc_name))
                (get_client_ip request) ;;
              mret (HttpResponseRedirect
                      (urls.asset_detail (AssetDocument.asset document)))
        end
    end).

(** *** Dispatch

    The views above, as [urls.py] routes to them.  The authentication
    views and the two list views do not write the asset, document or
    activity tables and are not embedded. *)

(** [View.dispatch] under [LoginRequiredMixin]: the login check comes
    first, then the handler named after the method.  [setup] makes [head]
    the [get] handler, [ProcessFormView.put] is [post], and [View.options]
    lists the handlers that the class has. *)
Definition View_dispatch (request : HttpRequest.t)
    (get post put delete : option (ORM Response)) : ORM Response :=
  LoginRequiredMixin request (λ _,
    let allowed (name : string) (handler : option (ORM Response)) : list string :=
      match handler with Some _ => [name] | None => [] end in
    let _allowed_methods :=
      allowed "GET" get ++ allowed "POST" post ++ allowed "PUT" put
        ++ allowed "DELETE" delete ++ allowed "HEAD" get ++ ["OPTIONS"] in
    let http_method_not_allowed : ORM Response :=
      mret (HttpResponseNotAllowed _allowed_methods) in
    match HttpRequest.method request with
    | HttpGET | HttpHEAD => default http_method_not_allowed get
    | HttpPOST => default http_method_not_allowed post
    | HttpPUT => default http_method_not_allowed put
    | HttpDELETE => default http_method_not_allowed delete
    | HttpOPTIONS =>
        mret (HttpResponseOk (Some []) None
                [ ("Allow", String.concat ", " _allowed_methods);
                  ("Content-Length", "0") ])
    | HttpPATCH | HttpTRACE => http_method_not_allowed
    end).

Definition resolve (url : urls.t) (request : HttpRequest.t)
    : option (ORM Response) :=
  match url with
  | urls.dashboard =>
      Some (View_dispatch request (Some (DashboardView_get request)) None None None)
  | urls.asset_create =>
      Some (View_dispatch request (Some (AssetCreateView_get request))
              (Some (AssetCreateView_post request))
              (Some (AssetCreateView_post (HttpRequest.without_body request)))
              None)
  | urls.asset_detail pk =>
      Some (View_dispatch request (Some (AssetDetailView_get request pk))
              None None None)
  | urls.asset_update pk =>
      Some (View_dispatch request (Some (AssetUpdateView_get request pk))
              (Some (AssetUpdateView_post request pk))
              (Some (AssetUpdateView_post (HttpRequest.without_body request) pk))
              None)
  | urls.asset_delete pk =>
      Some (View_dispatch request (Some (AssetDeleteView_get request pk))
              (Some (AssetDeleteView_post request pk))
              None
              (Some (AssetDeleteView_delete request pk)))
  | urls.document_download pk => Some (download_document request pk)
  | urls.document_delete pk => Some (delete_document request pk)
  | urls.chart_data_api => Some (chart_data_api request)
  | urls.login | urls.logout | urls.signup
  | urls.asset_list | urls.activity_log => None
  end.

(** The database after a sequence of requests. *)
Definition serve (db : DB) (call : urls.t * HttpRequest.t) : DB :=
  match resolve call.1 call.2 with
  | Some view => (view db).2
  | None => db
  end.

Definition run (calls : list (urls.t * HttpRequest.t)) (db : DB) : DB :=
  foldl serve db calls.
End Views.

(* ===================================================================== *)
(** * Sample data *)
(* ===================================================================== *)

Definition sample_guess_type (name : string) : option string :=
  let ext := lower (splitext name).2 in
  if decide (ext = ".pdf") then Some "application/pdf"
  else if decide (ext = ".png") then Some "image/png"
  else None.

Definition alice : User := 1%nat.
Definition bob : User := 2%nat.

(** A compressed address for two texts, no address for any other. *)
Definition sample_clean_ipv6_address (value : string) : option string :=
  if decide (value = "2001:DB8:0:0:0:0:0:1") then Some "2001:db8::1"
  else if decide (value = "::1") then Some "::1"
  else None.

(** The name of a report in Japanese, its disposition header, and the
    form in which [Header.encode] gives that header. *)
Definition report_pdf_name : string :=
  string_of_list_ascii
    (ascii_of_nat <$> [229; 160; 177; 229; 145; 138; 46; 112; 100; 102]%nat).

Definition sample_mime_encode (value : string) : string :=
  if decide (value = disposition report_pdf_name)
  then "=?utf-8?b?YXR0YWNobWVudDsgZmlsZW5hbWU9IuWgseWRii5wZGYi?="
  else "=?utf-8?b??=".

(** The default of [settings.LOGIN_URL]. *)
Definition sample_LOGIN_URL : Location := Path "/accounts/login/".

Definition blank_form : FormData.t := FormData.empty.

(** A form whose value is typed with its two decimal places. *)
Definition form_of (name category : string) (value : Decimal) (start_date : Date)
    (end_date : option Date) (latitude longitude : option Decimal) : FormData.t :=
  FormData.mk (Some name) (Some category) (Some value) None (Some start_date)
              end_date latitude longitude no_special (str_Decimal value) [].

Definition request_of (user : User) (method : HttpMethod) (post : FormData.t)
    (files : list UploadedFile.t) : HttpRequest.t :=
  HttpRequest.mk (Some user) method ∅ post files
                 {[ "REMOTE_ADDR" := "203.0.113.7" ]}.

Definition deed_pdf : UploadedFile.t :=
  UploadedFile.mk "Deed.PDF" [Byte.x25; Byte.x50; Byte.x44; Byte.x46; Byte.x00; Byte.xff].

Definition setup_exe : UploadedFile.t :=
  UploadedFile.mk "setup.exe" [Byte.x4d; Byte.x5a; Byte.x90].

(** Alice holds 100.00 of gold with a deed attached and 250.50 of stocks;
    Bob holds 9999.99 of gold. *)
Definition sample_calls : list (urls.t * HttpRequest.t) :=
  [ (urls.asset_create,
     request_of alice HttpPOST (form_of "Coins" "gold" 10000 738000 None None None) []);
    (urls.asset_update 1%nat,
     request_of alice HttpPOST (form_of "Coins" "gold" 10000 738000 None None None)
                [deed_pdf]);
    (urls.asset_create,
     request_of alice HttpPOST
       (form_of "ACME shares" "stocks" 25050 738100 (Some 739000) None None) []);
    (urls.asset_create,
     request_of bob HttpPOST (form_of "Bar" "gold" 999999 738200 None None None) []) ].

Definition sample_db : DB :=
  run sample_guess_type (λ d, d) sample_clean_ipv6_address sample_mime_encode
    sample_LOGIN_URL sample_calls empty_db.

(** The first of Alice's assets and the document attached to it. *)
Definition coins : Asset.t :=
  Asset.mk alice "Coins" "gold" 10000 (Some EmptyString) 738000 None None None
    no_special.

Definition deed_document : AssetDocument.t :=
  AssetDocument.mk 1 (Some (UploadedFile.content deed_pdf)) (Some "Deed.PDF")
    (Some "application/pdf") (Some 6%nat) "Deed".

(** A plot of land on the equator: latitude 0.0000000, longitude 77.5000000. *)
Definition equator_plot : FormData.t :=
  form_of "Plot" "lands" 50000000 738000 None (Some 0) (Some 775000000).

Definition lands_query : gmap string string := {[ "category" := "lands" ]}.

Definition equator_request : HttpRequest.t :=
  HttpRequest.mk (Some bob) HttpPOST lands_query equator_plot []
                 {[ "REMOTE_ADDR" := "203.0.113.7" ]}.

(** An end date a thousand days before the start date. *)
Definition reversed_dates_form : FormData.t :=
  form_of "Coins" "gold" 10000 738000 (Some 737000) None None.

(** Settings for the document form: the extensions of the file input's
    [accept] attribute, and a limit of four bytes. *)
Definition sample_extensions : list string :=
  [".pdf"; ".jpg"; ".jpeg"; ".png"; ".gif"; ".doc"; ".docx"; ".xls"; ".xlsx"].

Definition sample_max_size : Z := 4.

Definition sample_str_div (a b : Z) : string := "3.814697265625e-06".

Definition bar_form : FormData.t := form_of "Bar" "gold" 999999 738200 None None None.

Definition alice_get : HttpRequest.t := request_of alice HttpGET blank_form [].
Definition bob_get : HttpRequest.t := request_of bob HttpGET blank_form [].

Definition bob_creates : urls.t * HttpRequest.t :=
  (urls.asset_create, request_of bob HttpPOST bar_form []).

Definition alice_reversed : HttpRequest.t :=
  request_of alice HttpPOST reversed_dates_form [].

(* ===================================================================== *)
(** * Specification vocabulary *)
(* ===================================================================== *)

Definition is_permission_denied {F} (r : HttpResponse F) : bool :=
  match r with
  | HttpResponseForbidden _ => true
  | _ => false
  end.

(** ** What a request does to the asset table *)

Definition asset_part (db : DB) : gmap nat Asset.t * nat := (assets db, asset_seq db).

(** The four things a request of [actor] can do to the asset table. *)
Inductive asset_effect (actor : option User) (db db' : DB) : Prop :=
| effect_none :
    asset_part db' = asset_part db → asset_effect actor db db'
| effect_insert (user : User) (form : AssetForm.t) (object : Asset.t) :
    actor = Some user →
    AssetForm.is_valid form = true →
    AssetForm.construct_instance user (AssetForm.cleaned_data form) = Some object →
    asset_part db' = (<[asset_seq db := object]> (assets db), S (asset_seq db)) →
    asset_effect actor db db'
| effect_update (user : User) (pk : nat) (a : Asset.t) (form : AssetForm.t)
    (object : Asset.t) :
    actor = Some user →
    get_owned_asset db user pk = Some a →
    AssetForm.is_valid form = true →
    AssetForm.construct_instance (Asset.owner a) (AssetForm.cleaned_data form)
      = Some object →
    asset_part db' = (<[pk := object]> (assets db), asset_seq db) →
    asset_effect actor db db'
| effect_delete (user : User) (pk : nat) (a : Asset.t) :
    actor = Some user →
    get_owned_asset db user pk = Some a →
    asset_part db' = (delete pk (assets db), asset_seq db) →
    asset_effect actor db db'.

(** ** Primary keys, dates and per-owner sums *)

(** Rows only sit below the next value of the primary-key sequence. *)
Definition wf (db : DB) : Prop :=
  map_Forall (λ k _, (k < asset_seq db)%nat) (assets db).

#[global] Instance wf_dec (db : DB) : Decision (wf db).
Proof. unfold wf. apply _. Defined.

Definition dates_ordered (a : Asset.t) : Prop :=
  match Asset.end_date a with
  | None => True
  | Some e => Asset.start_date a ≤ e
  end.

(** The rows of one owner, as a sub-table. *)
Definition owned (db : DB) (user : User) : gmap nat Asset.t :=
  filter (λ ka, Asset.owner ka.2 = user) (assets db).

Definition sum_values (l : list (nat * Asset.t)) : Z :=
  foldr (λ ka acc, Asset.value ka.2 + acc) 0 l.

(** The sum of [value] over one owner's rows of one category. *)
Definition category_sum (db : DB) (user : User) (c : string) : Z :=
  sum_values (filter (λ ka, Asset.category ka.2 = c) (map_to_list (owned db user))).

(** One group of the GROUP BY. *)
Definition group_row (qs : list (nat * Asset.t)) (c : string) : BreakdownRow :=
  let grp := filter (λ ka, Asset.category ka.2 = c) qs in
  {| br_category := c; br_total := default 0 (Sum_value grp); br_count := length grp |}.

(* ===================================================================== *)
(** * views.py: the list views *)
(* ===================================================================== *)

Section ListViews.
(** [name__icontains=search]: the case-insensitive match of the database,
    the search text taken literally. *)
Variable icontains : string → string → bool.
(** The bound of a value filter: the Decimal that [DecimalField.to_python]
    makes of the text as it is typed, [None] where it raises; and the
    comparisons of the database between the value column and a bound. *)
Variable Bound : Type.
Variable to_python : string → option Bound.
Variable value_gte value_lte : Decimal → Bound → bool.

Definition AssetListView_get_queryset (db : DB) (request : HttpRequest.t)
    (user : User) : option (list (nat * Asset.t)) :=
  let queryset := Asset_objects_filter_owner db user in
  let category := HttpRequest.GET request !! "category" in
  let search := HttpRequest.GET request !! "search" in
  let min_value := HttpRequest.GET request !! "min_value" in
  let max_value := HttpRequest.GET request !! "max_value" in
  let queryset :=
    if truthy_ostr category
    then filter (λ ka, Some (Asset.category ka.2) = category) queryset
    else queryset in
  let queryset :=
    if truthy_ostr search
    then filter (λ ka, icontains (Asset.name ka.2) (default EmptyString search) = true)
                queryset
    else queryset in
  queryset ←
    (if truthy_ostr min_value
     then v ← to_python (default EmptyString min_value);
          Some (filter (λ ka, value_gte (Asset.value ka.2) v = true) queryset)
     else Some queryset);
  if truthy_ostr max_value
  then v ← to_python (default EmptyString max_value);
       Some (filter (λ ka, value_lte (Asset.value ka.2) v = true) queryset)
  else Some queryset.
End ListViews.

(** [ActivityLog.objects.filter(user=user)], newest first. *)
Definition ActivityLogView_get_queryset (db : DB) (user : User) : list ActivityLog.t :=
  reverse (filter (λ l, ActivityLog.user l = Some user) (activity_logs db)).

(** ** Further vocabulary *)

Definition no_comma (s : string) : Prop := ","%char ∉ list_ascii_of_string s.

Definition sum_list_Z (l : list Z) : Z := foldr Z.add 0 l.
Arguments sum_list_Z : simpl never.

(** A query-string filter binds only when its value is given and not
    blank. *)
Definition when_given (p : option string) (P : string → Prop) : Prop :=
  match p with
  | Some v => v ≠ EmptyString → P v
  | None => True
  end.

(** An allow-list entry written without its leading dot. *)
Definition dotless (e : string) : Prop :=
  match e with
  | EmptyString => False
  | String c _ => c ≠ "."%char
  end.

(** A file passes the two checks of [clean_files]. *)
Definition file_ok (allowed : list string) (max_size : Z) (f : UploadedFile.t) : Prop :=
  UploadedFile.name f ≠ EmptyString →
  lower (splitext (UploadedFile.name f)).2 ∈ allowed
  ∧ Z.of_nat (UploadedFile.size f) ≤ max_size.

(** ** What a request does to the whole database *)

(** Documents point at stored assets, and sit below their sequence. *)
Definition fk_ok (db : DB) : Prop :=
  map_Forall (λ _ d, is_Some (assets db !! AssetDocument.asset d)) (documents db).

Definition wf_documents (db : DB) : Prop :=
  map_Forall (λ k _, (k < document_seq db)%nat) (documents db).

#[global] Instance wf_documents_dec (db : DB) : Decision (wf_documents db).
Proof. unfold wf_documents. apply _. Defined.

(** What the asset form lets through. *)
Definition asset_checked (a : Asset.t) : Prop :=
  Asset.name a ≠ EmptyString
  ∧ Asset.category a ∈ Asset.CATEGORY_CHOICES.*1
  ∧ dates_ordered a
  ∧ (Asset.category a = "lands" →
     ∃ latitude longitude,
       Asset.latitude a = Some latitude ∧ latitude ≠ 0
       ∧ Asset.longitude a = Some longitude ∧ longitude ≠ 0).

Section Stored.
Variable guess_type : string → option string.
Variable clean_ipv6_address : string → option string.

(** The activity row that a request leaves, as it is stored. *)
Definition log_row (request : HttpRequest.t) (user : User) (action : string)
    (asset : Asset.t) (details : option string) : ActivityLog.t :=
  ActivityLog.mk (Some user) action (Asset.name asset) (Asset.category asset)
    details
    (GenericIPAddressField_get_db_prep_value clean_ipv6_address
       (get_client_ip request)).

Definition upload_row (request : HttpRequest.t) (user : User) (asset : Asset.t)
    (f : UploadedFile.t) : ActivityLog.t :=
  log_row request user "upload" asset
    (Some ("Uploaded document: " +:+ UploadedFile.name f)).

(** The row that [create_from_file] writes for a file. *)
Definition stored_document (asset : nat) (f : UploadedFile.t) : AssetDocument.t :=
  AssetDocument.mk asset (Some (UploadedFile.content f)) (Some (UploadedFile.name f))
    (Some (match guess_type (UploadedFile.name f) with
           | Some m => if decide (m = EmptyString)
                       then "application/octet-stream" else m
           | None => "application/octet-stream"
           end))
    (Some (length (UploadedFile.content f)))
    (if decide (UploadedFile.name f = EmptyString) then EmptyString
     else (splitext (UploadedFile.name f)).1).

(** The document table and its sequence after storing [files] in turn. *)
Definition upload (asset : nat) (files : list UploadedFile.t)
    (table : gmap nat AssetDocument.t * nat) : gmap nat AssetDocument.t * nat :=
  foldl (λ t f, (<[t.2 := stored_document asset f]> t.1, S t.2)) table files.

Inductive request_effect (request : HttpRequest.t) (db db' : DB) : Prop :=
| request_reads :
    db' = db → request_effect request db db'
| request_views (user : User) (pk : nat) (a : Asset.t) :
    HttpRequest.user request = Some user →
    get_owned_asset db user pk = Some a →
    db' = mkDB (assets db) (asset_seq db) (documents db) (document_seq db)
            (activity_logs db ++ [log_row request user "view" a None]) →
    request_effect request db db'
| request_creates (user : User) (form : AssetForm.t) (object : Asset.t) :
    HttpRequest.user request = Some user →
    AssetForm.is_valid form = true →
    AssetForm.construct_instance user (AssetForm.cleaned_data form) = Some object →
    db' = mkDB (<[asset_seq db := object]> (assets db)) (S (asset_seq db))
            (upload (asset_seq db) (HttpRequest.FILES request)
                    (documents db, document_seq db)).1
            (upload (asset_seq db) (HttpRequest.FILES request)
                    (documents db, document_seq db)).2
            (activity_logs db
               ++ [log_row request user "create" object
                     (Some ("Created asset with value "
                              +:+ FormData.value_str (AssetForm.data form)))]) →
    request_effect request db db'
| request_updates (user : User) (pk : nat) (a : Asset.t) (form : AssetForm.t)
    (object : Asset.t) :
    HttpRequest.user request = Some user →
    get_owned_asset db user pk = Some a →
    AssetForm.is_valid form = true →
    AssetForm.construct_instance (Asset.owner a) (AssetForm.cleaned_data form)
      = Some object →
    db' = mkDB (<[pk := object]> (assets db)) (asset_seq db)
            (upload pk (HttpRequest.FILES request)
                    (documents db, document_seq db)).1
            (upload pk (HttpRequest.FILES request)
                    (documents db, document_seq db)).2
            (activity_logs db
               ++ (upload_row request user object <$> HttpRequest.FILES request)
               ++ [log_row request user "update" object (Some "Updated asset")]) →
    request_effect request db db'
| request_deletes (user : User) (pk : nat) (a : Asset.t) :
    HttpRequest.user request = Some user →
    get_owned_asset db user pk = Some a →
    db' = mkDB (delete pk (assets db)) (asset_seq db)
            (filter (λ kd, AssetDocument.asset kd.2 ≠ pk) (documents db))
            (document_seq db)
            (activity_logs db
               ++ [log_row request user "delete" a
                     (Some ("Deleted asset with value "
                              +:+ str_Decimal (Asset.value a)))]) →
    request_effect request db db'
| request_deletes_unlogged (user : User) (pk : nat) (a : Asset.t) :
    HttpRequest.user request = Some user →
    get_owned_asset db user pk = Some a →
    db' = mkDB (delete pk (assets db)) (asset_seq db)
            (filter (λ kd, AssetDocument.asset kd.2 ≠ pk) (documents db))
            (document_seq db) (activity_logs db) →
    request_effect request db db'
| request_deletes_document (user : User) (pk : nat) (d : AssetDocument.t)
    (a : Asset.t) :
    HttpRequest.user request = Some user →
    documents db !! pk = Some d →
    assets db !! AssetDocument.asset d = Some a →
    Asset.owner a = user →
    db' = mkDB (assets db) (asset_seq db) (delete pk (documents db))
            (document_seq db)
            (activity_logs db
               ++ [log_row request user "delete" a
                     (Some ("Deleted document: "
                              +:+ from_option id "None" (AssetDocument.file_name d)))]) →
    request_effect request db db'.
End Stored.

(** ** More sample data *)

Definition forwarded_request : HttpRequest.t :=
  HttpRequest.mk (Some alice) HttpGET ∅ blank_form []
    (<[ "HTTP_X_FORWARDED_FOR" := "198.51.100.4, 10.0.0.1" ]>
       {[ "REMOTE_ADDR" := "203.0.113.7" ]}).

Definition unnamed_document : AssetDocument.t :=
  AssetDocument.mk 1 None (Some "Deed.PDF") None None EmptyString.

Definition anonymous_get : HttpRequest.t :=
  HttpRequest.mk None HttpGET ∅ blank_form [] ∅.

Definition bob_deletes_coins : urls.t * HttpRequest.t :=
  (urls.asset_delete 1, request_of bob HttpPOST blank_form []).

(** Alice sends the DELETE method to the delete page of her coins. *)
Definition alice_http_delete : HttpRequest.t :=
  request_of alice HttpDELETE blank_form [].

(** A report with a Japanese name. *)
Definition report_pdf : UploadedFile.t :=
  UploadedFile.mk report_pdf_name [Byte.x25; Byte.x50; Byte.x44; Byte.x46].

(** A form whose value is typed without decimal places. *)
Definition ring_form : FormData.t :=
  FormData.mk (Some "Ring") (Some "gold") (Some 10000) None (Some 738300)
              None None None no_special "100" [].

Definition alice_uploads : HttpRequest.t :=
  request_of alice HttpPOST (form_of "Coins" "gold" 12000 738000 None None None)
    [setup_exe; deed_pdf].

(** A database that folds the ASCII letters, and two bounds, held in
    thousandths. *)
Definition sample_icontains (s search : string) : bool :=
  contains (lower search) (lower s).

Definition sample_to_python (s : string) : option Z :=
  if decide (s = "50.005") then Some 50005
  else if decide (s = "200") then Some 200000
  else None.

Definition sample_value_gte (value : Decimal) (bound : Z) : bool :=
  bool_decide (bound ≤ value * 10).

Definition sample_value_lte (value : Decimal) (bound : Z) : bool :=
  bool_decide (value * 10 ≤ bound).

Definition gold_query : HttpRequest.t :=
  HttpRequest.mk (Some alice) HttpGET
    (<[ "category" := "gold" ]>
       (<[ "search" := "COIN" ]>
          (<[ "min_value" := "50.005" ]> {[ "max_value" := "200" ]})))
    blank_form [] ∅.

Definition ACME_shares : Asset.t :=
  Asset.mk alice "ACME shares" "stocks" 25050 (Some EmptyString) 738100 (Some 739000)
    None None no_special.

(* ===================================================================== *)
(** * Properties *)
(* ===================================================================== *)

Ltac orm_unfold :=
  unfold LoginRequiredMixin, login_required, get_db, ActivityLog_log_action,
    ActivityLog_objects_create, AssetDocument_delete, Asset_delete,
    Asset_update, Asset_insert, set_assets, set_documents;
  unfold mbind, ORM_bind, mret, ORM_ret; simpl.

Lemma get_owned_asset_other (db : DB) (user : User) (pk : nat) (a : Asset.t) :
  assets db !! pk = Some a → Asset.owner a ≠ user →
  get_owned_asset db user pk = None.
Proof.
  intros Ha Hne. unfold get_owned_asset. rewrite Ha. simpl.
  by destruct (decide (Asset.owner a = user)).
Qed.

Lemma get_owned_asset_own (db : DB) (user : User) (pk : nat) (a : Asset.t) :
  assets db !! pk = Some a → Asset.owner a = user →
  get_owned_asset db user pk = Some a.
Proof.
  intros Ha Ho. unfold get_owned_asset. rewrite Ha. simpl.
  by destruct (decide (Asset.owner a = user)).
Qed.

Lemma get_owned_asset_Some (db : DB) (user : User) (pk : nat) (a : Asset.t) :
  get_owned_asset db user pk = Some a →
  assets db !! pk = Some a ∧ Asset.owner a = user.
Proof.
  unfold get_owned_asset. destruct (assets db !! pk) as [b|]; simpl; [|done].
  destruct (decide (Asset.owner b = user)); naive_solver.
Qed.

Lemma for_each_asset_part {A} (l : list A) (body : A → ORM unit) (db : DB) :
  (∀ x db0, asset_part (body x db0).2 = asset_part db0) →
  asset_part (for_each l body db).2 = asset_part db.
Proof.
  intros Hbody. revert db. induction l as [|x l IH]; intros db; [done|].
  simpl. unfold mbind, ORM_bind.
  destruct (body x db) as [[] db1] eqn:E.
  rewrite IH. by rewrite <- (Hbody x db), E.
Qed.

Lemma create_from_file_asset_part guess_type (pk : nat) (f : UploadedFile.t) (db : DB) :
  asset_part (AssetDocument_create_from_file guess_type pk f db).2 = asset_part db.
Proof. done. Qed.

Lemma log_action_asset_part clean_ipv6_address user action asset details ip (db : DB) :
  asset_part (ActivityLog_log_action clean_ipv6_address user action asset details ip db).2
  = asset_part db.
Proof. done. Qed.

Section Effects.
Context {F : Type}.
Variable float : Decimal → F.
Variable guess_type : string → option string.
Variable clean_ipv6_address : string → option string.
Variable mime_encode : string → string.
Variable LOGIN_URL : Location.

Lemma AssetCreateView_post_effect (request : HttpRequest.t) (db : DB) :
  asset_effect (HttpRequest.user request) db
    (AssetCreateView_post guess_type (F:=F) clean_ipv6_address request db).2.
Proof.
  unfold AssetCreateView_post, LoginRequiredMixin, login_required.
  destruct (HttpRequest.user request) as [user|] eqn:Hu; [|by apply effect_none].
  set (form := AssetForm.mk _ _ _).
  destruct (AssetForm.is_valid form) eqn:Hv; [|by apply effect_none].
  unfold AssetCreateView_form_valid.
  destruct (AssetForm.construct_instance _ _) as [object|] eqn:Hc;
    [|by apply effect_none].
  eapply effect_insert; [done|exact Hv|exact Hc|].
  unfold mbind, ORM_bind. simpl.
  match goal with |- context [for_each ?l ?b ?d] =>
    pose proof (for_each_asset_part l b d) as Hloop;
    destruct (for_each l b d) as [[] db1] end.
  simpl in *. by apply Hloop.
Qed.

Lemma AssetUpdateView_post_effect (request : HttpRequest.t) (pk : nat) (db : DB) :
  asset_effect (HttpRequest.user request) db
    (AssetUpdateView_post guess_type (F:=F) clean_ipv6_address request pk db).2.
Proof.
  unfold AssetUpdateView_post, LoginRequiredMixin, login_required.
  destruct (HttpRequest.user request) as [user|] eqn:Hu; [|by apply effect_none].
  unfold mbind, ORM_bind, get_db.
  destruct (get_owned_asset db user pk) as [a|] eqn:Ho; [|by apply effect_none].
  set (form := AssetForm.mk _ _ _).
  destruct (AssetForm.is_valid form) eqn:Hv; [|by apply effect_none].
  unfold AssetUpdateView_form_valid.
  destruct (AssetForm.construct_instance _ _) as [object|] eqn:Hc;
    [|by apply effect_none].
  eapply effect_update; [done|exact Ho|exact Hv|exact Hc|].
  unfold mbind, ORM_bind. simpl.
  match goal with |- context [for_each ?l ?b ?d] =>
    pose proof (for_each_asset_part l b d) as Hloop;
    destruct (for_each l b d) as [[] db1] end.
  simpl in *. by apply Hloop.
Qed.

Lemma AssetDeleteView_post_effect (request : HttpRequest.t) (pk : nat) (db : DB) :
  asset_effect (HttpRequest.user request) db
    (AssetDeleteView_post (F:=F) clean_ipv6_address request pk db).2.
Proof.
  unfold AssetDeleteView_post, LoginRequiredMixin, login_required.
  destruct (HttpRequest.user request) as [user|] eqn:Hu; [|by apply effect_none].
  unfold mbind, ORM_bind, get_db.
  destruct (get_owned_asset db user pk) as [a|] eqn:Ho; [|by apply effect_none].
  by eapply effect_delete.
Qed.

Lemma AssetDeleteView_delete_effect (request : HttpRequest.t) (pk : nat) (db : DB) :
  asset_effect (HttpRequest.user request) db
    (AssetDeleteView_delete (F:=F) request pk db).2.
Proof.
  unfold AssetDeleteView_delete, LoginRequiredMixin.
  destruct (HttpRequest.user request) as [user|] eqn:Hu; [|by apply effect_none].
  unfold mbind, ORM_bind, get_db.
  destruct (get_owned_asset db user pk) as [a|] eqn:Ho; [|by apply effect_none].
  by eapply effect_delete.
Qed.

Lemma read_only_views (request : HttpRequest.t) (pk : nat) (db : DB) :
  asset_part (DashboardView_get float request db).2 = asset_part db
  ∧ asset_part (chart_data_api float LOGIN_URL request db).2 = asset_part db
  ∧ asset_part (AssetDetailView_get (F:=F) clean_ipv6_address request pk db).2
    = asset_part db
  ∧ asset_part (AssetCreateView_get (F:=F) request db).2 = asset_part db
  ∧ asset_part (AssetUpdateView_get (F:=F) request pk db).2 = asset_part db
  ∧ asset_part (AssetDeleteView_get (F:=F) request pk db).2 = asset_part db
  ∧ asset_part (download_document (F:=F) mime_encode LOGIN_URL request pk db).2
    = asset_part db
  ∧ asset_part (delete_document (F:=F) clean_ipv6_address LOGIN_URL request pk db).2
    = asset_part db.
Proof.
  unfold DashboardView_get, chart_data_api, AssetDetailView_get,
    AssetCreateView_get, AssetUpdateView_get, AssetDeleteView_get,
    download_document, delete_document, LoginRequiredMixin, login_required.
  destruct (HttpRequest.user request) as [user|]; [|done].
  unfold mbind, ORM_bind, get_db. simpl.
  destruct (get_owned_asset db user pk); simpl;
    (destruct (documents db !! pk) as [d|]; simpl; [|done]);
    (destruct (assets db !! AssetDocument.asset d) as [a'|]; simpl; [|done]);
    by destruct (decide (Asset.owner a' ≠ user)).
Qed.

(** What holds of the database after each handler of a class-based view
    holds after its dispatch. *)
Lemma View_dispatch_cases (P : DB → Prop) (request : HttpRequest.t)
    (get post put delete : option (ORM (HttpResponse F))) (db : DB) :
  P db →
  (∀ view, get = Some view → P (view db).2) →
  (∀ view, post = Some view → P (view db).2) →
  (∀ view, put = Some view → P (view db).2) →
  (∀ view, delete = Some view → P (view db).2) →
  P (View_dispatch request get post put delete db).2.
Proof.
  intros Hdb Hget Hpost Hput Hdelete. unfold View_dispatch, LoginRequiredMixin.
  destruct (HttpRequest.user request); [|done].
  destruct (HttpRequest.method request); simpl; try done;
    match goal with
    | |- P (default _ ?h _).2 => destruct h as [view|]; simpl; [|done]
    end; eauto.
Qed.

(** Every request falls under one of the four effects. *)
Lemma serve_effect (db : DB) (call : urls.t * HttpRequest.t) :
  asset_effect (HttpRequest.user call.2) db
    (serve guess_type float clean_ipv6_address mime_encode LOGIN_URL db call).
Proof.
  destruct call as [url request]. unfold serve, resolve. simpl.
  assert (Hnone : asset_effect (HttpRequest.user request) db db)
    by (by apply effect_none).
  destruct url as [ | | | | | |pk|pk|pk|pk|pk| | ]; simpl; try done;
    try (apply View_dispatch_cases; [done|..]; intros view [= <-]);
    try (destruct (read_only_views request pk db)
           as (H1 & H2 & H3 & H4 & H5 & H6 & H7 & H8));
    try (destruct (read_only_views request 0%nat db)
           as (H1 & H2 & H3 & H4 & H5 & H6 & H7 & H8));
    try (by apply effect_none);
    first [ apply AssetCreateView_post_effect
          | apply (AssetCreateView_post_effect (HttpRequest.without_body request))
          | apply AssetUpdateView_post_effect
          | apply (AssetUpdateView_post_effect (HttpRequest.without_body request))
          | apply AssetDeleteView_post_effect
          | apply AssetDeleteView_delete_effect ].
Qed.
End Effects.

Lemma asset_part_inv (db : DB) (m : gmap nat Asset.t) (n : nat) :
  asset_part db = (m, n) → assets db = m ∧ asset_seq db = n.
Proof. unfold asset_part. by intros [= -> ->]. Qed.

Lemma wf_empty : wf empty_db.
Proof. apply map_Forall_empty. Qed.

Lemma effect_wf (actor : option User) (db db' : DB) :
  wf db → asset_effect actor db db' → wf db'.
Proof.
  unfold wf.
  intros Hwf [H|u form obj _ _ _ H|u pk a form obj _ Ho _ _ H|u pk a _ Ho H];
    apply asset_part_inv in H as [Ha Hs]; rewrite Ha, Hs.
  - done.
  - apply map_Forall_insert_2; [lia|].
    eapply map_Forall_impl; [exact Hwf|]. simpl. lia.
  - apply get_owned_asset_Some in Ho as [Hpk _].
    apply map_Forall_insert_2; [by apply (Hwf pk a)|done].
  - by apply map_Forall_delete.
Qed.

Lemma construct_instance_owner (owner : User) (cd : FormData.t) (obj : Asset.t) :
  AssetForm.construct_instance owner cd = Some obj → Asset.owner obj = owner.
Proof.
  unfold AssetForm.construct_instance. intros H.
  destruct (FormData.name cd), (FormData.category cd), (FormData.value cd),
    (FormData.start_date cd); simplify_eq/=. done.
Qed.

Lemma clean_field_fst {A} (req : gmap string bool) (d : FormData.t)
    (field_name : string) (v : option A) :
  (AssetForm.clean_field req d field_name v None).1 = v.
Proof.
  unfold AssetForm.clean_field. destruct v; [done|].
  destruct (AssetForm.refused d field_name); [|done].
  by destruct (AssetForm.is_required req field_name).
Qed.

Lemma cleaned_dates (form : AssetForm.t) :
  FormData.start_date (AssetForm.cleaned_data form)
    = FormData.start_date (AssetForm.data form)
  ∧ FormData.end_date (AssetForm.cleaned_data form)
    = FormData.end_date (AssetForm.data form).
Proof.
  unfold AssetForm.cleaned_data, AssetForm.clean_fields.
  set (req := AssetForm.fields_required form).
  pose proof (clean_field_fst req (AssetForm.data form) "start_date"
                (FormData.start_date (AssetForm.data form))) as Hs.
  pose proof (clean_field_fst req (AssetForm.data form) "end_date"
                (FormData.end_date (AssetForm.data form))) as He.
  repeat match goal with
         | |- context [let '(_, _) := ?c in _] => destruct c
         end.
  simpl in *. by subst.
Qed.

Lemma errors_clean (form : AssetForm.t) :
  AssetForm.errors form
  = (AssetForm.clean_fields form).2
      ++ match AssetForm.clean (AssetForm.cleaned_data form) with
         | inl _ => []
         | inr e => [("__all__", e)]
         end.
Proof.
  unfold AssetForm.errors, AssetForm.cleaned_data.
  destruct (AssetForm.clean_fields form) as [cd fe]. simpl.
  destruct (AssetForm.clean cd); [by rewrite app_nil_r|done].
Qed.

Lemma is_valid_clean (form : AssetForm.t) :
  AssetForm.is_valid form = true →
  ∃ cd, AssetForm.clean (AssetForm.cleaned_data form) = inl cd.
Proof.
  unfold AssetForm.is_valid. intros H%bool_decide_eq_true.
  rewrite errors_clean in H.
  destruct (AssetForm.clean _) as [cd|e]; [by exists cd|].
  by apply app_nil in H as [_ ?].
Qed.

(** A submission with the end date before the start date fails [clean]. *)
Lemma reversed_dates_errors (form : AssetForm.t) (s e : Date) :
  FormData.start_date (AssetForm.data form) = Some s →
  FormData.end_date (AssetForm.data form) = Some e →
  e < s →
  AssetForm.errors form
  = (AssetForm.clean_fields form).2
      ++ [("__all__", "End date cannot be before start date.")].
Proof.
  intros Hs He Hlt. rewrite errors_clean. f_equal.
  destruct (cleaned_dates form) as [Hs' He'].
  unfold AssetForm.clean. rewrite Hs', He', Hs, He. simpl.
  by rewrite (proj2 (Z.ltb_lt e s) Hlt).
Qed.

Lemma reversed_dates_error_in (form : AssetForm.t) (s e : Date) :
  FormData.start_date (AssetForm.data form) = Some s →
  FormData.end_date (AssetForm.data form) = Some e →
  e < s →
  ("__all__", "End date cannot be before start date.") ∈ AssetForm.errors form.
Proof.
  intros Hs He Hlt. rewrite (reversed_dates_errors form s e Hs He Hlt).
  apply elem_of_app. right. by apply list_elem_of_singleton.
Qed.

Lemma reversed_dates_invalid (form : AssetForm.t) (s e : Date) :
  FormData.start_date (AssetForm.data form) = Some s →
  FormData.end_date (AssetForm.data form) = Some e →
  e < s →
  AssetForm.is_valid form = false.
Proof.
  intros Hs He Hlt. unfold AssetForm.is_valid.
  rewrite (reversed_dates_errors form s e Hs He Hlt).
  apply bool_decide_eq_false. intros H. by apply app_nil in H as [_ ?].
Qed.

(** What a valid form saves has its dates in order. *)
Lemma valid_form_dates (form : AssetForm.t) (owner : User) (obj : Asset.t) :
  AssetForm.is_valid form = true →
  AssetForm.construct_instance owner (AssetForm.cleaned_data form) = Some obj →
  dates_ordered obj.
Proof.
  intros [cd Hclean]%is_valid_clean Hc.
  unfold AssetForm.construct_instance in Hc.
  destruct (FormData.name _) as [nm|]; [|done].
  destruct (FormData.category _) as [cat|]; [|done].
  destruct (FormData.value _) as [v|]; [|done].
  destruct (FormData.start_date (AssetForm.cleaned_data form)) as [s|] eqn:Hs;
    simplify_eq/=.
  unfold dates_ordered. simpl.
  destruct (FormData.end_date (AssetForm.cleaned_data form)) as [e|] eqn:He; [|done].
  unfold AssetForm.clean in Hclean. rewrite Hs, He in Hclean. simpl in Hclean.
  destruct (e <? s) eqn:Hlt; [done|]. by apply Z.ltb_ge.
Qed.

Lemma cleaned_coordinates (form : AssetForm.t) :
  FormData.category (AssetForm.cleaned_data form)
    = (AssetForm.clean_choice (AssetForm.fields_required form) (AssetForm.data form)
         (FormData.category (AssetForm.data form))).1
  ∧ FormData.latitude (AssetForm.cleaned_data form)
    = FormData.latitude (AssetForm.data form)
  ∧ FormData.longitude (AssetForm.cleaned_data form)
    = FormData.longitude (AssetForm.data form).
Proof.
  unfold AssetForm.cleaned_data, AssetForm.clean_fields.
  set (req := AssetForm.fields_required form).
  pose proof (clean_field_fst req (AssetForm.data form) "latitude"
                (FormData.latitude (AssetForm.data form))) as Hlat.
  pose proof (clean_field_fst req (AssetForm.data form) "longitude"
                (FormData.longitude (AssetForm.data form))) as Hlon.
  destruct (AssetForm.clean_choice req _ _) as [c ec].
  repeat match goal with
         | |- context [let '(_, _) := ?c in _] => destruct c
         end.
  simpl in *. by subst.
Qed.

(** Lands without a latitude or without a longitude never validate. *)
Lemma lands_missing_coordinate_invalid (form : AssetForm.t) :
  FormData.category (AssetForm.data form) = Some "lands" →
  FormData.latitude (AssetForm.data form) = None
  ∨ FormData.longitude (AssetForm.data form) = None →
  AssetForm.is_valid form = false.
Proof.
  intros Hc Hmissing. unfold AssetForm.is_valid.
  apply bool_decide_eq_false. rewrite errors_clean.
  destruct (cleaned_coordinates form) as (Hc' & Hlat & Hlon).
  rewrite Hc in Hc'.
  assert (AssetForm.clean (AssetForm.cleaned_data form) ≠ inl (AssetForm.cleaned_data form))
    as Hclean.
  { unfold AssetForm.clean. rewrite Hc', Hlat, Hlon.
    destruct (_ && _); [done|]. simpl.
    by destruct Hmissing as [-> | ->];
      [|destruct (truthy_odec (FormData.latitude _))]. }
  destruct (AssetForm.clean _) as [cd|e] eqn:E.
  - unfold AssetForm.clean in E.
    repeat (case_match; simplify_eq); done.
  - intros H. by apply app_nil in H as [_ ?].
Qed.

Lemma optional_fields_not_required (form : AssetForm.t) :
  AssetForm.is_required (AssetForm.fields_required form) "description" = false
  ∧ AssetForm.is_required (AssetForm.fields_required form) "end_date" = false.
Proof.
  unfold AssetForm.fields_required, AssetForm._setup_category_fields.
  by case_decide.
Qed.

Lemma clean_special_nil (d : FormData.t) :
  FormData.field_errors d = [] → AssetForm.clean_special d = [].
Proof.
  intros Hnone. unfold AssetForm.clean_special.
  induction (AssetForm.special_given _) as [|[field_name given] l IH]; [done|].
  rewrite fmap_cons. simpl. rewrite IH. unfold AssetForm.refused.
  rewrite Hnone. by destruct given.
Qed.

(** Lands with both coordinates present and neither of them zero do
    validate, when the rest of the submission is in order. *)
Lemma lands_nonzero_coordinates_valid (form : AssetForm.t)
    (name : string) (value : Decimal) (description : option string)
    (start_date : Date) (end_date : option Date) (latitude longitude : Decimal)
    (special : SpecialFields) (value_str : string) :
  AssetForm.data form
  = FormData.mk (Some name) (Some "lands") (Some value) description
      (Some start_date) end_date (Some latitude) (Some longitude) special
      value_str [] →
  name ≠ EmptyString → latitude ≠ 0 → longitude ≠ 0 →
  AssetForm.date_lt end_date (Some start_date) = false →
  AssetForm.is_valid form = true.
Proof.
  intros Hdata Hname Hlat Hlon Hdates.
  destruct (optional_fields_not_required form) as [Hd He].
  unfold AssetForm.is_valid, AssetForm.errors, AssetForm.clean_fields.
  rewrite (clean_special_nil (AssetForm.data form)) by (by rewrite Hdata).
  rewrite Hdata. simpl.
  unfold AssetForm.blank_to_None, AssetForm.clean_choice, AssetForm.clean_field.
  simpl. unfold truthy_str.
  rewrite (bool_decide_eq_false_2 _ Hname). simpl.
  rewrite Hd, He.
  apply bool_decide_eq_true.
  destruct description as [text|], end_date as [e|]; simpl in *;
    try destruct (truthy_str text); simpl;
    unfold AssetForm.clean; simpl; rewrite ?Hdates; simpl;
    rewrite (proj2 (Z.eqb_neq latitude 0) Hlat), (proj2 (Z.eqb_neq longitude 0) Hlon);
    done.
Qed.

Lemma effect_dates (actor : option User) (db db' : DB) :
  map_Forall (λ _ a, dates_ordered a) (assets db) →
  asset_effect actor db db' →
  map_Forall (λ _ a, dates_ordered a) (assets db').
Proof.
  intros Hall [H|u form obj _ Hv Hc H|u pk a form obj _ _ Hv Hc H|u pk a _ _ H];
    apply asset_part_inv in H as [-> _].
  - done.
  - apply map_Forall_insert_2; [by eapply valid_form_dates|done].
  - apply map_Forall_insert_2; [by eapply valid_form_dates|done].
  - by apply map_Forall_delete.
Qed.

Lemma effect_owned (actor : option User) (db db' : DB) (user : User) :
  wf db → actor ≠ Some user → asset_effect actor db db' →
  owned db' user = owned db user.
Proof.
  intros Hwf Hne [H|u form obj -> _ Hc H|u pk a form obj -> Ho _ Hc H|u pk a -> Ho H];
    apply asset_part_inv in H as [Ha _]; unfold owned; rewrite Ha.
  - done.
  - apply construct_instance_owner in Hc.
    apply map_filter_insert_not'; simpl; [congruence|].
    intros y Hy. apply Hwf in Hy. lia.
  - apply construct_instance_owner in Hc.
    apply get_owned_asset_Some in Ho as [Hpk Hown].
    apply map_filter_insert_not'; simpl; [congruence|].
    intros y Hy. rewrite Hpk in Hy. simplify_eq. congruence.
  - apply get_owned_asset_Some in Ho as [Hpk Hown].
    apply map_filter_delete_not. simpl.
    intros y Hy. rewrite Hpk in Hy. simplify_eq. congruence.
Qed.

Lemma sum_values_perm (l1 l2 : list (nat * Asset.t)) :
  l1 ≡ₚ l2 → sum_values l1 = sum_values l2.
Proof.
  intros Hp. induction Hp as [|x l1 l2 _ IH|x y l|l1 l2 l3 _ IH1 _ IH2]; simpl;
    [done|by rewrite IH|lia|congruence].
Qed.

Lemma filter_owner_perm (db : DB) (user : User) :
  Asset_objects_filter_owner db user ≡ₚ map_to_list (owned db user).
Proof.
  apply NoDup_Permutation.
  - apply NoDup_filter, NoDup_map_to_list.
  - apply NoDup_map_to_list.
  - intros [k a]. unfold Asset_objects_filter_owner, owned.
    rewrite list_elem_of_filter, !elem_of_map_to_list, map_lookup_filter_Some.
    simpl. tauto.
Qed.

Lemma Coalesce_Sum_value (qs : list (nat * Asset.t)) :
  Coalesce (Sum_value qs) 0 = sum_values qs.
Proof. by destruct qs. Qed.

Lemma annotate_perm (qs : list (nat * Asset.t)) :
  values_category_annotate qs
  ≡ₚ group_row qs <$> remove_dups ((Asset.category ∘ snd) <$> qs).
Proof. unfold values_category_annotate. apply merge_sort_Permutation. Qed.

Lemma annotate_categories (qs : list (nat * Asset.t)) :
  br_category <$> values_category_annotate qs
  ≡ₚ remove_dups ((Asset.category ∘ snd) <$> qs).
Proof.
  rewrite annotate_perm, <- list_fmap_compose.
  rewrite (list_fmap_ext _ id); [by rewrite list_fmap_id|done].
Qed.

Lemma annotate_NoDup (qs : list (nat * Asset.t)) :
  NoDup (br_category <$> values_category_annotate qs).
Proof. rewrite annotate_categories. apply NoDup_remove_dups. Qed.

Lemma annotate_elem_of (qs : list (nat * Asset.t)) (c : string) :
  c ∈ br_category <$> values_category_annotate qs
  ↔ ∃ ka, ka ∈ qs ∧ Asset.category ka.2 = c.
Proof.
  rewrite annotate_categories, elem_of_remove_dups, list_elem_of_fmap.
  split; intros (ka & H1 & H2); exists ka; simpl in *; by subst.
Qed.

Lemma annotate_total (qs : list (nat * Asset.t)) (r : BreakdownRow) :
  r ∈ values_category_annotate qs →
  br_total r = sum_values (filter (λ ka, Asset.category ka.2 = br_category r) qs)
  ∧ br_count r = length (filter (λ ka, Asset.category ka.2 = br_category r) qs).
Proof.
  rewrite annotate_perm, list_elem_of_fmap. intros (c & -> & _). simpl.
  split; [|done]. apply Coalesce_Sum_value.
Qed.

(** ** The disposition header *)

Lemma latin_1_ascii (c : ascii) (s : string) :
  (nat_of_ascii c < 128)%nat → latin_1 (String c s) = latin_1 s.
Proof. intros Hc. simpl. by rewrite decide_True. Qed.

Lemma latin_1_snoc (c : ascii) (s : string) :
  (nat_of_ascii c < 128)%nat → latin_1 (s +:+ String c EmptyString) = latin_1 s.
Proof.
  intros Hc.
  assert (H : ∀ n s, (String.length s ≤ n)%nat →
                     latin_1 (s +:+ String c EmptyString) = latin_1 s).
  { clear s. induction n as [|n IH]; intros [|x s] Hlen; simpl in Hlen; try lia.
    - by apply latin_1_ascii.
    - by apply latin_1_ascii.
    - change (String x s +:+ String c EmptyString)
        with (String x (s +:+ String c EmptyString)).
      cbn [latin_1].
      destruct (decide (nat_of_ascii x < 128)%nat); [apply IH; lia|].
      destruct (decide (nat_of_ascii x = 194 ∨ nat_of_ascii x = 195)%nat); [|done].
      destruct s as [|y s].
      + change (EmptyString +:+ String c EmptyString) with (String c EmptyString).
        cbn beta iota. rewrite bool_decide_eq_false_2 by lia. done.
      + change (String y s +:+ String c EmptyString)
          with (String y (s +:+ String c EmptyString)).
        cbn beta iota. rewrite IH by (simpl in Hlen; lia). done. }
  by apply (H (String.length s)).
Qed.

Lemma list_ascii_of_string_app (a b : string) :
  list_ascii_of_string (a +:+ b) = list_ascii_of_string a ++ list_ascii_of_string b.
Proof. induction a as [|x a IH]; simpl; [done|by rewrite IH]. Qed.

(** The header is Latin-1 exactly when the file name is, and has a line
    break exactly when the file name has one. *)
Lemma latin_1_disposition (file_name : string) :
  latin_1 (disposition file_name) = latin_1 file_name.
Proof.
  unfold disposition, quote.
  rewrite <- (latin_1_snoc (ascii_of_nat 34) file_name) by (vm_compute; lia).
  repeat (rewrite latin_1_ascii by (vm_compute; lia)).
  reflexivity.
Qed.

Lemma has_line_break_disposition (file_name : string) :
  has_line_break (disposition file_name) = has_line_break file_name.
Proof.
  unfold has_line_break, disposition, quote. apply bool_decide_ext.
  rewrite !list_ascii_of_string_app, !elem_of_app.
  assert (H : ∀ c : ascii, c = ascii_of_nat 10 ∨ c = ascii_of_nat 13 →
                (c ∉ list_ascii_of_string "attachment; filename=")
                ∧ (c ∉ list_ascii_of_string (String (ascii_of_nat 34) EmptyString))).
  { intros c [-> | ->]; split; apply (bool_decide_unpack _); vm_compute; exact I. }
  destruct (H (ascii_of_nat 10)) as [? ?]; [by left|].
  destruct (H (ascii_of_nat 13)) as [? ?]; [by right|].
  tauto.
Qed.

Section Correctness.
Context {F : Type}.
Variable float : Decimal → F.
Variable guess_type : string → option string.
Variable clean_ipv6_address : string → option string.
Variable mime_encode : string → string.
Variable LOGIN_URL : Location.

(** C1, amended.  A logged-in user who addresses an asset of another
    owner gets the not-found response from the asset view, edit and
    delete endpoints, and the forbidden response from the document
    download and delete endpoints when the document hangs off another
    owner's asset; in every case the response carries no asset or
    document data and the database is left as it was. *)
Theorem C1_foreign_objects_refused
    (db : DB) (request : HttpRequest.t) (user : User) (pk : nat) :
  HttpRequest.user request = Some user →
  (∀ a, assets db !! pk = Some a → Asset.owner a ≠ user →
     AssetDetailView_get (F:=F) clean_ipv6_address request pk db
     = (HttpResponseNotFound, db)
     ∧ AssetUpdateView_get (F:=F) request pk db = (HttpResponseNotFound, db)
     ∧ AssetUpdateView_post guess_type (F:=F) clean_ipv6_address request pk db
       = (HttpResponseNotFound, db)
     ∧ AssetDeleteView_get (F:=F) request pk db = (HttpResponseNotFound, db)
     ∧ AssetDeleteView_post (F:=F) clean_ipv6_address request pk db
       = (HttpResponseNotFound, db)
     ∧ AssetDeleteView_delete (F:=F) request pk db = (HttpResponseNotFound, db))
  ∧ (∀ d a, documents db !! pk = Some d →
       assets db !! AssetDocument.asset d = Some a → Asset.owner a ≠ user →
       download_document (F:=F) mime_encode LOGIN_URL request pk db
       = (HttpResponseForbidden
            "You don't have permission to download this document.", db)
       ∧ delete_document (F:=F) clean_ipv6_address LOGIN_URL request pk db
         = (HttpResponseForbidden
              "You don't have permission to delete this document.", db)).
Proof.
  intros Hu. split.
  - intros a Ha Hne.
    pose proof (get_owned_asset_other db user pk a Ha Hne) as Hnone.
    unfold AssetDetailView_get, AssetUpdateView_get, AssetUpdateView_post,
      AssetDeleteView_get, AssetDeleteView_post, AssetDeleteView_delete.
    orm_unfold. rewrite Hu. simpl. rewrite Hnone. done.
  - intros d a Hd Ha Hne.
    unfold download_document, delete_document. orm_unfold.
    rewrite Hu. simpl. rewrite Hd, Ha. by destruct (decide (Asset.owner a ≠ user)).
Qed.

(** X25.  A file stored with [create_from_file] on an asset and then
    downloaded by the asset's owner comes back with exactly the uploaded
    bytes, their number as content length, and as content type the type
    guessed from the file name, or application/octet-stream when no type
    is guessed.  The disposition header names the file as it was uploaded
    when that name is Latin-1 text; for any other name the header is the
    MIME form of the whole header value. *)
Theorem X25_upload_download_roundtrip
    (db : DB) (request : HttpRequest.t) (user : User) (asset_pk : nat)
    (asset : Asset.t) (f : UploadedFile.t) :
  HttpRequest.user request = Some user →
  assets db !! asset_pk = Some asset →
  Asset.owner asset = user →
  has_line_break (UploadedFile.name f) = false →
  let stored := AssetDocument_create_from_file guess_type asset_pk f db in
  ∃ content_type content_disposition,
    download_document (F:=F) mime_encode LOGIN_URL request stored.1.1 stored.2
    = (HttpResponseOk (Some (UploadedFile.content f)) (Some content_type)
         [ ("Content-Disposition", content_disposition);
           ("Content-Length", pretty (length (UploadedFile.content f))) ],
       stored.2)
    ∧ (guess_type (UploadedFile.name f) = None →
       content_type = "application/octet-stream")
    ∧ (∀ m, guess_type (UploadedFile.name f) = Some m → m ≠ EmptyString →
       content_type = m)
    ∧ (latin_1 (UploadedFile.name f) = true →
       content_disposition = disposition (UploadedFile.name f))
    ∧ (latin_1 (UploadedFile.name f) = false →
       content_disposition = mime_encode (disposition (UploadedFile.name f))).
Proof.
  intros Hu Ha Ho _ stored.
  exists (if negb (truthy_ostr (guess_type (UploadedFile.name f)))
          then "application/octet-stream"
          else default EmptyString (guess_type (UploadedFile.name f))).
  exists (convert_to_charset mime_encode (disposition (UploadedFile.name f))).
  split_and!.
  - unfold stored, AssetDocument_create_from_file, AssetDocument_objects_create,
      download_document.
    orm_unfold. rewrite Hu. simpl. rewrite lookup_insert_eq.
    unfold AssetDocument.pre_save; simpl.
    destruct (truthy_str (UploadedFile.name f)); simpl;
      rewrite Ha; destruct (decide (Asset.owner asset ≠ user)); done.
  - by intros ->.
  - intros m -> Hm. simpl. unfold truthy_str. by rewrite bool_decide_eq_false_2.
  - unfold convert_to_charset. rewrite latin_1_disposition. by intros ->.
  - unfold convert_to_charset. rewrite latin_1_disposition. by intros ->.
Qed.

(** C7.  The delete page answers two methods.  Sent with DELETE by the
    owner, it is answered by [DeletionMixin.delete]: the asset and every
    document attached to it are removed and nothing else is, and the
    activity log stays as it was, without a delete row.  Sent with POST,
    it goes through [form_valid], which removes the same rows and appends
    the one delete row with the asset's name and category. *)
Theorem C7_http_delete_is_not_logged
    (db : DB) (request : HttpRequest.t) (user : User) (pk : nat) (a : Asset.t) :
  HttpRequest.user request = Some user →
  HttpRequest.method request = HttpDELETE →
  assets db !! pk = Some a →
  Asset.owner a = user →
  let db' :=
    serve guess_type float clean_ipv6_address mime_encode LOGIN_URL db
      (urls.asset_delete pk, request) in
  (∃ view,
     resolve guess_type float clean_ipv6_address mime_encode LOGIN_URL
       (urls.asset_delete pk) request = Some view
     ∧ view db = (HttpResponseRedirect urls.asset_list, db'))
  ∧ assets db' !! pk = None
  ∧ (∀ k, k ≠ pk → assets db' !! k = assets db !! k)
  ∧ (∀ k d, documents db' !! k = Some d
            ↔ documents db !! k = Some d ∧ AssetDocument.asset d ≠ pk)
  ∧ activity_logs db' = activity_logs db
  ∧ ∃ entry,
      activity_logs (AssetDeleteView_post (F:=F) clean_ipv6_address request pk db).2
      = activity_logs db ++ [entry]
      ∧ ActivityLog.action entry = "delete"
      ∧ ActivityLog.asset_name entry = Asset.name a
      ∧ ActivityLog.asset_category entry = Asset.category a
      ∧ assets (AssetDeleteView_post (F:=F) clean_ipv6_address request pk db).2
        = assets db'
      ∧ documents (AssetDeleteView_post (F:=F) clean_ipv6_address request pk db).2
        = documents db'.
Proof.
  intros Hu Hm Ha Ho db'.
  pose proof (get_owned_asset_own db user pk a Ha Ho) as Hown.
  assert (Hdelete :
    View_dispatch request (Some (AssetDeleteView_get (F:=F) request pk))
      (Some (AssetDeleteView_post clean_ipv6_address request pk)) None
      (Some (AssetDeleteView_delete request pk)) db
    = (HttpResponseRedirect urls.asset_list,
       mkDB (delete pk (assets db)) (asset_seq db)
         (filter (λ kd, AssetDocument.asset kd.2 ≠ pk) (documents db))
         (document_seq db) (activity_logs db))).
  { unfold View_dispatch, AssetDeleteView_delete, LoginRequiredMixin.
    rewrite Hu, Hm. simpl. unfold mbind, ORM_bind, get_db. by rewrite Hown. }
  unfold db', serve. cbn [resolve fst snd]. rewrite Hdelete. cbn [snd].
  split_and!.
  - eexists. split; [done|]. exact Hdelete.
  - apply lookup_delete_eq.
  - intros k Hk. by apply lookup_delete_ne.
  - intros k d. simpl. by rewrite map_lookup_filter_Some.
  - done.
  - eexists. unfold AssetDeleteView_post, AssetDeleteView_form_valid.
    orm_unfold. rewrite Hu. simpl. rewrite Hown. simpl. by split_and!.
Qed.

(** C10.  When the owner deletes a single document, exactly one activity
    row is appended; its kind is delete, the kind the asset delete view
    writes, and it carries the name and category of the parent asset,
    which stays stored: the asset table is unchanged and only that
    document is removed. *)
Theorem C10_document_delete_logs_delete
    (db : DB) (request : HttpRequest.t) (user : User) (pk : nat)
    (d : AssetDocument.t) (a : Asset.t) :
  HttpRequest.user request = Some user →
  documents db !! pk = Some d →
  assets db !! AssetDocument.asset d = Some a →
  Asset.owner a = user →
  let db' := (delete_document (F:=F) clean_ipv6_address LOGIN_URL request pk db).2 in
  ∃ entry,
    (delete_document (F:=F) clean_ipv6_address LOGIN_URL request pk db).1
    = HttpResponseRedirect (urls.asset_detail (AssetDocument.asset d))
    ∧ activity_logs db' = activity_logs db ++ [entry]
    ∧ ActivityLog.action entry = "delete"
    ∧ ActivityLog.asset_name entry = Asset.name a
    ∧ ActivityLog.asset_category entry = Asset.category a
    ∧ documents db' = delete pk (documents db)
    ∧ assets db' = assets db
    ∧ assets db' !! AssetDocument.asset d = Some a
    ∧ ActivityLog.action <$>
        last (activity_logs
                (AssetDeleteView_post (F:=F) clean_ipv6_address request
                    (AssetDocument.asset d) db).2)
      = Some (ActivityLog.action entry).
Proof.
  intros Hu Hd Ha Ho db'.
  pose proof (get_owned_asset_own db user _ a Ha Ho) as Hown.
  eexists. unfold db', delete_document, AssetDeleteView_post,
    AssetDeleteView_form_valid.
  orm_unfold. rewrite Hu. simpl. rewrite Hd, Ha, Hown.
  destruct (decide (Asset.owner a ≠ user)); [done|]. simpl.
  split_and!; try done.
  by rewrite last_snoc.
Qed.

Lemma total_value_owned (db : DB) (user : User) :
  total_value (DashboardView_get_context_data float db user)
  = sum_values (map_to_list (owned db user)).
Proof.
  unfold DashboardView_get_context_data. simpl.
  rewrite Coalesce_Sum_value. apply sum_values_perm, filter_owner_perm.
Qed.

Lemma run_wf (calls : list (urls.t * HttpRequest.t)) (db : DB) :
  wf db → wf (run guess_type float clean_ipv6_address mime_encode LOGIN_URL calls db).
Proof.
  revert db. induction calls as [|call calls IH]; intros db Hwf; [done|].
  simpl. apply IH. eapply effect_wf; [done|apply serve_effect].
Qed.

Lemma run_dates (calls : list (urls.t * HttpRequest.t)) (db : DB) :
  map_Forall (λ _ a, dates_ordered a) (assets db) →
  map_Forall (λ _ a, dates_ordered a) (assets (run guess_type float clean_ipv6_address
      mime_encode LOGIN_URL calls db)).
Proof.
  revert db. induction calls as [|call calls IH]; intros db Hall; [done|].
  simpl. apply IH. eapply effect_dates; [done|apply serve_effect].
Qed.

(** C2.  The dashboard total of a user is the sum of [value] over the
    rows of the asset table that the user owns, it is zero when the user
    owns none, and no request made by anybody else (creating, editing or
    deleting included) changes it. *)
Theorem C2_dashboard_total_per_owner
    (db : DB) (user : User) (call : urls.t * HttpRequest.t) :
  wf db →
  HttpRequest.user call.2 ≠ Some user →
  let total d := total_value (DashboardView_get_context_data float d user) in
  total db = sum_values (map_to_list (owned db user))
  ∧ (owned db user = ∅ → total db = 0)
  ∧ total (serve guess_type float clean_ipv6_address mime_encode LOGIN_URL db call) =
      total db.
Proof.
  intros Hwf Hother total. unfold total. split_and!.
  - apply total_value_owned.
  - intros Hnone. by rewrite total_value_owned, Hnone, map_to_list_empty.
  - rewrite !total_value_owned.
    by rewrite (effect_owned _ db _ user Hwf Hother (serve_effect _ _ _ _ _ db call)).
Qed.

(** C5.  In every database that the endpoints can produce from the
    empty one, each stored asset has no end date or an end date that is
    not before its start date.  A create or edit submission in which
    both dates are present and the end date is before the start date
    gets the form back with the validation error, and the database stays
    as it was.  The object that the edit page shows with the form is the
    form's instance, which holds what was submitted; it is not stored. *)
Theorem C5_end_date_not_before_start_date
    (calls : list (urls.t * HttpRequest.t)) (db : DB)
    (request : HttpRequest.t) (user : User) (pk : nat) (s e : Date) :
  HttpRequest.user request = Some user →
  FormData.start_date (HttpRequest.POST request) = Some s →
  FormData.end_date (HttpRequest.POST request) = Some e →
  e < s →
  (∀ k a, assets (run guess_type float clean_ipv6_address mime_encode LOGIN_URL calls
      empty_db) !! k = Some a →
          dates_ordered a)
  ∧ (∃ errors,
       AssetCreateView_post guess_type (F:=F) clean_ipv6_address request db
       = (TemplateResponse "assets/asset_form.html"
            (AssetFormContext false None errors []), db)
       ∧ ("__all__", "End date cannot be before start date.") ∈ errors)
  ∧ (AssetUpdateView_post guess_type (F:=F) clean_ipv6_address request pk db
       = (HttpResponseNotFound, db)
     ∨ ∃ a shown errors,
         get_owned_asset db user pk = Some a
         ∧ AssetUpdateView_post guess_type (F:=F) clean_ipv6_address request pk db
           = (TemplateResponse "assets/asset_form.html"
                (AssetFormContext true (Some (pk, shown)) errors
                   (asset_documents db pk)), db)
         ∧ ("__all__", "End date cannot be before start date.") ∈ errors).
Proof.
  intros Hu Hs He Hlt. split_and!.
  - intros k a Hk.
    by apply (run_dates calls empty_db (map_Forall_empty _) k a).
  - eexists. unfold AssetCreateView_post, LoginRequiredMixin, login_required. rewrite Hu.
    set (form := AssetForm.mk _ _ _).
    rewrite (reversed_dates_invalid form s e Hs He Hlt).
    split; [done|]. by apply (reversed_dates_error_in form s e).
  - unfold AssetUpdateView_post, LoginRequiredMixin, login_required. rewrite Hu.
    unfold mbind, ORM_bind, get_db.
    destruct (get_owned_asset db user pk) as [a|] eqn:Ho; [right|by left].
    exists a. eexists. eexists. split; [done|].
    set (form := AssetForm.mk _ _ _).
    rewrite (reversed_dates_invalid form s e Hs He Hlt).
    split; [done|]. by apply (reversed_dates_error_in form s e).
Qed.

(** C9.  For a logged-in user the chart endpoint answers with three
    parallel lists made from one list of rows, one label, value and
    colour per row.  No category occurs in two rows, a category has a row
    exactly when the user owns an asset of it, and the value of a row is
    the float of the sum of [value] over the user's assets of that
    category. *)
Theorem C9_chart_data_per_category
    (db : DB) (request : HttpRequest.t) (user : User) :
  HttpRequest.user request = Some user →
  ∃ rows : list BreakdownRow,
    chart_data_api float LOGIN_URL request db
    = (JsonResponse
         {| labels := (λ r, label_of (br_category r)) <$> rows;
            values := (λ r, float (br_total r)) <$> rows;
            colors := (λ r, color_of (br_category r)) <$> rows |}, db)
    ∧ NoDup (br_category <$> rows)
    ∧ (∀ c, c ∈ br_category <$> rows
            ↔ ∃ k a, assets db !! k = Some a ∧ Asset.owner a = user
                     ∧ Asset.category a = c)
    ∧ (∀ r, r ∈ rows → br_total r = category_sum db user (br_category r)).
Proof.
  intros Hu.
  exists (values_category_annotate (Asset_objects_filter_owner db user)).
  split_and!.
  - unfold chart_data_api, LoginRequiredMixin, login_required. by rewrite Hu.
  - apply annotate_NoDup.
  - intros c. rewrite annotate_elem_of. split.
    + intros ([k a] & Hin & Hc).
      apply list_elem_of_filter in Hin as [Ho Hin].
      apply elem_of_map_to_list in Hin. by exists k, a.
    + intros (k & a & Hk & Ho & Hc). exists (k, a). split; [|done].
      apply list_elem_of_filter. split; [done|]. by apply elem_of_map_to_list.
  - intros r [Hr _]%annotate_total. rewrite Hr. unfold category_sum.
    apply sum_values_perm. by rewrite filter_owner_perm.
Qed.
End Correctness.

(** ** Where the code leaves the specification *)

(** C3.  Alice attaches a report with a Japanese name to her coins
    through the edit page and downloads it.  The bytes, their number and
    the type guessed from the name come back, but the name does not: it is
    not Latin-1 text, so the disposition header that the view sets is
    replaced by the MIME form of the whole header value, whatever the MIME
    encoder is; with Python's encoder that is one base64 word. *)
Theorem C3_non_latin_1_name_is_not_returned :
  let uploaded :=
    (AssetUpdateView_post sample_guess_type (F:=Z) sample_clean_ipv6_address
       (request_of alice HttpPOST (form_of "Coins" "gold" 10000 738000 None None None)
          [report_pdf])
       1%nat sample_db).2 in
  latin_1 report_pdf_name = false
  ∧ has_line_break report_pdf_name = false
  ∧ documents uploaded !! 2%nat
    = Some (AssetDocument.mk 1 (Some (UploadedFile.content report_pdf))
              (Some report_pdf_name) (Some "application/pdf") (Some 4%nat)
              (splitext report_pdf_name).1)
  ∧ (∀ (mime_encode : string → string) (LOGIN_URL : Location),
       download_document (F:=Z) mime_encode LOGIN_URL alice_get 2%nat uploaded
       = (HttpResponseOk (Some (UploadedFile.content report_pdf))
            (Some "application/pdf")
            [ ("Content-Disposition", mime_encode (disposition report_pdf_name));
              ("Content-Length", "4") ],
          uploaded))
  ∧ (download_document (F:=Z) sample_mime_encode sample_LOGIN_URL alice_get 2%nat
       uploaded).1
    = HttpResponseOk (Some (UploadedFile.content report_pdf)) (Some "application/pdf")
        [ ("Content-Disposition",
           "=?utf-8?b?YXR0YWNobWVudDsgZmlsZW5hbWU9IuWgseWRii5wZGYi?=");
          ("Content-Length", "4") ]
  ∧ "=?utf-8?b?YXR0YWNobWVudDsgZmlsZW5hbWU9IuWgseWRii5wZGYi?="
    ≠ disposition report_pdf_name.
Proof.
  cbv zeta. split_and!; [reflexivity..| |reflexivity|discriminate].
  intros mime_encode LOGIN_URL. reflexivity.
Qed.

(** C4.  A land asset on the equator has both coordinates present, yet
    [clean] treats the zero latitude as missing: the form is invalid and
    the create view answers with the coordinates-required error and stores
    nothing. *)
Theorem C4_lands_zero_coordinate_rejected :
  FormData.latitude equator_plot = Some 0
  ∧ FormData.longitude equator_plot = Some 775000000
  ∧ AssetForm.clean
      (AssetForm.cleaned_data (AssetForm.mk (Some "lands") None equator_plot))
    = inr "Latitude and Longitude are required for land assets."
  ∧ AssetCreateView_post sample_guess_type (F:=Z) sample_clean_ipv6_address
      equator_request sample_db
    = (TemplateResponse "assets/asset_form.html"
         (AssetFormContext false None
            [("__all__", "Latitude and Longitude are required for land assets.")]
            []),
       sample_db).
Proof. split_and!; reflexivity. Qed.

(** C6.  The document form rejects [setup.exe] for its extension and the
    six-byte deed for its size, but neither asset view runs that form: the
    create view and the edit view both store the files as documents. *)
Theorem C6_upload_not_validated :
  AssetDocumentForm.clean_files sample_extensions sample_max_size sample_str_div
    [setup_exe]
  = inr ("File type '.exe' is not allowed. Allowed types: "
           +:+ ".pdf, .jpg, .jpeg, .png, .gif, .doc, .docx, .xls, .xlsx")
  ∧ AssetDocumentForm.clean_files sample_extensions sample_max_size sample_str_div
      [deed_pdf]
    = inr "File 'Deed.PDF' exceeds maximum size of 3.814697265625e-06MB."
  ∧ (let created :=
       AssetCreateView_post sample_guess_type (F:=Z) sample_clean_ipv6_address
         (request_of bob HttpPOST bar_form [setup_exe; deed_pdf]) empty_db in
     created.1 = HttpResponseRedirect urls.asset_list
     ∧ documents created.2 !! 1%nat
       = Some (AssetDocument.mk 1 (Some (UploadedFile.content setup_exe))
                 (Some "setup.exe") (Some "application/octet-stream")
                 (Some 3%nat) "setup")
     ∧ documents created.2 !! 2%nat
       = Some (AssetDocument.mk 1 (Some (UploadedFile.content deed_pdf))
                 (Some "Deed.PDF") (Some "application/pdf") (Some 6%nat) "Deed"))
  ∧ (let updated :=
       AssetUpdateView_post sample_guess_type (F:=Z) sample_clean_ipv6_address
         (request_of alice HttpPOST
            (form_of "Coins" "gold" 10000 738000 None None None) [setup_exe])
         1%nat sample_db in
     updated.1 = HttpResponseRedirect (urls.asset_detail 1)
     ∧ documents updated.2 !! 2%nat
       = Some (AssetDocument.mk 1 (Some (UploadedFile.content setup_exe))
                 (Some "setup.exe") (Some "application/octet-stream")
                 (Some 3%nat) "setup")).
Proof. split_and!; try reflexivity; cbv zeta; split_and!; reflexivity. Qed.

(** C8.  A download writes no activity row at all, and a file uploaded
    while an asset is created writes no upload row: the create view logs
    the single create row, where the edit view logs one upload row per file
    before its update row. *)
Theorem C8_download_and_create_upload_not_logged :
  (∀ (mime_encode : string → string) (LOGIN_URL : Location)
     (request : HttpRequest.t) (pk : nat) (db : DB),
     (download_document (F:=Z) mime_encode LOGIN_URL request pk db).2 = db)
  ∧ (∀ (mime_encode : string → string) (LOGIN_URL : Location),
       (download_document (F:=Z) mime_encode LOGIN_URL
          (request_of alice HttpGET blank_form []) 1%nat sample_db).1
       = HttpResponseOk (Some (UploadedFile.content deed_pdf))
           (Some "application/pdf")
           [ ("Content-Disposition",
              "attachment; filename=" +:+ quote +:+ "Deed.PDF" +:+ quote);
             ("Content-Length", "6") ])
  ∧ ActivityLog.action <$>
      activity_logs
        (AssetCreateView_post sample_guess_type (F:=Z) sample_clean_ipv6_address
           (request_of bob HttpPOST bar_form [deed_pdf]) empty_db).2
    = ["create"]
  ∧ ActivityLog.action <$>
      activity_logs
        (AssetUpdateView_post sample_guess_type (F:=Z) sample_clean_ipv6_address
           (request_of bob HttpPOST bar_form [deed_pdf]) 1%nat
           (AssetCreateView_post sample_guess_type (F:=Z) sample_clean_ipv6_address
              (request_of bob HttpPOST bar_form []) empty_db).2).2
    = ["create"; "upload"; "update"].
Proof.
  split_and!; try reflexivity.
  intros mime_encode LOGIN_URL request pk db. unfold download_document, login_required.
  destruct (HttpRequest.user request) as [user|]; [|done].
  unfold mbind, ORM_bind, get_db.
  destruct (documents db !! pk) as [d|]; [|done].
  destruct (assets db !! AssetDocument.asset d) as [a|]; [|done].
  by destruct (decide (Asset.owner a ≠ user)).
Qed.

(** ** The claims on the sample data *)

(** The claim C1 as it is worded fails on the asset endpoints: Bob asking
    for Alice's asset gets the not-found response, which is not a
    permission-denied one. *)
Lemma C1_counterexample :
  ¬ (∀ (db : DB) (request : HttpRequest.t) (user : User) (pk : nat) (a : Asset.t),
       HttpRequest.user request = Some user →
       assets db !! pk = Some a →
       Asset.owner a ≠ user →
       is_permission_denied (AssetDetailView_get (F:=Z) sample_clean_ipv6_address request
           pk db).1 = true).
Proof.
  intros H.
  specialize (H sample_db bob_get bob 1%nat coins eq_refl eq_refl).
  vm_compute in H. by specialize (H ltac:(lia)).
Qed.

Lemma C1_witness :
  HttpRequest.user bob_get = Some bob
  ∧ assets sample_db !! 1%nat = Some coins
  ∧ documents sample_db !! 1%nat = Some deed_document
  ∧ Asset.owner coins ≠ bob
  ∧ AssetDetailView_get (F:=Z) sample_clean_ipv6_address bob_get 1%nat sample_db
    = (HttpResponseNotFound, sample_db)
  ∧ download_document (F:=Z) sample_mime_encode sample_LOGIN_URL bob_get 1%nat sample_db
    = (HttpResponseForbidden "You don't have permission to download this document.",
       sample_db).
Proof.
  assert (Hne : Asset.owner coins ≠ bob) by (vm_compute; lia).
  destruct (C1_foreign_objects_refused (F:=Z) sample_guess_type
              sample_clean_ipv6_address sample_mime_encode sample_LOGIN_URL
              sample_db bob_get bob 1%nat eq_refl) as [Hasset Hdocument].
  do 3 (split; [reflexivity|]). split; [exact Hne|]. split.
  - exact (proj1 (Hasset coins eq_refl Hne)).
  - exact (proj1 (Hdocument deed_document coins eq_refl eq_refl Hne)).
Defined.

Lemma C2_witness :
  wf sample_db
  ∧ HttpRequest.user bob_creates.2 ≠ Some alice
  ∧ total_value (DashboardView_get_context_data (λ d, d) sample_db alice) = 35050
  ∧ total_value (DashboardView_get_context_data (λ d, d)
                   (serve sample_guess_type (λ d, d) sample_clean_ipv6_address
      sample_mime_encode sample_LOGIN_URL sample_db bob_creates) alice)
    = 35050.
Proof.
  assert (Hwf : wf sample_db) by (apply (bool_decide_unpack _); vm_compute; exact I).
  assert (Hne : HttpRequest.user bob_creates.2 ≠ Some alice)
    by (vm_compute; intros [= H]; lia).
  destruct (C2_dashboard_total_per_owner (λ d, d) sample_guess_type
              sample_clean_ipv6_address sample_mime_encode sample_LOGIN_URL
              sample_db alice bob_creates Hwf Hne) as (_ & _ & Hsame).
  split_and!; [exact Hwf|exact Hne|reflexivity|].
  etrans; [exact Hsame|reflexivity].
Defined.

Lemma C5_witness :
  HttpRequest.user alice_reversed = Some alice
  ∧ FormData.start_date (HttpRequest.POST alice_reversed) = Some 738000
  ∧ FormData.end_date (HttpRequest.POST alice_reversed) = Some 737000
  ∧ 737000 < 738000
  ∧ (∀ k a, assets sample_db !! k = Some a → dates_ordered a)
  ∧ (AssetCreateView_post sample_guess_type (F:=Z) sample_clean_ipv6_address
      alice_reversed sample_db).2
    = sample_db
  ∧ (AssetUpdateView_post sample_guess_type (F:=Z) sample_clean_ipv6_address
      alice_reversed 1%nat sample_db).2
    = sample_db.
Proof.
  assert (Hlt : 737000 < 738000) by lia.
  destruct (C5_end_date_not_before_start_date (F:=Z) (λ d, d) sample_guess_type
              sample_clean_ipv6_address sample_mime_encode sample_LOGIN_URL
              sample_calls sample_db alice_reversed alice 1%nat 738000 737000
              eq_refl eq_refl eq_refl Hlt)
    as (Hstored & (errors & Hcreate & _) & Hupdate).
  do 3 (split; [reflexivity|]). split; [exact Hlt|]. split_and!.
  - exact Hstored.
  - by rewrite Hcreate.
  - destruct Hupdate as [Hu|(a & shown & errors' & _ & Hu & _)]; by rewrite Hu.
Defined.

Lemma C7_witness :
  HttpRequest.user alice_http_delete = Some alice
  ∧ HttpRequest.method alice_http_delete = HttpDELETE
  ∧ assets sample_db !! 1%nat = Some coins
  ∧ Asset.owner coins = alice
  ∧ documents sample_db !! 1%nat = Some deed_document
  ∧ assets (serve sample_guess_type (λ d, d) sample_clean_ipv6_address
              sample_mime_encode sample_LOGIN_URL sample_db
              (urls.asset_delete 1%nat, alice_http_delete)) !! 1%nat = None
  ∧ documents (serve sample_guess_type (λ d, d) sample_clean_ipv6_address
                 sample_mime_encode sample_LOGIN_URL sample_db
                 (urls.asset_delete 1%nat, alice_http_delete)) !! 1%nat = None
  ∧ activity_logs (serve sample_guess_type (λ d, d) sample_clean_ipv6_address
                     sample_mime_encode sample_LOGIN_URL sample_db
                     (urls.asset_delete 1%nat, alice_http_delete))
    = activity_logs sample_db
  ∧ ActivityLog.action <$> activity_logs sample_db
    = ["create"; "upload"; "update"; "create"; "create"].
Proof.
  destruct (C7_http_delete_is_not_logged (F:=Z) (λ d, d) sample_guess_type
              sample_clean_ipv6_address sample_mime_encode sample_LOGIN_URL
              sample_db alice_http_delete alice 1%nat coins
              eq_refl eq_refl eq_refl eq_refl)
    as (_ & Hgone & _ & Hdocuments & Hlog & _).
  do 5 (split; [reflexivity|]). split_and!.
  - exact Hgone.
  - destruct (documents _ !! 1%nat) as [d|] eqn:Hd; [|reflexivity].
    apply Hdocuments in Hd as [Hd Hother].
    vm_compute in Hd. injection Hd as <-. exfalso. apply Hother. reflexivity.
  - exact Hlog.
  - reflexivity.
Defined.

Lemma C9_witness :
  HttpRequest.user alice_get = Some alice
  ∧ ∃ rows : list BreakdownRow,
      chart_data_api (λ d, d) sample_LOGIN_URL alice_get sample_db
      = (JsonResponse
           {| labels := (λ r, label_of (br_category r)) <$> rows;
              values := br_total <$> rows;
              colors := (λ r, color_of (br_category r)) <$> rows |}, sample_db)
      ∧ NoDup (br_category <$> rows)
      ∧ (∀ r, r ∈ rows → br_total r = category_sum sample_db alice (br_category r)).
Proof.
  split; [reflexivity|].
  destruct (C9_chart_data_per_category (λ d, d) sample_LOGIN_URL sample_db alice_get
              alice eq_refl)
    as (rows & Hresponse & Hnodup & _ & Hsum).
  exists rows. split_and!; [exact Hresponse|exact Hnodup|exact Hsum].
Defined.

Lemma C10_witness :
  HttpRequest.user alice_get = Some alice
  ∧ documents sample_db !! 1%nat = Some deed_document
  ∧ assets sample_db !! AssetDocument.asset deed_document = Some coins
  ∧ Asset.owner coins = alice
  ∧ ∃ entry,
      activity_logs (delete_document (F:=Z) sample_clean_ipv6_address sample_LOGIN_URL
          alice_get 1%nat sample_db).2
      = activity_logs sample_db ++ [entry]
      ∧ ActivityLog.action entry = "delete"
      ∧ ActivityLog.asset_name entry = "Coins"
      ∧ assets (delete_document (F:=Z) sample_clean_ipv6_address sample_LOGIN_URL
          alice_get 1%nat sample_db).2 !! 1%nat
        = Some coins.
Proof.
  do 4 (split; [reflexivity|]).
  destruct (C10_document_delete_logs_delete (F:=Z) sample_clean_ipv6_address
              sample_LOGIN_URL sample_db alice_get alice 1%nat
              deed_document coins eq_refl eq_refl eq_refl eq_refl)
    as (entry & _ & Hlog & Haction & Hname & _ & _ & _ & Hkept & _).
  exists entry. split_and!; [exact Hlog|exact Haction|exact Hname|exact Hkept].
Defined.

(* ===================================================================== *)
(** * Further properties *)
(* ===================================================================== *)

(** ** Strings and file names *)

Lemma rfind_from_Some (c : ascii) (s : list ascii) (i : nat) (acc : option nat) (j : nat) :
  rfind_from c s i acc = Some j →
  acc = Some j ∨ ((i ≤ j)%nat ∧ s !! (j - i)%nat = Some c).
Proof.
  revert i acc. induction s as [|x s IH]; intros i acc H; simpl in H; [by left|].
  apply IH in H as [H|[Hle Hj]].
  - destruct (decide (x = c)) as [->|]; [|by left].
    injection H as <-. right. split; [lia|]. by rewrite Nat.sub_diag.
  - right. split; [lia|].
    replace (j - i)%nat with (S (j - S i)) by lia. done.
Qed.

Lemma rfind_Some (c : ascii) (s : list ascii) (j : nat) :
  rfind c s = Some j → s !! j = Some c.
Proof.
  intros [H|[_ H]]%rfind_from_Some; [done|]. by rewrite Nat.sub_0_r in H.
Qed.

Lemma string_of_list_ascii_app (l1 l2 : list ascii) :
  string_of_list_ascii (l1 ++ l2)
  = string_of_list_ascii l1 +:+ string_of_list_ascii l2.
Proof. induction l1 as [|x l1 IH]; simpl; [done|by rewrite IH]. Qed.

(** [splitext] cuts the name in two, and the extension is empty or starts
    with the dot. *)
Lemma splitext_spec (p : string) :
  (splitext p).1 +:+ (splitext p).2 = p
  ∧ ((splitext p).2 = EmptyString ∨ ∃ rest, (splitext p).2 = String "."%char rest)
  ∧ (p ≠ EmptyString → (splitext p).1 ≠ EmptyString).
Proof.
  assert (Hnil : ∀ q : string, q +:+ EmptyString = q).
  { intros q. induction q as [|c q IH]; [done|].
    change (String c (q +:+ EmptyString) = String c q). by rewrite IH. }
  unfold splitext.
  set (l := list_ascii_of_string p).
  set (fi := match rfind "/"%char l with Some i => S i | None => 0%nat end).
  destruct (rfind "."%char l) as [di|] eqn:Hdot; simpl; [|by auto].
  destruct (decide (fi ≤ di)%nat) as [Hle|]; simpl; [|by auto].
  destruct (forallb _ _) eqn:Hall; simpl; [by auto|].
  apply rfind_Some in Hdot. split_and!.
  - rewrite <- string_of_list_ascii_app, take_drop.
    apply string_of_list_ascii_of_string.
  - right. rewrite (drop_S l "."%char di Hdot). simpl. eauto.
  - intros _. destruct (take di l) as [|x t] eqn:Ht; [|done].
    destruct di as [|di]; [|by destruct l].
    replace (0 - fi)%nat with 0%nat in Hall by lia. done.
Qed.

Lemma lower_String (c : ascii) (s : string) :
  lower (String c s) = String (lower_ascii c) (lower s).
Proof. done. Qed.

Lemma lower_ext_shape (p : string) :
  lower (splitext p).2 = EmptyString
  ∨ ∃ rest, lower (splitext p).2 = String "."%char rest.
Proof.
  destruct (splitext_spec p) as (_ & [->|[rest ->]] & _); [by left|right].
  rewrite lower_String. eauto.
Qed.

(** X1.  [get_client_ip] answers with the part of a non-empty
    X-Forwarded-For header before its first comma, whatever REMOTE_ADDR
    says, and with REMOTE_ADDR when the header is absent or empty. *)
Theorem X1_get_client_ip (request : HttpRequest.t) :
  (∀ h, HttpRequest.META request !! "HTTP_X_FORWARDED_FOR" = Some h →
        h ≠ EmptyString →
        ∃ ip, get_client_ip request = Some ip ∧ no_comma ip
              ∧ (h = ip ∨ ∃ rest, h = ip +:+ "," +:+ rest))
  ∧ (HttpRequest.META request !! "HTTP_X_FORWARDED_FOR" = None
     ∨ HttpRequest.META request !! "HTTP_X_FORWARDED_FOR" = Some EmptyString →
     get_client_ip request = HttpRequest.META request !! "REMOTE_ADDR").
Proof.
  split.
  - intros h Hh Hne. exists (split_comma_head h). unfold get_client_ip.
    rewrite Hh. simpl. unfold truthy_str. rewrite bool_decide_eq_false_2 by done.
    simpl. split; [done|]. clear Hh Hne.
    induction h as [|c h (Hno & Hcut)]; [split; [apply not_elem_of_nil|by left]|].
    simpl. destruct (decide (c = ","%char)) as [->|Hc].
    + split; [apply not_elem_of_nil|]. right. by exists h.
    + split.
      * unfold no_comma. simpl. rewrite not_elem_of_cons. split; [congruence|done].
      * destruct Hcut as [Hcut|[rest Hcut]]; [left|right; exists rest].
        -- by f_equal.
        -- change (String c h
                   = String c (split_comma_head h +:+ "," +:+ rest)).
           by f_equal.
  - unfold get_client_ip. by intros [-> | ->].
Qed.

(** X2.  [AssetDocument.save] keeps a display name that is given, takes the
    file name without its extension when none is given, and so never
    leaves a document that has a file name without a display name; saving
    twice is saving once, and no other column is touched. *)
Theorem X2_document_save_display_name (d : AssetDocument.t) :
  (AssetDocument.name d ≠ EmptyString → AssetDocument.pre_save d = d)
  ∧ (∀ n, AssetDocument.name d = EmptyString →
          AssetDocument.file_name d = Some n → n ≠ EmptyString →
          AssetDocument.name (AssetDocument.pre_save d) = (splitext n).1
          ∧ AssetDocument.name (AssetDocument.pre_save d) ≠ EmptyString)
  ∧ AssetDocument.pre_save (AssetDocument.pre_save d) = AssetDocument.pre_save d
  ∧ AssetDocument.asset (AssetDocument.pre_save d) = AssetDocument.asset d
  ∧ AssetDocument.file_data (AssetDocument.pre_save d) = AssetDocument.file_data d
  ∧ AssetDocument.file_name (AssetDocument.pre_save d) = AssetDocument.file_name d
  ∧ AssetDocument.file_type (AssetDocument.pre_save d) = AssetDocument.file_type d
  ∧ AssetDocument.file_size (AssetDocument.pre_save d) = AssetDocument.file_size d.
Proof.
  destruct d as [a data fname ftype fsize nm].
  unfold AssetDocument.pre_save, truthy_str. simpl.
  destruct (decide (nm = EmptyString)) as [->|Hnm].
  - rewrite bool_decide_eq_true_2 by done. simpl.
    destruct fname as [n|]; simpl; [|by split_and!].
    unfold truthy_str. destruct (decide (n = EmptyString)) as [->|Hn].
    + split_and!; try done. by intros n' _ [= <-] ?.
    + rewrite (bool_decide_eq_false_2 _ Hn). simpl.
      pose proof (proj2 (proj2 (splitext_spec n)) Hn) as Hroot.
      rewrite (bool_decide_eq_false_2 _ Hroot). simpl.
      split_and!; try done. by intros n' _ [= <-] _.
  - rewrite (bool_decide_eq_false_2 _ Hnm). simpl.
    rewrite (bool_decide_eq_false_2 _ Hnm). simpl. by split_and!.
Qed.

Lemma clean_files_loop_None (allowed : list string) (max_size : Z)
    (str_div : Z → Z → string) (files : list UploadedFile.t) :
  AssetDocumentForm.clean_files_loop allowed max_size str_div files = None
  ↔ Forall (file_ok allowed max_size) files.
Proof.
  induction files as [|f files IH]; simpl; [by split; [constructor|]|].
  rewrite Forall_cons, <- IH. unfold file_ok, truthy_str.
  destruct (decide (UploadedFile.name f = EmptyString)) as [He|Hne].
  - rewrite (bool_decide_eq_true_2 _ He). simpl.
    split; [intros H; split; [by intros ?|done]|by intros [_ ?]].
  - rewrite (bool_decide_eq_false_2 _ Hne). simpl.
    destruct (decide (lower (splitext (UploadedFile.name f)).2 ∈ allowed)) as [Hin|Hout].
    + rewrite (bool_decide_eq_true_2 _ Hin). simpl.
      destruct (decide (max_size < Z.of_nat (UploadedFile.size f))) as [Hbig|Hfit].
      * rewrite (bool_decide_eq_true_2 _ Hbig). split; [done|].
        intros [H _]. specialize (H Hne). lia.
      * rewrite (bool_decide_eq_false_2 _ Hfit). split; [|tauto].
        intros H. split; [|done]. intros _. split; [done|lia].
    + rewrite (bool_decide_eq_false_2 _ Hout). simpl. split; [done|].
      intros [H _]. by destruct (H Hne).
Qed.


(** X4.  The extension that [clean_files] looks up keeps its leading
    dot.  With an allow-list whose entries are written without the dot, as
    [AssetDocument.ALLOWED_EXTENSIONS] is, a list that holds a named file
    is always rejected. *)
Theorem X4_dotless_allow_list_rejects (allowed : list string) (max_size : Z)
    (str_div : Z → Z → string) (files : list UploadedFile.t) :
  Forall dotless allowed →
  Exists (λ f, UploadedFile.name f ≠ EmptyString) files →
  ∃ e, AssetDocumentForm.clean_files allowed max_size str_div files = inr e.
Proof.
  intros Hdotless Hnamed. unfold AssetDocumentForm.clean_files.
  destruct (AssetDocumentForm.clean_files_loop _ _ _ _) as [e|] eqn:Hok;
    [by exists e|].
  exfalso. apply clean_files_loop_None in Hok.
  apply Exists_exists in Hnamed as (f & Hf & Hname).
  rewrite Forall_forall in Hok. destruct (Hok f Hf Hname) as [Hin _].
  rewrite Forall_forall in Hdotless. specialize (Hdotless _ Hin).
  by destruct (lower_ext_shape (UploadedFile.name f)) as [He|[rest He]];
    rewrite He in Hdotless.
Qed.

Lemma is_required_elem_of (m : gmap string bool) (f : string) :
  AssetForm.is_required m f = true
  ↔ f ∈ (filter (λ kb, kb.2 = true) (map_to_list m)).*1.
Proof.
  unfold AssetForm.is_required. rewrite list_elem_of_fmap. split.
  - destruct (m !! f) as [[]|] eqn:E; simpl; [|done..]. intros _.
    exists (f, true). split; [done|].
    apply list_elem_of_filter. split; [done|]. by apply elem_of_map_to_list.
  - intros ([k b] & -> & [Hb Hin]%list_elem_of_filter). simpl in *. subst b.
    apply elem_of_map_to_list in Hin. by rewrite Hin.
Qed.

Lemma setup_required_iff (category : option string) (f : string) :
  AssetForm.is_required
    (AssetForm._setup_category_fields category AssetForm.model_required) f = true
  ↔ f ∈ ["name"; "category"; "value"; "start_date"]
    ∨ (category = Some "lands" ∧ f ∈ ["latitude"; "longitude"]).
Proof.
  rewrite is_required_elem_of.
  unfold AssetForm._setup_category_fields. cbv zeta.
  destruct (decide (category = Some "lands")) as [Hl|Hl];
    match goal with |- _ ∈ ?l ↔ _ =>
      let l' := eval vm_compute in l in change l with l' end;
    rewrite !elem_of_cons, !elem_of_nil; tauto.
Qed.

(** X5.  Whatever category a form is set up for, the fields it requires
    are name, category, value and start date, and for lands also latitude
    and longitude; no other field is ever required. *)
Theorem X5_required_fields (category : option string) (f : string) :
  AssetForm.is_required
    (AssetForm._setup_category_fields category AssetForm.model_required) f = true
  ↔ f ∈ ["name"; "category"; "value"; "start_date"]
    ∨ (category = Some "lands" ∧ f ∈ ["latitude"; "longitude"]).
Proof. apply setup_required_iff. Qed.

(** ** The views in closed form *)

Lemma DB_eta (db : DB) :
  mkDB (assets db) (asset_seq db) (documents db) (document_seq db) (activity_logs db)
  = db.
Proof. by destruct db. Qed.

Lemma ORM_bind_eq {A B} (m : ORM A) (f : A → ORM B) (db : DB) :
  (m ≫= f) db = f (m db).1 (m db).2.
Proof. unfold mbind, ORM_bind. by destruct (m db). Qed.

Section ClosedForm.
Context {F : Type}.
Variable float : Decimal → F.
Variable guess_type : string → option string.
Variable clean_ipv6_address : string → option string.
Variable mime_encode : string → string.
Variable LOGIN_URL : Location.

Lemma create_from_file_eq (pk : nat) (f : UploadedFile.t) (db : DB) :
  AssetDocument_create_from_file guess_type pk f db
  = ((document_seq db, stored_document guess_type pk f),
     mkDB (assets db) (asset_seq db)
          (<[document_seq db := stored_document guess_type pk f]> (documents db))
          (S (document_seq db)) (activity_logs db)).
Proof.
  unfold AssetDocument_create_from_file, AssetDocument_objects_create,
    stored_document, AssetDocument.pre_save, UploadedFile.read. simpl.
  assert ((if negb (truthy_ostr (guess_type (UploadedFile.name f)))
           then "application/octet-stream"
           else default EmptyString (guess_type (UploadedFile.name f)))
          = match guess_type (UploadedFile.name f) with
            | Some m => if decide (m = EmptyString)
                        then "application/octet-stream" else m
            | None => "application/octet-stream"
            end) as ->.
  { destruct (guess_type _) as [m|]; simpl; [|done]. unfold truthy_str.
    by destruct (decide (m = EmptyString));
      [rewrite bool_decide_eq_true_2|rewrite bool_decide_eq_false_2]. }
  unfold truthy_str.
  destruct (decide (UploadedFile.name f = EmptyString)) as [He|Hne].
  - by rewrite !(bool_decide_eq_true_2 _ He).
  - by rewrite !(bool_decide_eq_false_2 _ Hne).
Qed.

Lemma create_loop_eq (pk : nat) (files : list UploadedFile.t) (db : DB) :
  for_each files (λ f, AssetDocument_create_from_file guess_type pk f ;; mret tt) db
  = (tt, mkDB (assets db) (asset_seq db)
              (upload guess_type pk files (documents db, document_seq db)).1
              (upload guess_type pk files (documents db, document_seq db)).2
              (activity_logs db)).
Proof.
  revert db. induction files as [|f files IH]; intros db; simpl.
  - by rewrite DB_eta.
  - unfold mbind, ORM_bind. rewrite create_from_file_eq.
    unfold mret, ORM_ret. by rewrite IH.
Qed.

Lemma update_loop_eq (request : HttpRequest.t) (user : User) (object : Asset.t)
    (pk : nat) (files : list UploadedFile.t) (db : DB) :
  for_each files (λ f,
    AssetDocument_create_from_file guess_type pk f ;;
    ActivityLog_log_action clean_ipv6_address user "upload" object
      (Some ("Uploaded document: " +:+ UploadedFile.name f))
      (get_client_ip request)) db
  = (tt, mkDB (assets db) (asset_seq db)
              (upload guess_type pk files (documents db, document_seq db)).1
              (upload guess_type pk files (documents db, document_seq db)).2
              (activity_logs db
                 ++ (upload_row clean_ipv6_address request user object <$> files))).
Proof.
  revert db. induction files as [|f files IH]; intros db; simpl.
  - by rewrite app_nil_r, DB_eta.
  - unfold mbind, ORM_bind. rewrite create_from_file_eq.
    unfold ActivityLog_log_action, ActivityLog_objects_create. simpl.
    rewrite IH. simpl. by rewrite <- app_assoc.
Qed.

Lemma base_fields_required (form : AssetForm.t) (f : string) :
  f ∈ ["name"; "category"; "value"; "start_date"] →
  AssetForm.is_required (AssetForm.fields_required form) f = true.
Proof.
  intros Hf. unfold AssetForm.fields_required.
  apply setup_required_iff. by left.
Qed.

Lemma clean_field_errors {A} (req : gmap string bool) (d : FormData.t) (f : string)
    (v empty_value : option A) :
  AssetForm.is_required req f = true →
  (AssetForm.clean_field req d f v empty_value).2 = [] →
  ∃ x, v = Some x ∧ (AssetForm.clean_field req d f v empty_value).1 = Some x.
Proof.
  unfold AssetForm.clean_field. intros Hreq. destruct v as [x|]; [by eauto|].
  destruct (AssetForm.refused d f); [by rewrite Hreq|done].
Qed.

Lemma clean_choice_spec (req : gmap string bool) (d : FormData.t) (v : option string) :
  AssetForm.is_required req "category" = true →
  (AssetForm.clean_choice req d v).2 = [] →
  ∃ c, (AssetForm.clean_choice req d v).1 = Some c
       ∧ c ∈ Asset.CATEGORY_CHOICES.*1.
Proof.
  unfold AssetForm.clean_choice. intros Hreq.
  destruct (AssetForm.blank_to_None v) as [c|].
  - destruct (bool_decide _) eqn:Hin; simpl; [|done].
    intros _. exists c. split; [done|]. by apply bool_decide_eq_true in Hin.
  - intros H. by apply clean_field_errors in H as (x & ? & _).
Qed.

(** The shape of [cleaned_data] and of the field errors. *)
Lemma clean_fields_shape (form : AssetForm.t) :
  let req := AssetForm.fields_required form in
  let d := AssetForm.data form in
  let name :=
    AssetForm.clean_field req d "name" (AssetForm.blank_to_None (FormData.name d))
      (Some EmptyString) in
  let description :=
    AssetForm.clean_field req d "description"
      (AssetForm.blank_to_None (FormData.description d)) (Some EmptyString) in
  AssetForm.clean_fields form
  = (FormData.mk name.1 (AssetForm.clean_choice req d (FormData.category d)).1
       (FormData.value d) description.1 (FormData.start_date d)
       (FormData.end_date d) (FormData.latitude d) (FormData.longitude d)
       (FormData.special d) (FormData.value_str d) (FormData.field_errors d),
     name.2
       ++ (AssetForm.clean_choice req d (FormData.category d)).2
       ++ (AssetForm.clean_field req d "value" (FormData.value d) None).2
       ++ description.2
       ++ (AssetForm.clean_field req d "start_date" (FormData.start_date d) None).2
       ++ (AssetForm.clean_field req d "end_date" (FormData.end_date d) None).2
       ++ (AssetForm.clean_field req d "latitude" (FormData.latitude d) None).2
       ++ (AssetForm.clean_field req d "longitude" (FormData.longitude d) None).2
       ++ AssetForm.clean_special d).
Proof.
  intros req d name description. unfold AssetForm.clean_fields.
  fold req. fold d. fold name. fold description.
  pose proof (clean_field_fst req d "value" (FormData.value d)) as Hvalue.
  pose proof (clean_field_fst req d "start_date" (FormData.start_date d)) as Hstart.
  pose proof (clean_field_fst req d "end_date" (FormData.end_date d)) as Hend.
  pose proof (clean_field_fst req d "latitude" (FormData.latitude d)) as Hlat.
  pose proof (clean_field_fst req d "longitude" (FormData.longitude d)) as Hlon.
  destruct name, description, (AssetForm.clean_choice req d _).
  destruct (AssetForm.clean_field req d "value" _ _),
    (AssetForm.clean_field req d "start_date" _ _),
    (AssetForm.clean_field req d "end_date" _ _),
    (AssetForm.clean_field req d "latitude" _ _),
    (AssetForm.clean_field req d "longitude" _ _).
  simpl in *. by subst.
Qed.

(** The description that a form without field errors cleans to is the
    text that was entered, the empty text for a blank entry. *)
Lemma cleaned_description (form : AssetForm.t) :
  (AssetForm.clean_fields form).2 = [] →
  FormData.description (AssetForm.cleaned_data form)
  = Some (default EmptyString
            (AssetForm.blank_to_None (FormData.description (AssetForm.data form)))).
Proof.
  unfold AssetForm.cleaned_data. rewrite clean_fields_shape. cbn [fst snd].
  cbn [FormData.description].
  intros Hnil. apply app_nil in Hnil as [_ Hnil]. apply app_nil in Hnil as [_ Hnil].
  apply app_nil in Hnil as [_ Hnil]. apply app_nil in Hnil as [Hnil _].
  revert Hnil. unfold AssetForm.clean_field.
  destruct (AssetForm.blank_to_None _) as [text|]; [done|].
  destruct (AssetForm.refused _ _); [|done].
  rewrite (proj1 (optional_fields_not_required form)). done.
Qed.

Lemma cleaned_value_str (form : AssetForm.t) :
  FormData.value_str (AssetForm.cleaned_data form)
  = FormData.value_str (AssetForm.data form).
Proof. unfold AssetForm.cleaned_data. by rewrite clean_fields_shape. Qed.

(** A valid form always yields an instance, and the instance is checked. *)
Lemma valid_form_instance (form : AssetForm.t) (owner : User) :
  AssetForm.is_valid form = true →
  ∃ object,
    AssetForm.construct_instance owner (AssetForm.cleaned_data form) = Some object
    ∧ asset_checked object.
Proof.
  intros Hv. pose proof Hv as [cd Hclean]%is_valid_clean.
  unfold AssetForm.is_valid in Hv. apply bool_decide_eq_true in Hv.
  rewrite errors_clean, Hclean, app_nil_r in Hv.
  unfold AssetForm.cleaned_data in *.
  rewrite clean_fields_shape in Hv, Hclean |- *. cbn [fst snd] in *.
  set (req := AssetForm.fields_required form) in *.
  set (d := AssetForm.data form) in *.
  apply app_nil in Hv as [Hname Hv]. apply app_nil in Hv as [Hcat Hv].
  apply app_nil in Hv as [Hvalue Hv]. apply app_nil in Hv as [_ Hv].
  apply app_nil in Hv as [Hstart _].
  apply clean_field_errors in Hname as (n & Hn & Hn');
    [|apply base_fields_required; (apply (bool_decide_unpack _); vm_compute; exact I)].
  apply clean_choice_spec in Hcat as (c & Hc & Hin);
    [|apply base_fields_required; (apply (bool_decide_unpack _); vm_compute; exact I)].
  apply clean_field_errors in Hvalue as (v & Hval & _);
    [|apply base_fields_required; (apply (bool_decide_unpack _); vm_compute; exact I)].
  apply clean_field_errors in Hstart as (st & Hst & _);
    [|apply base_fields_required; (apply (bool_decide_unpack _); vm_compute; exact I)].
  unfold AssetForm.construct_instance. cbn [FormData.name FormData.category
    FormData.value FormData.start_date FormData.description FormData.end_date
    FormData.latitude FormData.longitude FormData.special].
  rewrite Hn', Hc, Hval, Hst in *. simpl. eexists. split; [done|].
  unfold asset_checked, dates_ordered. simpl. split_and!.
  - unfold AssetForm.blank_to_None in Hn.
    destruct (FormData.name d) as [n'|]; simpl in Hn; [|done].
    unfold truthy_str in Hn.
    destruct (decide (n' = EmptyString)) as [->|Hne]; [done|].
    rewrite (bool_decide_eq_false_2 _ Hne) in Hn. simpl in Hn. congruence.
  - done.
  - unfold AssetForm.clean in Hclean. simpl in Hclean.
    destruct (FormData.end_date d) as [e|]; [|done]. simpl in Hclean.
    destruct (e <? st) eqn:Hlt; [done|]. by apply Z.ltb_ge.
  - intros ->. unfold AssetForm.clean in Hclean. simpl in Hclean.
    destruct (_ && _); [done|].
    destruct (FormData.latitude d) as [lat|]; [|done].
    destruct (FormData.longitude d) as [lon|];
      [|by destruct (truthy_odec (Some lat))].
    simpl in Hclean.
    destruct (Z.eqb_spec lat 0), (Z.eqb_spec lon 0); simpl in Hclean; try done.
    by exists lat, lon.
Qed.

Lemma AssetCreateView_post_closed (request : HttpRequest.t) (user : User) (db : DB) :
  let form := AssetForm.mk (HttpRequest.GET request !! "category") None
                (HttpRequest.POST request) in
  HttpRequest.user request = Some user →
  AssetForm.is_valid form = true →
  ∃ object,
    AssetForm.construct_instance user (AssetForm.cleaned_data form) = Some object
    ∧ asset_checked object
    ∧ AssetCreateView_post guess_type (F:=F) clean_ipv6_address request db
      = (HttpResponseRedirect urls.asset_list,
         mkDB (<[asset_seq db := object]> (assets db)) (S (asset_seq db))
           (upload guess_type (asset_seq db) (HttpRequest.FILES request)
                   (documents db, document_seq db)).1
           (upload guess_type (asset_seq db) (HttpRequest.FILES request)
                   (documents db, document_seq db)).2
           (activity_logs db
              ++ [log_row clean_ipv6_address request user "create" object
                    (Some ("Created asset with value "
                             +:+ FormData.value_str (HttpRequest.POST request)))])).
Proof.
  intros form Hu Hv.
  destruct (valid_form_instance form user Hv) as (object & Hc & Hchecked).
  exists object. split_and!; [done..|].
  unfold AssetCreateView_post, LoginRequiredMixin. rewrite Hu. fold form. rewrite Hv.
  unfold AssetCreateView_form_valid. rewrite Hc, cleaned_value_str.
  rewrite ORM_bind_eq. unfold Asset_insert at 1 2. cbn [fst snd].
  rewrite ORM_bind_eq, create_loop_eq. done.
Qed.

Lemma AssetUpdateView_post_closed (request : HttpRequest.t) (user : User)
    (pk : nat) (a : Asset.t) (db : DB) :
  let form := AssetForm.mk None (Some (pk, a)) (HttpRequest.POST request) in
  HttpRequest.user request = Some user →
  get_owned_asset db user pk = Some a →
  AssetForm.is_valid form = true →
  ∃ object,
    AssetForm.construct_instance (Asset.owner a) (AssetForm.cleaned_data form)
      = Some object
    ∧ asset_checked object
    ∧ AssetUpdateView_post guess_type (F:=F) clean_ipv6_address request pk db
      = (HttpResponseRedirect (urls.asset_detail pk),
         mkDB (<[pk := object]> (assets db)) (asset_seq db)
           (upload guess_type pk (HttpRequest.FILES request)
                   (documents db, document_seq db)).1
           (upload guess_type pk (HttpRequest.FILES request)
                   (documents db, document_seq db)).2
           (activity_logs db
              ++ (upload_row clean_ipv6_address request user object <$> HttpRequest.FILES
                  request)
              ++ [log_row clean_ipv6_address request user "update" object (Some
                  "Updated asset")])).
Proof.
  intros form Hu Ho Hv.
  destruct (valid_form_instance form (Asset.owner a) Hv) as (object & Hc & Hchecked).
  exists object. split_and!; [done..|].
  unfold AssetUpdateView_post, LoginRequiredMixin, login_required. rewrite Hu.
  unfold mbind, ORM_bind, get_db. rewrite Ho. fold form. rewrite Hv.
  unfold AssetUpdateView_form_valid. rewrite Hc.
  rewrite ORM_bind_eq. unfold Asset_update, set_assets. cbn [fst snd].
  rewrite ORM_bind_eq, (update_loop_eq request user object). simpl.
  rewrite ORM_bind_eq. unfold ActivityLog_log_action, ActivityLog_objects_create.
  simpl. by rewrite <- app_assoc.
Qed.

Lemma AssetDetailView_get_closed (request : HttpRequest.t) (user : User)
    (pk : nat) (a : Asset.t) (db : DB) :
  HttpRequest.user request = Some user →
  get_owned_asset db user pk = Some a →
  AssetDetailView_get (F:=F) clean_ipv6_address request pk db
  = (TemplateResponse "assets/asset_detail.html"
       (AssetDetailContext (pk, a) (asset_documents db pk)),
     mkDB (assets db) (asset_seq db) (documents db) (document_seq db)
       (activity_logs db ++ [log_row clean_ipv6_address request user "view" a None])).
Proof.
  intros Hu Ho. unfold AssetDetailView_get, LoginRequiredMixin, login_required. rewrite Hu.
  unfold mbind, ORM_bind, get_db. by rewrite Ho.
Qed.

Lemma AssetDeleteView_post_closed (request : HttpRequest.t) (user : User)
    (pk : nat) (a : Asset.t) (db : DB) :
  HttpRequest.user request = Some user →
  get_owned_asset db user pk = Some a →
  AssetDeleteView_post (F:=F) clean_ipv6_address request pk db
  = (HttpResponseRedirect urls.asset_list,
     mkDB (delete pk (assets db)) (asset_seq db)
       (filter (λ kd, AssetDocument.asset kd.2 ≠ pk) (documents db))
       (document_seq db)
       (activity_logs db
          ++ [log_row clean_ipv6_address request user "delete" a
                (Some ("Deleted asset with value "
                         +:+ str_Decimal (Asset.value a)))])).
Proof.
  intros Hu Ho. unfold AssetDeleteView_post, LoginRequiredMixin, login_required. rewrite Hu.
  unfold mbind, ORM_bind, get_db. by rewrite Ho.
Qed.

Lemma delete_document_closed (request : HttpRequest.t) (user : User)
    (pk : nat) (d : AssetDocument.t) (a : Asset.t) (db : DB) :
  HttpRequest.user request = Some user →
  documents db !! pk = Some d →
  assets db !! AssetDocument.asset d = Some a →
  Asset.owner a = user →
  delete_document (F:=F) clean_ipv6_address LOGIN_URL request pk db
  = (HttpResponseRedirect (urls.asset_detail (AssetDocument.asset d)),
     mkDB (assets db) (asset_seq db) (delete pk (documents db)) (document_seq db)
       (activity_logs db
          ++ [log_row clean_ipv6_address request user "delete" a
                (Some ("Deleted document: "
                         +:+ from_option id "None" (AssetDocument.file_name d)))])).
Proof.
  intros Hu Hd Ha Ho. unfold delete_document, LoginRequiredMixin, login_required. rewrite
      Hu.
  unfold mbind, ORM_bind, get_db. rewrite Hd, Ha.
  by destruct (decide (Asset.owner a ≠ user)).
Qed.

(** The views that only read. *)
Lemma views_that_read (request : HttpRequest.t) (pk : nat) (db : DB) :
  (DashboardView_get float request db).2 = db
  ∧ (chart_data_api float LOGIN_URL request db).2 = db
  ∧ (AssetCreateView_get (F:=F) request db).2 = db
  ∧ (AssetUpdateView_get (F:=F) request pk db).2 = db
  ∧ (AssetDeleteView_get (F:=F) request pk db).2 = db
  ∧ (download_document (F:=F) mime_encode LOGIN_URL request pk db).2 = db.
Proof.
  unfold DashboardView_get, chart_data_api, AssetCreateView_get,
    AssetUpdateView_get, AssetDeleteView_get, download_document,
    LoginRequiredMixin, login_required.
  destruct (HttpRequest.user request) as [user|]; [|done].
  unfold mbind, ORM_bind, get_db. simpl.
  destruct (get_owned_asset db user pk); simpl;
    (destruct (documents db !! pk) as [d|]; simpl; [|done]);
    (destruct (assets db !! AssetDocument.asset d) as [a'|]; simpl; [|done]);
    by destruct (decide (Asset.owner a' ≠ user)).
Qed.

(** An empty submission never validates: the name is missing. *)
Lemma empty_form_invalid (category : option string) (instance : option (nat * Asset.t)) :
  AssetForm.is_valid (AssetForm.mk category instance FormData.empty) = false.
Proof.
  apply bool_decide_eq_false. rewrite errors_clean, clean_fields_shape. cbn [snd].
  unfold AssetForm.clean_field at 1. cbn [AssetForm.data].
  change (AssetForm.blank_to_None (FormData.name FormData.empty)) with (@None string).
  change (AssetForm.refused FormData.empty "name") with (@nil (string * string)).
  rewrite base_fields_required
    by (apply (bool_decide_unpack _); vm_compute; exact I).
  done.
Qed.

(** So a PUT, which reaches the post handler without form data, writes
    nothing. *)
Lemma put_writes_nothing (request : HttpRequest.t) (pk : nat) (db : DB) :
  (AssetCreateView_post guess_type (F:=F) clean_ipv6_address
     (HttpRequest.without_body request) db).2 = db
  ∧ (AssetUpdateView_post guess_type (F:=F) clean_ipv6_address
       (HttpRequest.without_body request) pk db).2 = db.
Proof.
  unfold AssetCreateView_post, AssetUpdateView_post, LoginRequiredMixin.
  cbn [HttpRequest.without_body HttpRequest.user HttpRequest.POST HttpRequest.GET].
  destruct (HttpRequest.user request) as [user|]; [|done].
  rewrite empty_form_invalid. split; [done|].
  unfold mbind, ORM_bind, get_db.
  destruct (get_owned_asset db user pk) as [a|]; [|done].
  by rewrite empty_form_invalid.
Qed.

Lemma AssetDetailView_get_request_effect (request : HttpRequest.t) (pk : nat) (db : DB) :
  request_effect guess_type clean_ipv6_address request db (AssetDetailView_get (F:=F)
      clean_ipv6_address request pk db).2.
Proof.
  destruct (HttpRequest.user request) as [user|] eqn:Hu.
  - destruct (get_owned_asset db user pk) as [a|] eqn:Ho.
    + rewrite (AssetDetailView_get_closed request user pk a db Hu Ho).
      by eapply request_views.
    + apply request_reads. unfold AssetDetailView_get, LoginRequiredMixin, login_required.
      rewrite Hu. unfold mbind, ORM_bind, get_db. by rewrite Ho.
  - apply request_reads. unfold AssetDetailView_get, LoginRequiredMixin, login_required.
      by rewrite Hu.
Qed.

Lemma AssetCreateView_post_request_effect (request : HttpRequest.t) (db : DB) :
  request_effect guess_type clean_ipv6_address request db
    (AssetCreateView_post guess_type (F:=F) clean_ipv6_address request db).2.
Proof.
  destruct (HttpRequest.user request) as [user|] eqn:Hu.
  - set (form := AssetForm.mk (HttpRequest.GET request !! "category") None
                   (HttpRequest.POST request)).
    destruct (AssetForm.is_valid form) eqn:Hv.
    + destruct (AssetCreateView_post_closed request user db Hu Hv)
        as (object & Hc & _ & ->).
      by eapply request_creates.
    + apply request_reads. unfold AssetCreateView_post, LoginRequiredMixin, login_required.
      rewrite Hu. fold form. by rewrite Hv.
  - apply request_reads. unfold AssetCreateView_post, LoginRequiredMixin, login_required.
      by rewrite Hu.
Qed.

Lemma AssetUpdateView_post_request_effect (request : HttpRequest.t) (pk : nat) (db : DB) :
  request_effect guess_type clean_ipv6_address request db
    (AssetUpdateView_post guess_type (F:=F) clean_ipv6_address request pk db).2.
Proof.
  destruct (HttpRequest.user request) as [user|] eqn:Hu.
  - destruct (get_owned_asset db user pk) as [a|] eqn:Ho.
    + set (form := AssetForm.mk None (Some (pk, a)) (HttpRequest.POST request)).
      destruct (AssetForm.is_valid form) eqn:Hv.
      * destruct (AssetUpdateView_post_closed request user pk a db Hu Ho Hv)
          as (object & Hc & _ & ->).
        by eapply request_updates.
      * apply request_reads. unfold AssetUpdateView_post, LoginRequiredMixin,
          login_required.
        rewrite Hu. unfold mbind, ORM_bind, get_db. rewrite Ho. fold form.
        by rewrite Hv.
    + apply request_reads. unfold AssetUpdateView_post, LoginRequiredMixin, login_required.
      rewrite Hu. unfold mbind, ORM_bind, get_db. by rewrite Ho.
  - apply request_reads. unfold AssetUpdateView_post, LoginRequiredMixin, login_required.
      by rewrite Hu.
Qed.

Lemma AssetDeleteView_post_request_effect (request : HttpRequest.t) (pk : nat) (db : DB) :
  request_effect guess_type clean_ipv6_address request db (AssetDeleteView_post (F:=F)
      clean_ipv6_address request pk db).2.
Proof.
  destruct (HttpRequest.user request) as [user|] eqn:Hu.
  - destruct (get_owned_asset db user pk) as [a|] eqn:Ho.
    + rewrite (AssetDeleteView_post_closed request user pk a db Hu Ho).
      by eapply request_deletes.
    + apply request_reads. unfold AssetDeleteView_post, LoginRequiredMixin, login_required.
      rewrite Hu. unfold mbind, ORM_bind, get_db. by rewrite Ho.
  - apply request_reads. unfold AssetDeleteView_post, LoginRequiredMixin, login_required.
      by rewrite Hu.
Qed.

Lemma AssetDeleteView_delete_request_effect (request : HttpRequest.t) (pk : nat)
    (db : DB) :
  request_effect guess_type clean_ipv6_address request db
    (AssetDeleteView_delete (F:=F) request pk db).2.
Proof.
  unfold AssetDeleteView_delete, LoginRequiredMixin.
  destruct (HttpRequest.user request) as [user|] eqn:Hu; [|by apply request_reads].
  unfold mbind, ORM_bind, get_db.
  destruct (get_owned_asset db user pk) as [a|] eqn:Ho; [|by apply request_reads].
  by eapply request_deletes_unlogged.
Qed.

Lemma delete_document_request_effect (request : HttpRequest.t) (pk : nat) (db : DB) :
  request_effect guess_type clean_ipv6_address request db (delete_document (F:=F)
      clean_ipv6_address LOGIN_URL request pk db).2.
Proof.
  destruct (HttpRequest.user request) as [user|] eqn:Hu;
    [|apply request_reads; unfold delete_document, LoginRequiredMixin, login_required; by
        rewrite Hu].
  destruct (documents db !! pk) as [d|] eqn:Hd;
    [|apply request_reads; unfold delete_document, LoginRequiredMixin, login_required;
        rewrite Hu;
      unfold mbind, ORM_bind, get_db; by rewrite Hd].
  destruct (assets db !! AssetDocument.asset d) as [a|] eqn:Ha;
    [|apply request_reads; unfold delete_document, LoginRequiredMixin, login_required;
        rewrite Hu;
      unfold mbind, ORM_bind, get_db; by rewrite Hd, Ha].
  destruct (decide (Asset.owner a = user)) as [Ho|Hne].
  - rewrite (delete_document_closed request user pk d a db Hu Hd Ha Ho).
    by eapply request_deletes_document.
  - apply request_reads. unfold delete_document, LoginRequiredMixin, login_required.
      rewrite Hu.
    unfold mbind, ORM_bind, get_db. rewrite Hd, Ha.
    by destruct (decide (Asset.owner a ≠ user)).
Qed.

(** Every request falls under one of the seven cases. *)
Lemma serve_request_effect (db : DB) (call : urls.t * HttpRequest.t) :
  request_effect guess_type clean_ipv6_address call.2 db
    (serve guess_type float clean_ipv6_address mime_encode LOGIN_URL db call).
Proof.
  destruct call as [url request]. unfold serve, resolve. simpl.
  assert (Hnone : request_effect guess_type clean_ipv6_address request db db)
    by (by apply request_reads).
  destruct url as [ | | | | | |pk|pk|pk|pk|pk| | ]; simpl; try done;
    try (apply View_dispatch_cases; [done|..]; intros view [= <-]);
    try (destruct (views_that_read request pk db) as (H1 & H2 & H3 & H4 & H5 & H6));
    try (destruct (views_that_read request 0%nat db) as (H1 & H2 & H3 & H4 & H5 & H6));
    try (destruct (put_writes_nothing request pk db) as [H7 H8]);
    try (destruct (put_writes_nothing request 0%nat db) as [H7 H8]);
    try (by apply request_reads);
    first [ apply AssetDetailView_get_request_effect
          | apply AssetCreateView_post_request_effect
          | apply AssetUpdateView_post_request_effect
          | apply AssetDeleteView_post_request_effect
          | apply AssetDeleteView_delete_request_effect
          | apply delete_document_request_effect ].
Qed.
End ClosedForm.

(** ** Uploads *)

Lemma upload_cons guess_type (pk : nat) (f : UploadedFile.t) (files : list UploadedFile.t)
    (docs : gmap nat AssetDocument.t) (seq : nat) :
  upload guess_type pk (f :: files) (docs, seq)
  = upload guess_type pk files (<[seq := stored_document guess_type pk f]> docs, S seq).
Proof. done. Qed.

Lemma upload_seq guess_type (pk : nat) (files : list UploadedFile.t)
    (docs : gmap nat AssetDocument.t) (seq : nat) :
  (upload guess_type pk files (docs, seq)).2 = (seq + length files)%nat.
Proof.
  revert docs seq. induction files as [|f files IH]; intros docs seq.
  - simpl. lia.
  - rewrite upload_cons, IH. simpl. lia.
Qed.

Lemma upload_lookup guess_type (pk : nat) (files : list UploadedFile.t)
    (docs : gmap nat AssetDocument.t) (seq k : nat) :
  (upload guess_type pk files (docs, seq)).1 !! k
  = if decide (seq ≤ k < seq + length files)%nat
    then stored_document guess_type pk <$> files !! (k - seq)%nat
    else docs !! k.
Proof.
  revert docs seq. induction files as [|f files IH]; intros docs seq.
  - simpl. case_decide; [lia|done].
  - rewrite upload_cons, IH. simpl length.
    destruct (decide (k = seq)) as [->|Hne].
    + rewrite decide_False by lia. rewrite decide_True by lia.
      by rewrite lookup_insert_eq, Nat.sub_diag.
    + rewrite lookup_insert_ne by done.
      destruct (decide (S seq ≤ k < S seq + length files)%nat).
      * rewrite decide_True by lia.
        by replace (k - seq)%nat with (S (k - S seq)) by lia.
      * by rewrite decide_False by lia.
Qed.

(** A document after an upload is an old one or one of the new ones. *)
Lemma upload_lookup_Some guess_type (pk : nat) (files : list UploadedFile.t)
    (docs : gmap nat AssetDocument.t) (seq k : nat) (d : AssetDocument.t) :
  (upload guess_type pk files (docs, seq)).1 !! k = Some d →
  docs !! k = Some d
  ∨ ((seq ≤ k < seq + length files)%nat ∧ AssetDocument.asset d = pk).
Proof.
  rewrite upload_lookup. case_decide; [|by left].
  intros (f & _ & ->)%fmap_Some. by right.
Qed.

Lemma upload_lookup_old guess_type (pk : nat) (files : list UploadedFile.t)
    (docs : gmap nat AssetDocument.t) (seq k : nat) :
  (k < seq)%nat →
  (upload guess_type pk files (docs, seq)).1 !! k = docs !! k.
Proof. intros Hk. rewrite upload_lookup. by rewrite decide_False by lia. Qed.

(** ** Invariants of the requests *)

Section Invariants.
Context {F : Type}.
Variable float : Decimal → F.
Variable guess_type : string → option string.
Variable clean_ipv6_address : string → option string.
Variable mime_encode : string → string.
Variable LOGIN_URL : Location.

Lemma run_invariant (I : DB → Prop) (calls : list (urls.t * HttpRequest.t)) (db : DB) :
  (∀ db0 call, I db0 → I (serve guess_type float clean_ipv6_address mime_encode LOGIN_URL
      db0 call)) →
  I db → I (run guess_type float clean_ipv6_address mime_encode LOGIN_URL calls db).
Proof.
  intros Hstep. revert db. induction calls as [|call calls IH]; intros db HI; [done|].
  simpl. apply IH. by apply Hstep.
Qed.

Lemma effect_fk_ok (request : HttpRequest.t) (db db' : DB) :
  fk_ok db → request_effect guess_type clean_ipv6_address request db db' → fk_ok db'.
Proof.
  unfold fk_ok. intros Hfk.
  intros [->|u pk a _ _ ->|u form obj _ _ _ ->|u pk a form obj _ Ho _ _ ->
         |u pk a _ Ho ->|u pk a _ Ho ->|u pk d a _ Hd _ _ ->]; simpl; try done.
  - intros k d [Hold|[_ Hnew]]%upload_lookup_Some.
    + apply lookup_insert_is_Some'. right. by apply (Hfk k d).
    + simpl. rewrite Hnew. apply lookup_insert_is_Some'. by left.
  - intros k d [Hold|[_ Hnew]]%upload_lookup_Some.
    + apply lookup_insert_is_Some'. right. by apply (Hfk k d).
    + simpl. rewrite Hnew. apply lookup_insert_is_Some'. by left.
  - intros k d [Hk Hne]%map_lookup_filter_Some. simpl in *.
    rewrite lookup_delete_ne by done. by apply (Hfk k d).
  - intros k d [Hk Hne]%map_lookup_filter_Some. simpl in *.
    rewrite lookup_delete_ne by done. by apply (Hfk k d).
  - by apply map_Forall_delete.
Qed.

Lemma effect_wf_documents (request : HttpRequest.t) (db db' : DB) :
  wf_documents db → request_effect guess_type clean_ipv6_address request db db' →
      wf_documents db'.
Proof.
  unfold wf_documents. intros Hwf.
  intros [->|u pk a _ _ ->|u form obj _ _ _ ->|u pk a form obj _ Ho _ _ ->
         |u pk a _ Ho ->|u pk a _ Ho ->|u pk d a _ Hd _ _ ->]; simpl; try done.
  - intros k d [Hold|[Hk _]]%upload_lookup_Some; rewrite upload_seq;
      [apply Hwf in Hold|]; simpl in *; lia.
  - intros k d [Hold|[Hk _]]%upload_lookup_Some; rewrite upload_seq;
      [apply Hwf in Hold|]; simpl in *; lia.
  - intros k d [Hk _]%map_lookup_filter_Some. by apply (Hwf k d).
  - intros k d [Hk _]%map_lookup_filter_Some. by apply (Hwf k d).
  - by apply map_Forall_delete.
Qed.

Lemma effect_checked (request : HttpRequest.t) (db db' : DB) :
  map_Forall (λ _ a, asset_checked a) (assets db) →
  request_effect guess_type clean_ipv6_address request db db' →
  map_Forall (λ _ a, asset_checked a) (assets db').
Proof.
  intros Hall.
  intros [->|u pk a _ _ ->|u form obj _ Hv Hc ->|u pk a form obj _ Ho Hv Hc ->
         |u pk a _ Ho ->|u pk a _ Ho ->|u pk d a _ Hd _ _ ->]; simpl; try done.
  - apply map_Forall_insert_2; [|done].
    destruct (valid_form_instance form u Hv) as (obj' & Hc' & Hchecked).
    congruence.
  - apply map_Forall_insert_2; [|done].
    destruct (valid_form_instance form (Asset.owner a) Hv) as (obj' & Hc' & Hchecked).
    congruence.
  - by apply map_Forall_delete.
  - by apply map_Forall_delete.
Qed.

(** Rows of other owners stay as they are. *)
Lemma effect_foreign_asset (request : HttpRequest.t) (db db' : DB) (k : nat) (a : Asset.t) :
  wf db → request_effect guess_type clean_ipv6_address request db db' →
  assets db !! k = Some a →
  HttpRequest.user request ≠ Some (Asset.owner a) →
  assets db' !! k = Some a.
Proof.
  intros Hwf
    [->|u pk a0 _ _ ->|u form obj _ _ _ ->|u pk a0 form obj Hu Ho _ _ ->
    |u pk a0 Hu Ho ->|u pk a0 Hu Ho ->|u pk d a0 _ Hd _ _ ->] Hk Hother; simpl;
    try done.
  - rewrite lookup_insert_ne; [done|]. apply Hwf in Hk. lia.
  - apply get_owned_asset_Some in Ho as [Hpk Hown].
    rewrite lookup_insert_ne; [done|]. intros ->. congruence.
  - apply get_owned_asset_Some in Ho as [Hpk Hown].
    rewrite lookup_delete_ne; [done|]. intros ->. congruence.
  - apply get_owned_asset_Some in Ho as [Hpk Hown].
    rewrite lookup_delete_ne; [done|]. intros ->. congruence.
Qed.

Lemma effect_foreign_document (request : HttpRequest.t) (db db' : DB)
    (k : nat) (d : AssetDocument.t) (a : Asset.t) :
  wf_documents db → request_effect guess_type clean_ipv6_address request db db' →
  documents db !! k = Some d →
  assets db !! AssetDocument.asset d = Some a →
  HttpRequest.user request ≠ Some (Asset.owner a) →
  documents db' !! k = Some d.
Proof.
  intros Hwf
    [->|u pk a0 _ _ ->|u form obj _ _ _ ->|u pk a0 form obj Hu Ho _ _ ->
    |u pk a0 Hu Ho ->|u pk a0 Hu Ho ->|u pk d0 a0 Hu Hd Ha0 Hown ->] Hk Ha Hother;
    simpl; try done.
  - rewrite upload_lookup_old; [done|]. by apply (Hwf k d).
  - rewrite upload_lookup_old; [done|]. by apply (Hwf k d).
  - apply get_owned_asset_Some in Ho as [Hpk Hown].
    apply map_lookup_filter_Some. split; [done|]. simpl. intros Heq.
    rewrite Heq in Ha. congruence.
  - apply get_owned_asset_Some in Ho as [Hpk Hown].
    apply map_lookup_filter_Some. split; [done|]. simpl. intros Heq.
    rewrite Heq in Ha. congruence.
  - rewrite lookup_delete_ne; [done|]. intros ->. congruence.
Qed.

Lemma effect_owner_kept (request : HttpRequest.t) (db db' : DB) (k : nat)
    (a a' : Asset.t) :
  wf db → request_effect guess_type clean_ipv6_address request db db' →
  assets db !! k = Some a → assets db' !! k = Some a' →
  Asset.owner a' = Asset.owner a.
Proof.
  intros Hwf
    [->|u pk a0 _ _ ->|u form obj _ _ _ ->|u pk a0 form obj Hu Ho _ Hc ->
    |u pk a0 Hu Ho ->|u pk a0 Hu Ho ->|u pk d a0 _ Hd _ _ ->] Hk Hk'; simpl in *;
    try congruence.
  - rewrite lookup_insert_ne in Hk'; [congruence|]. apply Hwf in Hk. lia.
  - apply get_owned_asset_Some in Ho as [Hpk Hown].
    apply construct_instance_owner in Hc.
    destruct (decide (pk = k)) as [->|Hne].
    + rewrite lookup_insert_eq in Hk'. congruence.
    + rewrite lookup_insert_ne in Hk' by done. congruence.
  - destruct (decide (pk = k)) as [->|Hne].
    + by rewrite lookup_delete_eq in Hk'.
    + rewrite lookup_delete_ne in Hk' by done. congruence.
  - destruct (decide (pk = k)) as [->|Hne].
    + by rewrite lookup_delete_eq in Hk'.
    + rewrite lookup_delete_ne in Hk' by done. congruence.
Qed.

Lemma effect_logs (request : HttpRequest.t) (db db' : DB) :
  request_effect guess_type clean_ipv6_address request db db' →
  ∃ new, activity_logs db' = activity_logs db ++ new
         ∧ Forall (λ r, ActivityLog.user r = HttpRequest.user request) new
         ∧ (HttpRequest.user request = None → new = []).
Proof.
  intros [->|u pk a Hu _ ->|u form obj Hu _ _ ->|u pk a form obj Hu Ho _ _ ->
         |u pk a Hu Ho ->|u pk a Hu Ho ->|u pk d a Hu Hd _ _ ->]; simpl;
    try (by exists []; rewrite app_nil_r);
    try (eexists; split; [done|]; split; [|by rewrite Hu];
         repeat constructor; by rewrite Hu).
  eexists. split; [done|]. split; [|by rewrite Hu].
  apply Forall_app. split; [|repeat constructor; by rewrite Hu].
  apply Forall_fmap, Forall_true. intros f. simpl. by rewrite Hu.
Qed.
End Invariants.

(** ** The views, request by request *)

Section ViewProperties.
Context {F : Type}.
Variable float : Decimal → F.
Variable guess_type : string → option string.
Variable clean_ipv6_address : string → option string.
Variable mime_encode : string → string.
Variable LOGIN_URL : Location.

Lemma invalid_errors (form : AssetForm.t) :
  AssetForm.is_valid form = false → AssetForm.errors form ≠ [].
Proof. unfold AssetForm.is_valid. by intros H%bool_decide_eq_false. Qed.

(** X6.  A create or edit submission that does not validate is answered
    with the form and its errors, of which there is at least one, and
    writes nothing: no asset, no document of the uploaded files, no
    activity row.  The object that the edit page shows with the form
    still has the owner of the stored row. *)
Theorem X6_invalid_submission_writes_nothing
    (request : HttpRequest.t) (user : User) (pk : nat) (db : DB) :
  HttpRequest.user request = Some user →
  (let form := AssetForm.mk (HttpRequest.GET request !! "category") None
                 (HttpRequest.POST request) in
   AssetForm.is_valid form = false →
   ∃ errors,
     AssetCreateView_post guess_type (F:=F) clean_ipv6_address request db
     = (TemplateResponse "assets/asset_form.html"
          (AssetFormContext false None errors []), db)
     ∧ errors ≠ [])
  ∧ (∀ a, let form := AssetForm.mk None (Some (pk, a)) (HttpRequest.POST request) in
          get_owned_asset db user pk = Some a →
          AssetForm.is_valid form = false →
          ∃ shown errors,
            AssetUpdateView_post guess_type (F:=F) clean_ipv6_address request pk db
            = (TemplateResponse "assets/asset_form.html"
                 (AssetFormContext true (Some (pk, shown)) errors
                    (asset_documents db pk)), db)
            ∧ errors ≠ []
            ∧ Asset.owner shown = Asset.owner a).
Proof.
  intros Hu. split.
  - intros form Hv. exists (AssetForm.errors form).
    split; [|by apply invalid_errors].
    unfold AssetCreateView_post, LoginRequiredMixin. rewrite Hu. fold form.
    by rewrite Hv.
  - intros a form Ho Hv.
    exists (AssetForm.post_clean_instance form a), (AssetForm.errors form).
    split_and!; [|by apply invalid_errors|done].
    unfold AssetUpdateView_post, LoginRequiredMixin. rewrite Hu.
    unfold mbind, ORM_bind, get_db. rewrite Ho. fold form. by rewrite Hv.
Qed.

(** X7.  Without a logged-in user every view, for every argument, answers
    with a redirect to a login page and leaves the database as it is.
    The class-based views, whatever the method of the request, redirect
    to the login route; the three function views redirect to the login
    page of the settings. *)
Theorem X7_anonymous_is_sent_to_login (request : HttpRequest.t) (pk : nat) (db : DB) :
  HttpRequest.user request = None →
  DashboardView_get float request db = (HttpResponseRedirect urls.login, db)
  ∧ AssetDetailView_get (F:=F) clean_ipv6_address request pk db
    = (HttpResponseRedirect urls.login, db)
  ∧ AssetCreateView_get (F:=F) request db = (HttpResponseRedirect urls.login, db)
  ∧ AssetCreateView_post guess_type (F:=F) clean_ipv6_address request db
    = (HttpResponseRedirect urls.login, db)
  ∧ AssetUpdateView_get (F:=F) request pk db = (HttpResponseRedirect urls.login, db)
  ∧ AssetUpdateView_post guess_type (F:=F) clean_ipv6_address request pk db
    = (HttpResponseRedirect urls.login, db)
  ∧ AssetDeleteView_get (F:=F) request pk db = (HttpResponseRedirect urls.login, db)
  ∧ AssetDeleteView_post (F:=F) clean_ipv6_address request pk db
    = (HttpResponseRedirect urls.login, db)
  ∧ AssetDeleteView_delete (F:=F) request pk db
    = (HttpResponseRedirect urls.login, db)
  ∧ (∀ get post put delete : option (ORM (HttpResponse F)),
       View_dispatch request get post put delete db
       = (HttpResponseRedirect urls.login, db))
  ∧ chart_data_api float LOGIN_URL request db = (HttpResponseRedirect LOGIN_URL, db)
  ∧ download_document (F:=F) mime_encode LOGIN_URL request pk db
    = (HttpResponseRedirect LOGIN_URL, db)
  ∧ delete_document (F:=F) clean_ipv6_address LOGIN_URL request pk db
    = (HttpResponseRedirect LOGIN_URL, db).
Proof.
  intros Hu.
  unfold DashboardView_get, chart_data_api, AssetDetailView_get,
    AssetCreateView_get, AssetCreateView_post, AssetUpdateView_get,
    AssetUpdateView_post, AssetDeleteView_get, AssetDeleteView_post,
    AssetDeleteView_delete, View_dispatch, download_document, delete_document,
    LoginRequiredMixin, login_required.
  by rewrite Hu.
Qed.

Lemma asset_documents_spec (db : DB) (pk k : nat) (d : AssetDocument.t) :
  (k, d) ∈ asset_documents db pk
  ↔ documents db !! k = Some d ∧ AssetDocument.asset d = pk.
Proof.
  unfold asset_documents. rewrite list_elem_of_filter, elem_of_map_to_list.
  simpl. tauto.
Qed.

(** X8.  The detail page of an own asset shows that asset and exactly the
    documents attached to it, each once; the request appends one view row
    with the asset's name and category, and with the client address as
    the address column stores it, and changes nothing else. *)
Theorem X8_detail_view (request : HttpRequest.t) (user : User) (pk : nat)
    (a : Asset.t) (db : DB) :
  HttpRequest.user request = Some user →
  assets db !! pk = Some a →
  Asset.owner a = user →
  ∃ shown,
    AssetDetailView_get (F:=F) clean_ipv6_address request pk db
    = (TemplateResponse "assets/asset_detail.html"
         (AssetDetailContext (pk, a) shown),
       mkDB (assets db) (asset_seq db) (documents db) (document_seq db)
         (activity_logs db
            ++ [ActivityLog.mk (Some user) "view" (Asset.name a) (Asset.category a)
                  None
                  (GenericIPAddressField_get_db_prep_value clean_ipv6_address
                     (get_client_ip request))]))
    ∧ NoDup shown
    ∧ (∀ k d, (k, d) ∈ shown
              ↔ documents db !! k = Some d ∧ AssetDocument.asset d = pk).
Proof.
  intros Hu Ha Ho. exists (asset_documents db pk). split_and!.
  - apply AssetDetailView_get_closed; [done|]. by apply get_owned_asset_own.
  - apply NoDup_filter, NoDup_map_to_list.
  - apply asset_documents_spec.
Qed.

(** X9.  The activity log only grows.  One request appends its rows to the
    end, every appended row names the requesting user, and a request
    without a user appends none; over any sequence of requests the log at
    the start is a prefix of the log at the end. *)
Theorem X9_activity_log_append_only
    (calls : list (urls.t * HttpRequest.t)) (call : urls.t * HttpRequest.t) (db : DB) :
  activity_logs db `prefix_of` activity_logs (run guess_type float clean_ipv6_address
      mime_encode LOGIN_URL calls db)
  ∧ ∃ new,
      activity_logs (serve guess_type float clean_ipv6_address mime_encode LOGIN_URL db
          call) = activity_logs db ++ new
      ∧ Forall (λ r, ActivityLog.user r = HttpRequest.user call.2) new
      ∧ (HttpRequest.user call.2 = None → new = []).
Proof.
  split.
  - apply (run_invariant float guess_type clean_ipv6_address mime_encode LOGIN_URL
             (λ db', activity_logs db `prefix_of` activity_logs db')); [|done].
    intros db0 call0 Hpre.
    destruct (effect_logs guess_type clean_ipv6_address call0.2 db0 _
                (serve_request_effect float guess_type clean_ipv6_address mime_encode
                   LOGIN_URL db0 call0))
      as (new & -> & _).
    by apply prefix_app_r.
  - apply (effect_logs guess_type clean_ipv6_address), serve_request_effect.
Qed.

Lemma fk_ok_empty : fk_ok empty_db.
Proof. apply map_Forall_empty. Qed.

(** X10.  In every database that the endpoints produce from the empty one,
    each document belongs to a stored asset; so the download and the
    delete of a document never end in a server error. *)
Theorem X10_documents_keep_their_asset
    (calls : list (urls.t * HttpRequest.t)) (request : HttpRequest.t) (pk : nat) :
  let db := run guess_type float clean_ipv6_address mime_encode LOGIN_URL calls empty_db in
  (∀ k d, documents db !! k = Some d →
          is_Some (assets db !! AssetDocument.asset d))
  ∧ (download_document (F:=F) mime_encode LOGIN_URL request pk db).1 ≠
      HttpResponseServerError
  ∧ (delete_document (F:=F) clean_ipv6_address LOGIN_URL request pk db).1 ≠
      HttpResponseServerError.
Proof.
  intros db.
  assert (Hfk : fk_ok db).
  { apply (run_invariant float guess_type clean_ipv6_address mime_encode LOGIN_URL fk_ok);
      [|apply fk_ok_empty].
    intros db0 call0 H0. eapply effect_fk_ok; [done|].
    apply serve_request_effect. }
  split; [exact Hfk|].
  unfold download_document, delete_document, LoginRequiredMixin, login_required.
  destruct (HttpRequest.user request) as [user|]; [|done].
  unfold mbind, ORM_bind, get_db.
  destruct (documents db !! pk) as [d|] eqn:Hd; [|done].
  destruct (Hfk pk d Hd) as [a ->].
  by destruct (decide (Asset.owner a ≠ user)).
Qed.

(** X11.  No request writes to what belongs to somebody else: an asset
    whose owner is not the requesting user is stored unchanged afterwards,
    and so is every document attached to such an asset. *)
Theorem X11_foreign_rows_untouched (db : DB) (call : urls.t * HttpRequest.t) :
  wf db → wf_documents db →
  (∀ k a, assets db !! k = Some a →
          HttpRequest.user call.2 ≠ Some (Asset.owner a) →
          assets (serve guess_type float clean_ipv6_address mime_encode LOGIN_URL db call)
              !! k = Some a)
  ∧ (∀ k d a, documents db !! k = Some d →
              assets db !! AssetDocument.asset d = Some a →
              HttpRequest.user call.2 ≠ Some (Asset.owner a) →
              documents (serve guess_type float clean_ipv6_address mime_encode LOGIN_URL
                  db call) !! k = Some d).
Proof.
  intros Hwf Hwfd.
  pose proof (serve_request_effect float guess_type clean_ipv6_address mime_encode
                LOGIN_URL db call) as He.
  split.
  - intros k a. by apply (effect_foreign_asset guess_type clean_ipv6_address call.2).
  - intros k d a.
    by apply (effect_foreign_document guess_type clean_ipv6_address call.2).
Qed.

(** X17.  In every database that the endpoints produce from the empty one,
    each stored asset has a name, one of the eight categories, its dates in
    order and, if it is land, both coordinates, neither of them zero. *)
Theorem X17_stored_assets_checked
    (calls : list (urls.t * HttpRequest.t)) (k : nat) (a : Asset.t) :
  assets (run guess_type float clean_ipv6_address mime_encode LOGIN_URL calls empty_db) !!
      k = Some a →
  asset_checked a.
Proof.
  apply (run_invariant float guess_type clean_ipv6_address mime_encode LOGIN_URL
           (λ db, map_Forall (λ _ a, asset_checked a) (assets db)));
    [|apply map_Forall_empty].
  intros db0 call0 H0. eapply effect_checked; [done|].
  apply serve_request_effect.
Qed.

(** X21.  The dashboard, the chart endpoint, the blank create form, the
    edit form, the delete confirmation and the document download leave the
    database exactly as it is, whoever asks and whatever they ask for. *)
Theorem X21_reading_views_write_nothing (request : HttpRequest.t) (pk : nat) (db : DB) :
  (DashboardView_get float request db).2 = db
  ∧ (chart_data_api float LOGIN_URL request db).2 = db
  ∧ (AssetCreateView_get (F:=F) request db).2 = db
  ∧ (AssetUpdateView_get (F:=F) request pk db).2 = db
  ∧ (AssetDeleteView_get (F:=F) request pk db).2 = db
  ∧ (download_document (F:=F) mime_encode LOGIN_URL request pk db).2 = db.
Proof. apply views_that_read. Qed.

Lemma effect_owner_step (request : HttpRequest.t) (db db' : DB) (k : nat) (o : User) :
  request_effect guess_type clean_ipv6_address request db db' →
  (k < asset_seq db)%nat ∧ (∀ a, assets db !! k = Some a → Asset.owner a = o) →
  (k < asset_seq db')%nat ∧ (∀ a, assets db' !! k = Some a → Asset.owner a = o).
Proof.
  intros [->|u pk a0 _ _ ->|u form obj _ _ _ ->|u pk a0 form obj Hu Ho _ Hc ->
         |u pk a0 Hu Ho ->|u pk a0 Hu Ho ->|u pk d a0 _ Hd _ _ ->] [Hlt Hown];
    simpl; try done.
  - split; [lia|]. intros a. rewrite lookup_insert_ne by lia. apply Hown.
  - split; [done|]. intros a.
    apply get_owned_asset_Some in Ho as [Hpk _].
    apply construct_instance_owner in Hc.
    destruct (decide (pk = k)) as [->|Hne].
    + rewrite lookup_insert_eq. intros [= <-]. rewrite Hc. by apply Hown.
    + rewrite lookup_insert_ne by done. apply Hown.
  - split; [done|]. intros a.
    destruct (decide (pk = k)) as [->|Hne].
    + by rewrite lookup_delete_eq.
    + rewrite lookup_delete_ne by done. apply Hown.
  - split; [done|]. intros a.
    destruct (decide (pk = k)) as [->|Hne].
    + by rewrite lookup_delete_eq.
    + rewrite lookup_delete_ne by done. apply Hown.
Qed.

(** X12.  An asset never changes hands, and its key is never given to
    another asset: if a key holds an asset before a sequence of requests
    and holds one after it, the two have the same owner. *)
Theorem X12_owner_never_changes
    (calls : list (urls.t * HttpRequest.t)) (db : DB) (k : nat) (a a' : Asset.t) :
  wf db →
  assets db !! k = Some a →
  assets (run guess_type float clean_ipv6_address mime_encode LOGIN_URL calls db) !! k =
      Some a' →
  Asset.owner a' = Asset.owner a.
Proof.
  intros Hwf Hk Hk'.
  assert ((k < asset_seq (run guess_type float clean_ipv6_address mime_encode LOGIN_URL
      calls db))%nat
          ∧ ∀ b, assets (run guess_type float clean_ipv6_address mime_encode LOGIN_URL
              calls db) !! k = Some b →
                 Asset.owner b = Asset.owner a) as [_ H].
  { apply (run_invariant float guess_type clean_ipv6_address mime_encode LOGIN_URL
             (λ db', (k < asset_seq db')%nat
                     ∧ ∀ b, assets db' !! k = Some b → Asset.owner b = Asset.owner a)).
    - intros db0 call0 H0. eapply effect_owner_step; [|done].
      apply (serve_request_effect float).
    - split; [by apply (Hwf k a)|]. intros b. rewrite Hk. by intros [= <-]. }
  by apply H.
Qed.

Lemma valid_description (form : AssetForm.t) (owner : User) (object : Asset.t) :
  AssetForm.is_valid form = true →
  AssetForm.construct_instance owner (AssetForm.cleaned_data form) = Some object →
  Asset.description object
  = Some (default EmptyString
            (AssetForm.blank_to_None (FormData.description (AssetForm.data form)))).
Proof.
  intros Hv Hc.
  assert (Hnil : (AssetForm.clean_fields form).2 = []).
  { unfold AssetForm.is_valid in Hv. apply bool_decide_eq_true in Hv.
    rewrite errors_clean in Hv. by apply app_nil in Hv as [? _]. }
  rewrite <- (cleaned_description form Hnil).
  unfold AssetForm.construct_instance in Hc.
  destruct (FormData.name _), (FormData.category _), (FormData.value _),
    (FormData.start_date _); simplify_eq/=. done.
Qed.

(** X18.  A create submission that validates always succeeds: the asset
    is stored under the next key with the requesting user as its owner and
    with the description that was entered, the empty text for a blank
    one; every uploaded file becomes a document of it under the next
    document keys in upload order, no other document changes, and the log
    gains the one create row, which quotes the value as it was typed. *)
Theorem X18_create_closed_form (request : HttpRequest.t) (user : User) (db : DB) :
  let form := AssetForm.mk (HttpRequest.GET request !! "category") None
                (HttpRequest.POST request) in
  let files := HttpRequest.FILES request in
  let db' := (AssetCreateView_post guess_type (F:=F) clean_ipv6_address request db).2 in
  HttpRequest.user request = Some user →
  AssetForm.is_valid form = true →
  ∃ object,
    AssetForm.construct_instance user (AssetForm.cleaned_data form) = Some object
    ∧ Asset.owner object = user
    ∧ Asset.description object
      = Some (default EmptyString
                (AssetForm.blank_to_None
                   (FormData.description (HttpRequest.POST request))))
    ∧ (AssetCreateView_post guess_type (F:=F) clean_ipv6_address request db).1
      = HttpResponseRedirect urls.asset_list
    ∧ assets db' = <[asset_seq db := object]> (assets db)
    ∧ asset_seq db' = S (asset_seq db)
    ∧ document_seq db' = (document_seq db + length files)%nat
    ∧ (∀ i f, files !! i = Some f →
              documents db' !! (document_seq db + i)%nat
              = Some (stored_document guess_type (asset_seq db) f))
    ∧ (∀ k, ¬ (document_seq db ≤ k < document_seq db + length files)%nat →
            documents db' !! k = documents db !! k)
    ∧ activity_logs db'
      = activity_logs db
          ++ [ActivityLog.mk (Some user) "create" (Asset.name object)
                (Asset.category object)
                (Some ("Created asset with value "
                         +:+ FormData.value_str (HttpRequest.POST request)))
                (GenericIPAddressField_get_db_prep_value clean_ipv6_address
                   (get_client_ip request))].
Proof.
  intros form files db' Hu Hv.
  destruct (AssetCreateView_post_closed (F:=F) guess_type clean_ipv6_address
              request user db Hu Hv)
    as (object & Hc & _ & Hpost).
  exists object. unfold db'. rewrite Hpost. simpl.
  split_and!; try done.
  - by apply construct_instance_owner in Hc.
  - exact (valid_description form user object Hv Hc).
  - apply upload_seq.
  - intros i f Hf. rewrite upload_lookup.
    apply lookup_lt_Some in Hf as Hi. fold files.
    rewrite decide_True by lia.
    replace (document_seq db + i - document_seq db)%nat with i by lia.
    by rewrite Hf.
  - intros k Hk. rewrite upload_lookup. by rewrite decide_False.
Qed.

(** X19.  An edit submission that validates always succeeds: the row keeps
    its key and its owner and takes the submitted values, the empty text
    for a blank description; every uploaded file becomes a document of
    the asset under the next document keys, no other document changes,
    and the log gains one upload row per file, in upload order, and then
    the update row. *)
Theorem X19_update_closed_form (request : HttpRequest.t) (user : User) (pk : nat)
    (a : Asset.t) (db : DB) :
  let form := AssetForm.mk None (Some (pk, a)) (HttpRequest.POST request) in
  let files := HttpRequest.FILES request in
  let db' :=
    (AssetUpdateView_post guess_type (F:=F) clean_ipv6_address request pk db).2 in
  let ip_address :=
    GenericIPAddressField_get_db_prep_value clean_ipv6_address
      (get_client_ip request) in
  HttpRequest.user request = Some user →
  assets db !! pk = Some a →
  Asset.owner a = user →
  AssetForm.is_valid form = true →
  ∃ object,
    AssetForm.construct_instance user (AssetForm.cleaned_data form) = Some object
    ∧ Asset.description object
      = Some (default EmptyString
                (AssetForm.blank_to_None
                   (FormData.description (HttpRequest.POST request))))
    ∧ (AssetUpdateView_post guess_type (F:=F) clean_ipv6_address request pk db).1
      = HttpResponseRedirect (urls.asset_detail pk)
    ∧ assets db' = <[pk := object]> (assets db)
    ∧ asset_seq db' = asset_seq db
    ∧ document_seq db' = (document_seq db + length files)%nat
    ∧ (∀ i f, files !! i = Some f →
              documents db' !! (document_seq db + i)%nat
              = Some (stored_document guess_type pk f))
    ∧ (∀ k, ¬ (document_seq db ≤ k < document_seq db + length files)%nat →
            documents db' !! k = documents db !! k)
    ∧ activity_logs db'
      = activity_logs db
          ++ ((λ f, ActivityLog.mk (Some user) "upload" (Asset.name object)
                      (Asset.category object)
                      (Some ("Uploaded document: " +:+ UploadedFile.name f))
                      ip_address) <$> files)
          ++ [ActivityLog.mk (Some user) "update" (Asset.name object)
                (Asset.category object) (Some "Updated asset") ip_address].
Proof.
  intros form files db' ip_address Hu Ha Ho Hv.
  pose proof (get_owned_asset_own db user pk a Ha Ho) as Hown.
  destruct (AssetUpdateView_post_closed (F:=F) guess_type clean_ipv6_address
              request user pk a db Hu Hown Hv)
    as (object & Hc & _ & Hpost).
  exists object. unfold db'. rewrite Hpost. simpl.
  split_and!; try done.
  - by rewrite <- Ho.
  - exact (valid_description form (Asset.owner a) object Hv Hc).
  - apply upload_seq.
  - intros i f Hf. rewrite upload_lookup.
    apply lookup_lt_Some in Hf as Hi. fold files.
    rewrite decide_True by lia.
    replace (document_seq db + i - document_seq db)%nat with i by lia.
    by rewrite Hf.
  - intros k Hk. rewrite upload_lookup. by rewrite decide_False.
Qed.

(** X20.  Storing a file on an own asset and then deleting the document
    that came of it gives back the document table as it was; the document
    sequence has moved on by one, and the log has the delete row naming
    the file, with the client address as the address column stores it. *)
Theorem X20_store_then_delete_document (request : HttpRequest.t) (user : User)
    (pk : nat) (a : Asset.t) (f : UploadedFile.t) (db : DB) :
  wf_documents db →
  HttpRequest.user request = Some user →
  assets db !! pk = Some a →
  Asset.owner a = user →
  let stored := AssetDocument_create_from_file guess_type pk f db in
  let db' :=
    (delete_document (F:=F) clean_ipv6_address LOGIN_URL request stored.1.1
       stored.2).2 in
  documents db' = documents db
  ∧ document_seq db' = S (document_seq db)
  ∧ assets db' = assets db
  ∧ activity_logs db'
    = activity_logs db
        ++ [ActivityLog.mk (Some user) "delete" (Asset.name a) (Asset.category a)
              (Some ("Deleted document: " +:+ UploadedFile.name f))
              (GenericIPAddressField_get_db_prep_value clean_ipv6_address
                 (get_client_ip request))].
Proof.
  intros Hwf Hu Ha Ho stored db'. unfold db', stored.
  rewrite create_from_file_eq. simpl.
  rewrite (delete_document_closed clean_ipv6_address LOGIN_URL request user _
             (stored_document guess_type pk f) a); simpl; try done.
  - split_and!; try done. apply delete_insert_id.
    destruct (documents db !! document_seq db) as [d|] eqn:Hd; [|done].
    apply Hwf in Hd. lia.
  - apply lookup_insert_eq.
Qed.
End ViewProperties.

(** ** Aggregation *)

Lemma sum_list_Z_cons (x : Z) (l : list Z) : sum_list_Z (x :: l) = x + sum_list_Z l.
Proof. done. Qed.

Lemma sum_list_Z_perm (l1 l2 : list Z) : l1 ≡ₚ l2 → sum_list_Z l1 = sum_list_Z l2.
Proof.
  intros Hp. induction Hp as [|x l1 l2 _ IH|x y l|l1 l2 l3 _ IH1 _ IH2];
    rewrite ?sum_list_Z_cons; [done|by rewrite IH|lia|congruence].
Qed.

Lemma sum_indicator_notin (cs : list string) (c0 : string) (v : Z) :
  c0 ∉ cs →
  sum_list_Z ((λ c, if decide (c0 = c) then v else 0) <$> cs) = 0.
Proof.
  induction cs as [|c cs IH]; [done|].
  intros [Hne Hc]%not_elem_of_cons. rewrite fmap_cons, sum_list_Z_cons.
  rewrite decide_False by done. by rewrite IH.
Qed.

Lemma sum_indicator (cs : list string) (c0 : string) (v : Z) :
  NoDup cs → c0 ∈ cs →
  sum_list_Z ((λ c, if decide (c0 = c) then v else 0) <$> cs) = v.
Proof.
  intros Hnd. induction Hnd as [|c cs Hc Hnd IH]; [by intros ?%elem_of_nil|].
  intros Hin. rewrite fmap_cons, sum_list_Z_cons.
  destruct (decide (c0 = c)) as [Heq|Hne].
  - subst c0. rewrite sum_indicator_notin by done. lia.
  - apply elem_of_cons in Hin as [?|Hin]; [done|]. by rewrite IH.
Qed.

(** Grouping by category splits a sum. *)
Lemma group_sum (g : nat * Asset.t → Z) (qs : list (nat * Asset.t)) (cs : list string) :
  NoDup cs →
  (∀ ka, ka ∈ qs → Asset.category ka.2 ∈ cs) →
  sum_list_Z ((λ c, sum_list_Z (g <$> filter (λ ka, Asset.category ka.2 = c) qs))
                <$> cs)
  = sum_list_Z (g <$> qs).
Proof.
  intros Hnd. induction qs as [|x qs IH]; intros Hin.
  - clear. induction cs as [|c cs IH]; [done|].
    rewrite fmap_cons, sum_list_Z_cons, IH. done.
  - transitivity
      (sum_list_Z ((λ c, if decide (Asset.category x.2 = c) then g x else 0) <$> cs)
       + sum_list_Z
           ((λ c, sum_list_Z (g <$> filter (λ ka, Asset.category ka.2 = c) qs))
              <$> cs)).
    + clear. induction cs as [|c cs IH]; [done|].
      rewrite !fmap_cons, !sum_list_Z_cons, IH. rewrite filter_cons.
      destruct (decide (Asset.category x.2 = c));
        rewrite ?fmap_cons, ?sum_list_Z_cons; lia.
    + rewrite IH by (intros ka Hka; apply Hin; by right).
      rewrite sum_indicator; [by rewrite fmap_cons, sum_list_Z_cons|done|].
      apply Hin. by left.
Qed.

Lemma sum_values_fmap (qs : list (nat * Asset.t)) :
  sum_values qs = sum_list_Z ((λ ka, Asset.value ka.2) <$> qs).
Proof.
  induction qs as [|x qs IH]; [done|].
  rewrite fmap_cons, sum_list_Z_cons, <- IH. done.
Qed.

Lemma length_sum_ones {A} (l : list A) :
  Z.of_nat (length l) = sum_list_Z ((λ _, 1) <$> l).
Proof.
  induction l as [|x l IH]; [done|].
  rewrite fmap_cons, sum_list_Z_cons, <- IH. simpl length. lia.
Qed.

#[local] Instance by_total_desc_total : Total by_total_desc.
Proof. intros r1 r2. unfold by_total_desc. lia. Qed.

#[local] Instance by_total_desc_trans : Transitive by_total_desc.
Proof. intros r1 r2 r3. unfold by_total_desc. lia. Qed.

Lemma foldl_insert_notin (rows : list BreakdownRow) (init : gmap string nat) (c : string) :
  c ∉ br_category <$> rows →
  foldl (λ m item, <[br_category item := br_count item]> m) init rows !! c
  = init !! c.
Proof.
  revert init. induction rows as [|r rows IH]; intros init Hc; [done|].
  simpl in *. apply not_elem_of_cons in Hc as [Hne Hc].
  rewrite IH by done. by rewrite lookup_insert_ne.
Qed.

Lemma foldl_insert_in (rows : list BreakdownRow) (init : gmap string nat)
    (r : BreakdownRow) :
  NoDup (br_category <$> rows) → r ∈ rows →
  foldl (λ m item, <[br_category item := br_count item]> m) init rows
    !! br_category r
  = Some (br_count r).
Proof.
  revert init. induction rows as [|r0 rows IH]; intros init Hnd Hin;
    [by apply elem_of_nil in Hin|].
  simpl in *. apply NoDup_cons in Hnd as [Hfresh Hnd].
  apply elem_of_cons in Hin as [->|Hin].
  - rewrite foldl_insert_notin by done. apply lookup_insert_eq.
  - by apply IH.
Qed.

Section Aggregation.
Context {F : Type}.
Variable float : Decimal → F.

(** X14.  On the dashboard the category rows add up: their totals sum to
    the total value and their counts to the number of assets. *)
Theorem X14_breakdown_adds_up (db : DB) (user : User) :
  let d := DashboardView_get_context_data float db user in
  sum_list_Z (br_total <$> category_breakdown d) = total_value d
  ∧ sum_list_Z ((λ r, Z.of_nat (br_count r)) <$> category_breakdown d)
    = Z.of_nat (total_assets d).
Proof.
  intros d. unfold d, DashboardView_get_context_data. simpl.
  set (qs := Asset_objects_filter_owner db user).
  assert (Hin : ∀ ka, ka ∈ qs →
                Asset.category ka.2 ∈ remove_dups ((Asset.category ∘ snd) <$> qs)).
  { intros ka Hka. apply elem_of_remove_dups, list_elem_of_fmap. by exists ka. }
  split.
  - rewrite Coalesce_Sum_value, sum_values_fmap.
    rewrite <- (group_sum _ qs _ (NoDup_remove_dups _) Hin).
    rewrite (sum_list_Z_perm _ _ (fmap_Permutation _ _ _ (annotate_perm qs))).
    rewrite <- list_fmap_compose. f_equal. apply list_fmap_ext.
    intros _ c _. simpl.
    etrans; [apply Coalesce_Sum_value|apply sum_values_fmap].
  - rewrite length_sum_ones.
    rewrite <- (group_sum _ qs _ (NoDup_remove_dups _) Hin).
    rewrite (sum_list_Z_perm _ _ (fmap_Permutation _ _ _ (annotate_perm qs))).
    rewrite <- list_fmap_compose. f_equal. apply list_fmap_ext.
    intros _ c _. simpl. apply length_sum_ones.
Qed.

(** X15.  The per-category counts of the dashboard hold, for each of the
    eight categories and for any other category the user has assets of,
    the number of the user's assets of that category, zero included; no
    other key is present. *)
Theorem X15_category_counts (db : DB) (user : User) (c : string) :
  let d := DashboardView_get_context_data float db user in
  let n := length (filter (λ ka, Asset.category ka.2 = c)
                          (Asset_objects_filter_owner db user)) in
  category_counts d !! c
  = if decide (c ∈ Asset.CATEGORY_CHOICES.*1 ∨ (0 < n)%nat) then Some n else None.
Proof.
  intros d n. unfold d, DashboardView_get_context_data. cbn [category_counts].
  set (qs := Asset_objects_filter_owner db user) in *.
  destruct (decide (c ∈ br_category <$> values_category_annotate qs)) as [Hc|Hc].
  - apply list_elem_of_fmap in Hc as (r & -> & Hr).
    rewrite (foldl_insert_in _ _ r (annotate_NoDup qs) Hr).
    apply annotate_total in Hr as Hcount. destruct Hcount as [_ Hcount].
    fold n in Hcount. rewrite Hcount.
    rewrite decide_True; [done|]. right.
    assert (br_category r ∈ br_category <$> values_category_annotate qs) as Hin
      by (apply list_elem_of_fmap; eauto).
    apply annotate_elem_of in Hin as (ka & Hka & Hcat).
    assert (ka ∈ filter (λ ka, Asset.category ka.2 = br_category r) qs) as Hf
      by (by apply list_elem_of_filter).
    unfold n. destruct (filter _ qs); [by apply elem_of_nil in Hf|simpl; lia].
  - rewrite foldl_insert_notin by done.
    assert (n = 0%nat) as ->.
    { unfold n. destruct (filter _ qs) as [|ka l] eqn:Hf; [done|]. exfalso.
      apply Hc, annotate_elem_of. exists ka.
      assert (ka ∈ filter (λ ka, Asset.category ka.2 = c) qs) as Hin
        by (rewrite Hf; left).
      by apply list_elem_of_filter in Hin as [? ?]. }
    destruct (decide (c ∈ Asset.CATEGORY_CHOICES.*1)) as [Hin|Hout].
    + rewrite decide_True by (by left).
      apply elem_of_list_to_map.
      * apply (bool_decide_unpack _). vm_compute. exact I.
      * apply list_elem_of_fmap in Hin as ([c' l] & -> & Hin).
        apply list_elem_of_fmap. by exists (c', l).
    + rewrite decide_False by (intros [?|?]; [done|lia]).
      apply not_elem_of_list_to_map. rewrite <- list_fmap_compose.
      intros Hin. apply Hout.
      apply list_elem_of_fmap in Hin as (x & -> & Hin).
      apply list_elem_of_fmap. by exists x.
Qed.

(** X16.  The category rows of the dashboard and of the chart endpoint
    come in the order of their totals, largest first: each row's total is
    at least that of every row after it. *)
Theorem X16_breakdown_sorted (db : DB) (user : User) :
  StronglySorted (λ r1 r2, br_total r2 ≤ br_total r1)
    (category_breakdown (DashboardView_get_context_data float db user))
  ∧ chart_data (DashboardView_get_context_data float db user)
    = chart_of float
        (category_breakdown (DashboardView_get_context_data float db user)).
Proof.
  split; [|done].
  unfold DashboardView_get_context_data, values_category_annotate. simpl.
  apply (StronglySorted_merge_sort by_total_desc).
Qed.
End Aggregation.

(** ** The list views *)

Lemma append_assoc (a b c : string) : (a +:+ b) +:+ c = a +:+ (b +:+ c).
Proof.
  induction a as [|x a IH]; [done|].
  change (String x ((a +:+ b) +:+ c) = String x (a +:+ (b +:+ c))). by rewrite IH.
Qed.

Lemma prefix_spec (sub s : string) :
  String.prefix sub s = true ↔ ∃ post, s = sub +:+ post.
Proof.
  revert s. induction sub as [|c sub IH]; intros s.
  - destruct s; (split; [intros _; by eexists|done]).
  - destruct s as [|c' s]; [split; [done|by intros [post ?]]|].
    change (String.prefix (String c sub) (String c' s))
      with (if Ascii.ascii_dec c c' then String.prefix sub s else false).
    destruct (Ascii.ascii_dec c c') as [->|Hne].
    + rewrite IH. split; intros [post Hpost]; exists post.
      * change (String c' s = String c' (sub +:+ post)). by rewrite Hpost.
      * change (String c' s = String c' (sub +:+ post)) in Hpost. congruence.
    + split; [done|]. intros [post Hpost].
      change (String c' s = String c (sub +:+ post)) in Hpost. congruence.
Qed.

(** [contains] is the substring test. *)
Lemma contains_spec (sub s : string) :
  contains sub s = true ↔ ∃ pre post, s = pre +:+ sub +:+ post.
Proof.
  induction s as [|c s IH].
  - change (contains sub EmptyString) with (String.prefix sub EmptyString || false).
    rewrite orb_false_r, prefix_spec. split.
    + intros [post ->]. by exists EmptyString, post.
    + intros ([|x pre] & post & H); [by exists post|done].
  - change (contains sub (String c s))
      with (String.prefix sub (String c s) || contains sub s).
    rewrite orb_true_iff, prefix_spec, IH. split.
    + intros [[post ->]|(pre & post & ->)].
      * by exists EmptyString, post.
      * by exists (String c pre), post.
    + intros ([|x pre] & post & H).
      * left. by exists post.
      * right. exists pre, post.
        change (String c s = String x (pre +:+ sub +:+ post)) in H. congruence.
Qed.

#[local] Set Warnings "-clear-no-such-hyp".

Section ListViewProperties.
Variable icontains : string → string → bool.
Variable Bound : Type.
Variable to_python : string → option Bound.
Variable value_gte value_lte : Decimal → Bound → bool.

(** X13.  When the asset list answers, it holds each asset once, and an
    asset is in it exactly when the requesting user owns it and it passes
    every filter that is given and not blank: the category is the
    requested one, the name matches the search text, and the value
    compares as asked with each bound.  A filter that is absent or blank
    is not applied.  The list fails exactly when a bound that is given
    does not convert. *)
Theorem X13_asset_list_filters (db : DB) (request : HttpRequest.t) (user : User) :
  let get := λ key, HttpRequest.GET request !! key in
  let queryset :=
    AssetListView_get_queryset icontains Bound to_python value_gte value_lte
      db request user in
  (∀ rows, queryset = Some rows →
     NoDup rows
     ∧ ∀ k a, (k, a) ∈ rows
              ↔ assets db !! k = Some a
                ∧ Asset.owner a = user
                ∧ when_given (get "category") (λ c, Asset.category a = c)
                ∧ when_given (get "search")
                    (λ s, icontains (Asset.name a) s = true)
                ∧ when_given (get "min_value")
                    (λ s, ∃ v, to_python s = Some v
                               ∧ value_gte (Asset.value a) v = true)
                ∧ when_given (get "max_value")
                    (λ s, ∃ v, to_python s = Some v
                               ∧ value_lte (Asset.value a) v = true))
  ∧ (queryset = None
     ↔ ¬ when_given (get "min_value") (λ s, is_Some (to_python s))
       ∨ ¬ when_given (get "max_value") (λ s, is_Some (to_python s))).
Proof.
  intros get queryset. unfold queryset, AssetListView_get_queryset.
  fold (get "category"). fold (get "search"). fold (get "min_value").
  fold (get "max_value").
  assert (Hbase : ∀ k a, (k, a) ∈ Asset_objects_filter_owner db user
                         ↔ assets db !! k = Some a ∧ Asset.owner a = user).
  { intros k a. unfold Asset_objects_filter_owner.
    rewrite list_elem_of_filter, elem_of_map_to_list. simpl. tauto. }
  assert (Hnd : NoDup (Asset_objects_filter_owner db user))
    by apply NoDup_filter, NoDup_map_to_list.
  unfold when_given, is_Some.
  destruct (get "category") as [c|]; destruct (get "search") as [s|];
    destruct (get "min_value") as [lo|]; destruct (get "max_value") as [hi|];
    simpl; unfold truthy_str;
    repeat match goal with
           | |- context [bool_decide (?x = EmptyString)] =>
               destruct (decide (x = EmptyString));
               [rewrite (bool_decide_eq_true_2 (x = EmptyString)) by done
               |rewrite (bool_decide_eq_false_2 (x = EmptyString)) by done]
           end; simpl;
    repeat match goal with
           | |- context [to_python ?x] => destruct (to_python x) eqn:?
           end; simpl;
    (split;
     [first
        [by intros rows [=]
        |intros rows [= <-]; split;
         [repeat (first [exact Hnd | apply NoDup_filter])
         |intros k a; rewrite ?list_elem_of_filter, Hbase; simpl;
          naive_solver]]
     |naive_solver]).
Qed.
End ListViewProperties.

(** X22.  The activity page holds exactly the rows that name the user, the
    newest first: a row logged for the user goes to the front, as the
    columns store it, and a row logged for anybody else does not show.
    The recent activity of the dashboard is the first ten rows of that
    page. *)
Theorem X22_activity_log_view {F : Type} (float : Decimal → F)
    (clean_ipv6_address : string → option string)
    (db : DB) (user : User) (row : ActivityLog.t) :
  (∀ r, r ∈ ActivityLogView_get_queryset db user
        ↔ r ∈ activity_logs db ∧ ActivityLog.user r = Some user)
  ∧ ActivityLogView_get_queryset
      (ActivityLog_objects_create clean_ipv6_address row db).2 user
    = (if decide (ActivityLog.user row = Some user)
       then ActivityLog_stored clean_ipv6_address row
              :: ActivityLogView_get_queryset db user
       else ActivityLogView_get_queryset db user)
  ∧ recent_activity (DashboardView_get_context_data float db user)
    = take 10 (ActivityLogView_get_queryset db user).
Proof.
  unfold ActivityLogView_get_queryset. split_and!; [|simpl|done].
  - intros r. rewrite elem_of_reverse, list_elem_of_filter. tauto.
  - rewrite filter_app, filter_cons, filter_nil.
    change (ActivityLog.user (ActivityLog_stored clean_ipv6_address row))
      with (ActivityLog.user row).
    destruct (decide (ActivityLog.user row = Some user)).
    + by rewrite reverse_snoc.
    + by rewrite app_nil_r.
Qed.

#[local] Instance by_pk_desc_total : Total by_pk_desc.
Proof. intros x y. unfold by_pk_desc. lia. Qed.

#[local] Instance by_pk_desc_trans : Transitive by_pk_desc.
Proof. intros x y z. unfold by_pk_desc. lia. Qed.

(** X23.  The recent assets of the dashboard are at most five assets of
    the user, in falling order of their keys, and they are the newest: no
    asset of the user that is left out has a larger key than one that is
    shown.  A user with at most five assets sees them all. *)
Theorem X23_recent_assets {F : Type} (float : Decimal → F) (db : DB) (user : User) :
  let recent := recent_assets (DashboardView_get_context_data float db user) in
  (length recent ≤ 5)%nat
  ∧ StronglySorted (λ x y, (y.1 ≤ x.1)%nat) recent
  ∧ (∀ k a, (k, a) ∈ recent → assets db !! k = Some a ∧ Asset.owner a = user)
  ∧ (∀ x y, x ∈ recent → assets db !! y.1 = Some y.2 → Asset.owner y.2 = user →
            y ∉ recent → (y.1 ≤ x.1)%nat)
  ∧ ((length (Asset_objects_filter_owner db user) ≤ 5)%nat →
     ∀ k a, assets db !! k = Some a → Asset.owner a = user → (k, a) ∈ recent).
Proof.
  intros recent. unfold recent, DashboardView_get_context_data. simpl.
  set (qs := Asset_objects_filter_owner db user).
  set (l := merge_sort by_pk_desc qs).
  assert (Hperm : l ≡ₚ qs) by apply merge_sort_Permutation.
  assert (Hsorted : StronglySorted by_pk_desc l)
    by apply (StronglySorted_merge_sort by_pk_desc).
  assert (Hqs : ∀ k a, (k, a) ∈ qs ↔ assets db !! k = Some a ∧ Asset.owner a = user).
  { intros k a. unfold qs, Asset_objects_filter_owner.
    rewrite list_elem_of_filter, elem_of_map_to_list. simpl. tauto. }
  rewrite <- (take_drop 5 l) in Hsorted.
  split_and!.
  - rewrite length_take. lia.
  - by apply StronglySorted_app in Hsorted as (? & ? & ?).
  - intros k a Hin. apply Hqs. rewrite <- Hperm. by apply (subseteq_take 5).
  - intros x [k a] Hx Hk Ho Hy. simpl in *.
    assert ((k, a) ∈ drop 5 l) as Hdrop.
    { assert ((k, a) ∈ l) as Hl by (rewrite Hperm; by apply Hqs).
      rewrite <- (take_drop 5 l) in Hl. by apply elem_of_app in Hl as [?|?]. }
    apply (StronglySorted_app_1_elem_of by_pk_desc _ _ x (k, a)) in Hsorted; done.
  - intros Hshort k a Hk Ho.
    rewrite take_ge by (by rewrite Hperm).
    rewrite Hperm. by apply Hqs.
Qed.

(** ** The further properties on the sample data *)

Lemma X1_witness :
  HttpRequest.META forwarded_request !! "HTTP_X_FORWARDED_FOR"
    = Some "198.51.100.4, 10.0.0.1"
  ∧ "198.51.100.4, 10.0.0.1" ≠ EmptyString
  ∧ ∃ ip, get_client_ip forwarded_request = Some ip ∧ no_comma ip.
Proof.
  assert (Hne : "198.51.100.4, 10.0.0.1" ≠ EmptyString) by discriminate.
  split; [reflexivity|]. split; [exact Hne|].
  destruct (proj1 (X1_get_client_ip forwarded_request) _ eq_refl Hne)
    as (ip & Hip & Hno & _).
  exists ip. split; [exact Hip|exact Hno].
Defined.

Lemma X2_witness :
  AssetDocument.name unnamed_document = EmptyString
  ∧ AssetDocument.file_name unnamed_document = Some "Deed.PDF"
  ∧ "Deed.PDF" ≠ EmptyString
  ∧ AssetDocument.name (AssetDocument.pre_save unnamed_document) = "Deed".
Proof.
  assert (Hne : "Deed.PDF" ≠ EmptyString) by discriminate.
  do 2 (split; [reflexivity|]). split; [exact Hne|].
  destruct (X2_document_save_display_name unnamed_document) as (_ & Hname & _).
  destruct (Hname "Deed.PDF" eq_refl eq_refl Hne) as [-> _]. reflexivity.
Defined.


Lemma X4_witness :
  Forall dotless AssetDocument.ALLOWED_EXTENSIONS
  ∧ Exists (λ f, UploadedFile.name f ≠ EmptyString) [deed_pdf]
  ∧ ∃ e, AssetDocumentForm.clean_files AssetDocument.ALLOWED_EXTENSIONS 100
           sample_str_div [deed_pdf] = inr e.
Proof.
  assert (Hd : Forall dotless AssetDocument.ALLOWED_EXTENSIONS)
    by (repeat constructor; discriminate).
  assert (Hn : Exists (λ f, UploadedFile.name f ≠ EmptyString) [deed_pdf])
    by (left; discriminate).
  split; [exact Hd|]. split; [exact Hn|].
  exact (X4_dotless_allow_list_rejects _ 100 sample_str_div _ Hd Hn).
Defined.

Lemma X5_witness :
  "latitude" ∈ ["latitude"; "longitude"]
  ∧ AssetForm.is_required
      (AssetForm._setup_category_fields (Some "lands") AssetForm.model_required)
      "latitude" = true.
Proof.
  assert (Hin : "latitude" ∈ ["latitude"; "longitude"]) by left.
  split; [exact Hin|].
  exact (proj2 (X5_required_fields (Some "lands") "latitude")
           (or_intror (conj eq_refl Hin))).
Defined.

Lemma X6_witness :
  HttpRequest.user alice_reversed = Some alice
  ∧ AssetForm.is_valid
      (AssetForm.mk (HttpRequest.GET alice_reversed !! "category") None
         (HttpRequest.POST alice_reversed)) = false
  ∧ (AssetCreateView_post sample_guess_type (F:=Z) sample_clean_ipv6_address
      alice_reversed sample_db).2
    = sample_db.
Proof.
  do 2 (split; [reflexivity|]).
  destruct (X6_invalid_submission_writes_nothing (F:=Z) sample_guess_type
              sample_clean_ipv6_address alice_reversed alice 1%nat sample_db eq_refl)
    as [Hcreate _].
  destruct (Hcreate eq_refl) as (errors & -> & _). reflexivity.
Defined.

Lemma X7_witness :
  HttpRequest.user anonymous_get = None
  ∧ AssetDetailView_get (F:=Z) sample_clean_ipv6_address anonymous_get 1%nat sample_db
    = (HttpResponseRedirect urls.login, sample_db)
  ∧ delete_document (F:=Z) sample_clean_ipv6_address sample_LOGIN_URL anonymous_get
      1%nat sample_db
    = (HttpResponseRedirect (Path "/accounts/login/"), sample_db).
Proof.
  split; [reflexivity|].
  destruct (X7_anonymous_is_sent_to_login (λ d, d) sample_guess_type
              sample_clean_ipv6_address sample_mime_encode sample_LOGIN_URL
              anonymous_get 1%nat sample_db eq_refl)
    as (_ & Hdetail & _ & _ & _ & _ & _ & _ & _ & _ & _ & _ & Hdelete).
  split; [exact Hdetail|exact Hdelete].
Defined.

Lemma X8_witness :
  HttpRequest.user alice_get = Some alice
  ∧ assets sample_db !! 1%nat = Some coins
  ∧ Asset.owner coins = alice
  ∧ ∃ shown,
      (AssetDetailView_get (F:=Z) sample_clean_ipv6_address alice_get 1%nat sample_db).1
      = TemplateResponse "assets/asset_detail.html"
          (AssetDetailContext (1%nat, coins) shown)
      ∧ (1%nat, deed_document) ∈ shown.
Proof.
  do 3 (split; [reflexivity|]).
  destruct (X8_detail_view (F:=Z) sample_clean_ipv6_address alice_get alice 1%nat
              coins sample_db eq_refl eq_refl eq_refl)
    as (shown & Hget & _ & Hshown).
  exists shown. split; [by rewrite Hget|].
  apply Hshown. split; reflexivity.
Defined.

Lemma X9_witness :
  HttpRequest.user (urls.asset_detail 1%nat, anonymous_get).2 = None
  ∧ activity_logs (serve sample_guess_type (λ d, d) sample_clean_ipv6_address
      sample_mime_encode sample_LOGIN_URL sample_db
                     (urls.asset_detail 1%nat, anonymous_get))
    = activity_logs sample_db
  ∧ activity_logs sample_db
      `prefix_of` activity_logs
                    (run sample_guess_type (λ d, d) sample_clean_ipv6_address
      sample_mime_encode sample_LOGIN_URL [bob_deletes_coins] sample_db).
Proof.
  split; [reflexivity|].
  destruct (X9_activity_log_append_only (λ d, d) sample_guess_type
              sample_clean_ipv6_address sample_mime_encode sample_LOGIN_URL
              [bob_deletes_coins] (urls.asset_detail 1%nat, anonymous_get) sample_db)
    as (Hprefix & new & Hlogs & _ & Hnone).
  split; [|exact Hprefix].
  rewrite Hlogs, (Hnone eq_refl). apply app_nil_r.
Defined.

Lemma X10_witness :
  documents sample_db !! 1%nat = Some deed_document
  ∧ is_Some (assets sample_db !! AssetDocument.asset deed_document).
Proof.
  split; [reflexivity|].
  destruct (X10_documents_keep_their_asset (λ d, d) sample_guess_type
              sample_clean_ipv6_address sample_mime_encode sample_LOGIN_URL
              sample_calls alice_get 1%nat) as (Hfk & _).
  exact (Hfk 1%nat deed_document eq_refl).
Defined.

Lemma X11_witness :
  wf sample_db ∧ wf_documents sample_db
  ∧ assets sample_db !! 1%nat = Some coins
  ∧ documents sample_db !! 1%nat = Some deed_document
  ∧ HttpRequest.user bob_deletes_coins.2 ≠ Some (Asset.owner coins)
  ∧ assets (serve sample_guess_type (λ d, d) sample_clean_ipv6_address
      sample_mime_encode sample_LOGIN_URL sample_db bob_deletes_coins) !! 1%nat
    = Some coins
  ∧ documents (serve sample_guess_type (λ d, d) sample_clean_ipv6_address
      sample_mime_encode sample_LOGIN_URL sample_db bob_deletes_coins) !! 1%nat
    = Some deed_document.
Proof.
  assert (Hwf : wf sample_db) by (apply (bool_decide_unpack _); vm_compute; exact I).
  assert (Hwfd : wf_documents sample_db)
    by (apply (bool_decide_unpack _); vm_compute; exact I).
  assert (Hne : HttpRequest.user bob_deletes_coins.2 ≠ Some (Asset.owner coins))
    by (vm_compute; intros [= H]; lia).
  destruct (X11_foreign_rows_untouched (λ d, d) sample_guess_type
              sample_clean_ipv6_address sample_mime_encode sample_LOGIN_URL
              sample_db bob_deletes_coins Hwf Hwfd) as [Hassets Hdocuments].
  split; [exact Hwf|]. split; [exact Hwfd|]. do 2 (split; [reflexivity|]).
  split; [exact Hne|]. split.
  - exact (Hassets 1%nat coins eq_refl Hne).
  - exact (Hdocuments 1%nat deed_document coins eq_refl eq_refl Hne).
Defined.

Lemma X12_witness :
  wf sample_db
  ∧ assets sample_db !! 2%nat = Some ACME_shares
  ∧ assets (run sample_guess_type (λ d, d) sample_clean_ipv6_address
      sample_mime_encode sample_LOGIN_URL
              [bob_deletes_coins; (urls.asset_update 2%nat, alice_uploads)]
              sample_db) !! 2%nat
    = Some (Asset.mk alice "Coins" "gold" 12000 (Some EmptyString) 738000 None None None
              no_special)
  ∧ Asset.owner
      (Asset.mk alice "Coins" "gold" 12000 (Some EmptyString) 738000 None None None
              no_special)
    = Asset.owner ACME_shares.
Proof.
  assert (Hwf : wf sample_db) by (apply (bool_decide_unpack _); vm_compute; exact I).
  assert (Hbefore : assets sample_db !! 2%nat = Some ACME_shares) by reflexivity.
  assert (Hafter :
            assets (run sample_guess_type (λ d, d) sample_clean_ipv6_address
      sample_mime_encode sample_LOGIN_URL
                      [bob_deletes_coins; (urls.asset_update 2%nat, alice_uploads)]
                      sample_db) !! 2%nat
            = Some (Asset.mk alice "Coins" "gold" 12000 (Some EmptyString) 738000
                      None None None no_special)) by reflexivity.
  split; [exact Hwf|]. split; [exact Hbefore|]. split; [exact Hafter|].
  exact (X12_owner_never_changes (λ d, d) sample_guess_type
           sample_clean_ipv6_address sample_mime_encode sample_LOGIN_URL
           [bob_deletes_coins; (urls.asset_update 2%nat, alice_uploads)]
           sample_db 2%nat ACME_shares
           (Asset.mk alice "Coins" "gold" 12000 (Some EmptyString) 738000 None None None
              no_special)
           Hwf Hbefore Hafter).
Defined.

Lemma X13_witness :
  AssetListView_get_queryset sample_icontains Z sample_to_python sample_value_gte
    sample_value_lte sample_db gold_query alice
    = Some [(1%nat, coins)]
  ∧ NoDup [(1%nat, coins)]
  ∧ assets sample_db !! 1%nat = Some coins.
Proof.
  assert (Hq : AssetListView_get_queryset sample_icontains Z sample_to_python
                 sample_value_gte sample_value_lte sample_db gold_query alice
               = Some [(1%nat, coins)]) by reflexivity.
  split; [exact Hq|].
  destruct (proj1 (X13_asset_list_filters sample_icontains Z sample_to_python
                     sample_value_gte sample_value_lte sample_db gold_query alice)
              _ Hq) as [Hnd Hrows].
  split; [exact Hnd|].
  exact (proj1 (proj1 (Hrows 1%nat coins) ltac:(left))).
Defined.

Lemma X17_witness :
  assets (run sample_guess_type (λ d, d) sample_clean_ipv6_address
      sample_mime_encode sample_LOGIN_URL sample_calls empty_db) !! 1%nat = Some coins
  ∧ asset_checked coins.
Proof.
  split; [reflexivity|].
  exact (X17_stored_assets_checked (λ d, d) sample_guess_type
           sample_clean_ipv6_address sample_mime_encode sample_LOGIN_URL sample_calls
           1%nat coins eq_refl).
Defined.

Lemma X18_witness :
  HttpRequest.user alice_uploads = Some alice
  ∧ AssetForm.is_valid
      (AssetForm.mk (HttpRequest.GET alice_uploads !! "category") None
         (HttpRequest.POST alice_uploads)) = true
  ∧ documents (AssetCreateView_post sample_guess_type (F:=Z) sample_clean_ipv6_address
      alice_uploads
                 sample_db).2 !! 3%nat
    = Some (stored_document sample_guess_type 4 deed_pdf)
  ∧ document_seq (AssetCreateView_post sample_guess_type (F:=Z) sample_clean_ipv6_address
      alice_uploads
                    sample_db).2 = 4%nat.
Proof.
  do 2 (split; [reflexivity|]).
  destruct (X18_create_closed_form (F:=Z) sample_guess_type sample_clean_ipv6_address
              alice_uploads alice sample_db eq_refl eq_refl)
    as (object & _ & _ & _ & _ & _ & _ & Hseq & Hfiles & _).
  split; [|exact Hseq].
  exact (Hfiles 1%nat deed_pdf eq_refl).
Defined.

Lemma X19_witness :
  HttpRequest.user alice_uploads = Some alice
  ∧ assets sample_db !! 1%nat = Some coins
  ∧ Asset.owner coins = alice
  ∧ AssetForm.is_valid
      (AssetForm.mk None (Some (1%nat, coins)) (HttpRequest.POST alice_uploads)) = true
  ∧ documents (AssetUpdateView_post sample_guess_type (F:=Z) sample_clean_ipv6_address
      alice_uploads 1%nat
                 sample_db).2 !! 1%nat
    = Some deed_document
  ∧ documents (AssetUpdateView_post sample_guess_type (F:=Z) sample_clean_ipv6_address
      alice_uploads 1%nat
                 sample_db).2 !! 2%nat
    = Some (stored_document sample_guess_type 1 setup_exe).
Proof.
  do 4 (split; [reflexivity|]).
  destruct (X19_update_closed_form (F:=Z) sample_guess_type sample_clean_ipv6_address
              alice_uploads alice 1%nat coins sample_db eq_refl eq_refl eq_refl
              eq_refl)
    as (object & _ & _ & _ & _ & _ & _ & Hfiles & Hold & _).
  split.
  - rewrite (Hold 1%nat); [reflexivity|]. vm_compute. lia.
  - exact (Hfiles 0%nat setup_exe eq_refl).
Defined.

Lemma X20_witness :
  wf_documents sample_db
  ∧ HttpRequest.user alice_get = Some alice
  ∧ assets sample_db !! 1%nat = Some coins
  ∧ Asset.owner coins = alice
  ∧ documents
      (delete_document (F:=Z) sample_clean_ipv6_address sample_LOGIN_URL alice_get
         (AssetDocument_create_from_file sample_guess_type 1 setup_exe sample_db).1.1
         (AssetDocument_create_from_file sample_guess_type 1 setup_exe sample_db).2).2
    = documents sample_db.
Proof.
  assert (Hwfd : wf_documents sample_db)
    by (apply (bool_decide_unpack _); vm_compute; exact I).
  split; [exact Hwfd|]. do 3 (split; [reflexivity|]).
  exact (proj1 (X20_store_then_delete_document (F:=Z) sample_guess_type
                  sample_clean_ipv6_address sample_LOGIN_URL alice_get
                  alice 1%nat coins setup_exe sample_db Hwfd eq_refl eq_refl eq_refl)).
Defined.

Lemma X22_witness :
  (ActivityLog.mk (Some alice) "view" "Coins" "gold" None (Some "2001:db8::1"))
    ∈ ActivityLogView_get_queryset
        (ActivityLog_objects_create sample_clean_ipv6_address
           (ActivityLog.mk (Some alice) "view" "Coins" "gold" None
              (Some "2001:DB8:0:0:0:0:0:1"))
           sample_db).2 alice
  ∧ ActivityLog.user
      (ActivityLog.mk (Some alice) "view" "Coins" "gold" None (Some "2001:db8::1"))
    = Some alice.
Proof.
  assert (Hin : (ActivityLog.mk (Some alice) "view" "Coins" "gold" None
                   (Some "2001:db8::1"))
                ∈ ActivityLogView_get_queryset
                    (ActivityLog_objects_create sample_clean_ipv6_address
                       (ActivityLog.mk (Some alice) "view" "Coins" "gold" None
                          (Some "2001:DB8:0:0:0:0:0:1"))
                       sample_db).2 alice) by (vm_compute; left).
  split; [exact Hin|].
  destruct (X22_activity_log_view (λ d : Decimal, d) sample_clean_ipv6_address
              (ActivityLog_objects_create sample_clean_ipv6_address
                 (ActivityLog.mk (Some alice) "view" "Coins" "gold" None
                    (Some "2001:DB8:0:0:0:0:0:1"))
                 sample_db).2 alice
              (ActivityLog.mk None "view" "Coins" "gold" None None))
    as (Hrows & _).
  exact (proj2 (proj1 (Hrows _) Hin)).
Defined.

Lemma X23_witness :
  (length (Asset_objects_filter_owner sample_db alice) ≤ 5)%nat
  ∧ assets sample_db !! 2%nat = Some ACME_shares
  ∧ Asset.owner ACME_shares = alice
  ∧ (2%nat, ACME_shares)
      ∈ recent_assets (DashboardView_get_context_data (λ d, d) sample_db alice).
Proof.
  assert (Hshort : (length (Asset_objects_filter_owner sample_db alice) ≤ 5)%nat)
    by (vm_compute; lia).
  split; [exact Hshort|]. do 2 (split; [reflexivity|]).
  destruct (X23_recent_assets (λ d : Decimal, d) sample_db alice)
    as (_ & _ & _ & _ & Hall).
  exact (Hall Hshort 2%nat ACME_shares eq_refl eq_refl).
Defined.

Lemma X25_witness :
  HttpRequest.user alice_get = Some alice
  ∧ assets sample_db !! 1%nat = Some coins
  ∧ Asset.owner coins = alice
  ∧ has_line_break (UploadedFile.name deed_pdf) = false
  ∧ latin_1 (UploadedFile.name deed_pdf) = true
  ∧ ∃ content_type,
      download_document (F:=Z) sample_mime_encode sample_LOGIN_URL alice_get
        (AssetDocument_create_from_file sample_guess_type 1 deed_pdf sample_db).1.1
        (AssetDocument_create_from_file sample_guess_type 1 deed_pdf sample_db).2
      = (HttpResponseOk (Some (UploadedFile.content deed_pdf)) (Some content_type)
           [ ("Content-Disposition",
              "attachment; filename=" +:+ quote +:+ "Deed.PDF" +:+ quote);
             ("Content-Length", "6") ],
         (AssetDocument_create_from_file sample_guess_type 1 deed_pdf sample_db).2)
      ∧ content_type = "application/pdf".
Proof.
  do 5 (split; [reflexivity|]).
  destruct (X25_upload_download_roundtrip (F:=Z) sample_guess_type sample_mime_encode
              sample_LOGIN_URL sample_db alice_get alice 1%nat coins deed_pdf
              eq_refl eq_refl eq_refl eq_refl)
    as (content_type & content_disposition & Hdownload & _ & Hguessed & Hlatin & _).
  exists content_type. split.
  - rewrite Hdownload, (Hlatin eq_refl). reflexivity.
  - apply Hguessed; [reflexivity|discriminate].
Defined.

(** ** The chart over stored categories *)

Lemma choices_cases (c : string) :
  c ∈ Asset.CATEGORY_CHOICES.*1 →
  c = "mutual_funds" ∨ c = "stocks" ∨ c = "lands" ∨ c = "flats"
  ∨ c = "fixed_deposit" ∨ c = "medical_insurance" ∨ c = "life_insurance"
  ∨ c = "gold".
Proof.
  change (Asset.CATEGORY_CHOICES.*1)
    with ["mutual_funds"; "stocks"; "lands"; "flats"; "fixed_deposit";
          "medical_insurance"; "life_insurance"; "gold"].
  rewrite !elem_of_cons, elem_of_nil. tauto.
Qed.

Lemma label_of_inj (c1 c2 : string) :
  c1 ∈ Asset.CATEGORY_CHOICES.*1 → c2 ∈ Asset.CATEGORY_CHOICES.*1 →
  label_of c1 = label_of c2 → c1 = c2.
Proof.
  intros H1%choices_cases H2%choices_cases.
  destruct_or!; subst; vm_compute; (reflexivity || discriminate).
Qed.

Lemma color_of_palette (c : string) :
  c ∈ Asset.CATEGORY_CHOICES.*1 → color_of c ≠ "#6B7280".
Proof. intros H%choices_cases. destruct_or!; subst; vm_compute; discriminate. Qed.

(** X24.  Over every database that the endpoints produce from the empty
    one, the chart of a user has as many labels as values as colours, no
    label twice, and no colour that is the fallback grey: every stored
    category has its display name and its palette colour. *)
Theorem X24_chart_labels_distinct {F : Type} (float : Decimal → F)
    (guess_type clean_ipv6_address : string → option string)
    (mime_encode : string → string) (LOGIN_URL : Location)
    (calls : list (urls.t * HttpRequest.t)) (request : HttpRequest.t) (user : User) :
  HttpRequest.user request = Some user →
  ∃ data,
    (chart_data_api float LOGIN_URL request
       (run guess_type float clean_ipv6_address mime_encode LOGIN_URL calls
          empty_db)).1
    = JsonResponse data
    ∧ length (labels data) = length (values data)
    ∧ length (values data) = length (colors data)
    ∧ NoDup (labels data)
    ∧ "#6B7280" ∉ colors data.
Proof.
  intros Hu.
  set (db := run guess_type float clean_ipv6_address mime_encode LOGIN_URL calls
               empty_db).
  assert (Hchecked : map_Forall (λ _ a, asset_checked a) (assets db)).
  { apply (run_invariant float guess_type clean_ipv6_address mime_encode LOGIN_URL
             (λ db, map_Forall (λ _ a, asset_checked a) (assets db)));
      [|apply map_Forall_empty].
    intros db0 call0 H0. eapply effect_checked; [done|].
    apply (serve_request_effect float). }
  set (rows := values_category_annotate (Asset_objects_filter_owner db user)).
  assert (Hcats : ∀ c, c ∈ br_category <$> rows → c ∈ Asset.CATEGORY_CHOICES.*1).
  { intros c ([k a] & [_ Hin]%list_elem_of_filter & <-)%annotate_elem_of.
    apply elem_of_map_to_list in Hin. simpl.
    by destruct (Hchecked k a Hin) as (_ & ? & _). }
  exists (chart_of float rows). split_and!.
  - unfold chart_data_api, LoginRequiredMixin, login_required. by rewrite Hu.
  - simpl. by rewrite !length_fmap.
  - simpl. by rewrite !length_fmap.
  - simpl. rewrite list_fmap_compose.
    apply NoDup_fmap_2_strong; [|apply annotate_NoDup].
    intros c1 c2 H1 H2. apply label_of_inj; by apply Hcats.
  - simpl. rewrite list_fmap_compose.
    intros (c & Hc & Hin)%list_elem_of_fmap.
    by apply (color_of_palette c (Hcats c Hin)).
Qed.

Lemma X24_witness :
  HttpRequest.user alice_get = Some alice
  ∧ ∃ data,
      (chart_data_api (λ d, d) sample_LOGIN_URL alice_get sample_db).1 = JsonResponse data
      ∧ NoDup (labels data).
Proof.
  split; [reflexivity|].
  destruct (X24_chart_labels_distinct (λ d, d) sample_guess_type
              sample_clean_ipv6_address sample_mime_encode sample_LOGIN_URL
              sample_calls alice_get alice eq_refl)
    as (data & Hdata & _ & _ & Hnd & _).
  exists data. split; [exact Hdata|exact Hnd].
Defined.
